(** * MinimalModbus (pyboard port): the Modbus RTU protocol engine

    A shallow embedding of [minimalmodbus.py]: frame construction, the
    CRC16 engine, response-size prediction, the register codec, response
    validation and the inter-frame timing of [Instrument._communicate].

    Conventions of the embedding.
    - A Python [int] is a [Z].  A Python [float] is an IEEE 754 binary64
      value, a [spec_float] of the Standard Library with [prec = 53] and
      [emax = 1024]; arithmetic rounds to nearest even.  Converting an
      [int] gives the nearest float, and raises [OverflowError] for an
      [int] beyond the range of a float ([py_float]).
    - A [bytearray], a [bytes] object and a [str] are told apart by a tag
      ([pybuf]), because [_checkString] tests [isinstance(_, bytearray)].
    - A raised exception is a value of [pyexn]: its class and the leading
      words of the message template of the source.
    - The module-level dictionary [_LATEST_READ_TIMES], the clock and the
      serial line live in an explicit [World] that is threaded through the
      methods of [Instrument]; an exception leaves the effects performed so
      far in place.
    - The serial port ([pyb.UART]) and the clock ([time]) are outside the
      module: a read delivers [bytes], at most as many as asked for and
      fewer (possibly none) on a timeout; [time.ticks_ms] reads the
      millisecond counter of the board; the calls of [time.sleep_ms],
      [serial.write] and [serial.read] are recorded with their arguments.
    - Where the module mixes [str] literals with [bytearray] values the
      outcome depends on the Python runtime, which is a parameter
      ([PyRuntime]) of the functions that get there.
    - Arguments whose type the callers fix (function codes, addresses,
      counts, flags) are typed; [value], which may be [None], a number or a
      list, is a [pyvalue].
    - Debug printing ([self.debug], [_print_out]) has no influence on the
      returned values or on the effects modelled here and is left out. *)

From Stdlib Require Import ZArith List String Ascii Bool Lia.
From Stdlib Require Import Floats.SpecFloat.
From stdpp Require Import base option gmap.
Import ListNotations.

#[local] Set Warnings "-register-all".
Local Open Scope string_scope.
Local Open Scope list_scope.
Local Open Scope Z_scope.

(** ** Exceptions and results *)

Inductive pyexn : Type :=
  | TypeError (msg : string)
  | ValueError (msg : string)
  | IOError (msg : string)
  | IndexError (msg : string)
  | NameError (msg : string)
  | ZeroDivisionError (msg : string)
  | OverflowError (msg : string)
  | AssertionError.

Inductive result (A : Type) : Type :=
  | Ok (a : A)
  | Raise (e : pyexn).
Arguments Ok {A} a.
Arguments Raise {A} e.

#[global] Instance result_ret : MRet result := fun _ a => Ok a.
#[global] Instance result_bind : MBind result := fun _ _ k r =>
  match r with
  | Ok a => k a
  | Raise e => Raise e
  end.

(** ** Python values *)

(** Buffers: [bytearray(...)], [bytes] (what a serial read delivers) and
    [str] literals such as ['\xff\x00'] (a list of character codes). *)
Inductive pybuf : Type :=
  | ByteArray (bs : list Z)
  | Bytes (bs : list Z)
  | Str (cs : list Z).

Definition buf_data (b : pybuf) : list Z :=
  match b with ByteArray l | Bytes l | Str l => l end.

Definition buf_len (b : pybuf) : Z := Z.of_nat (length (buf_data b)).

Inductive pyvalue : Type :=
  | VNone
  | VInt (z : Z)
  | VFloat (f : spec_float)
  | VList (l : list pyvalue)
  | VBuf (b : pybuf).

(** *** Sequences: indexing and slicing *)

Definition norm_index (len i : Z) : Z :=
  if i <? 0 then Z.max 0 (i + len) else Z.min i len.

(** [l[i:j]] *)
Definition py_slice {A} (l : list A) (i j : Z) : list A :=
  let n := Z.of_nat (length l) in
  let a := norm_index n i in
  let b := norm_index n j in
  firstn (Z.to_nat (b - a)) (skipn (Z.to_nat a) l).

(** [l[i:]] *)
Definition py_slice_from {A} (l : list A) (i : Z) : list A :=
  py_slice l i (Z.of_nat (length l)).

(** [l[i]] for [i >= 0]; negative indices count from the end. *)
Definition py_index {A} (l : list A) (i : Z) : result A :=
  let n := Z.of_nat (length l) in
  let k := if i <? 0 then i + n else i in
  if (k <? 0) || (n <=? k) then Raise (IndexError "index out of range")
  else match nth_error l (Z.to_nat k) with
       | Some x => Ok x
       | None => Raise (IndexError "index out of range")
       end.

Definition buf_slice (b : pybuf) (i j : Z) : pybuf :=
  match b with
  | ByteArray l => ByteArray (py_slice l i j)
  | Bytes l => Bytes (py_slice l i j)
  | Str l => Str (py_slice l i j)
  end.

Definition buf_slice_from (b : pybuf) (i : Z) : pybuf :=
  buf_slice b i (buf_len b).

(** Equality of two buffers of byte kind compares their contents; a [str]
    only equals a [str]. *)
Definition list_Z_eqb (a b : list Z) : bool :=
  bool_decide (a = b).

Definition buf_eqb (a b : pybuf) : bool :=
  match a, b with
  | Str x, Str y => list_Z_eqb x y
  | Str _, _ | _, Str _ => false
  | _, _ => list_Z_eqb (buf_data a) (buf_data b)
  end.

(** *** Floats: binary64 *)

Definition prec : Z := 53.
Definition emax : Z := 1024.

(** The float nearest to an integer, ties to even.  The rounding of an
    integer beyond the largest float is an infinity. *)
Definition Z2SF (z : Z) : spec_float := binary_normalize prec emax z 0 false.

(** [float(z)] for an [int], and the conversion of an [int] operand of a
    float operation: the nearest float, and [OverflowError] for an integer
    beyond the largest float. *)
Definition py_float (z : Z) : result spec_float :=
  match Z2SF z with
  | S754_infinity _ => Raise (OverflowError "int too large to convert to float")
  | f => Ok f
  end.

Definition SF64mul := SFmul prec emax.
Definition SF64div := SFdiv prec emax.
Definition SF64sub := SFsub prec emax.

Definition SF_is_zero (f : spec_float) : bool :=
  match f with S754_zero _ => true | _ => false end.

(** [x / y] on floats raises on a zero divisor. *)
Definition py_float_div (x y : spec_float) : result spec_float :=
  if SF_is_zero y then Raise (ZeroDivisionError "float division by zero")
  else Ok (SF64div x y).

(** [int(f)]: truncation toward zero. *)
Definition float_to_int (f : spec_float) : result Z :=
  match f with
  | S754_zero _ => Ok 0
  | S754_infinity _ => Raise (OverflowError "cannot convert float infinity to integer")
  | S754_nan => Raise (ValueError "cannot convert float NaN to integer")
  | S754_finite s m e =>
      let mag := if 0 <=? e then Z.pos m * 2 ^ e else Z.pos m / 2 ^ (- e) in
      Ok (if s then - mag else mag)
  end.

(** Exact comparison of an integer with a float, as Python compares an
    [int] with a [float]: [Z_lt_float z f] is [z < f]. *)
Definition Z_lt_float (z : Z) (f : spec_float) : bool :=
  match f with
  | S754_nan => false
  | S754_infinity s => negb s
  | S754_zero _ => z <? 0
  | S754_finite s m e =>
      let v := if s then Z.neg m else Z.pos m in
      if 0 <=? e then z <? v * 2 ^ e else z * 2 ^ (- e) <? v
  end.

Definition float_lt_Z (f : spec_float) (z : Z) : bool :=
  match f with
  | S754_nan => false
  | S754_infinity s => s
  | S754_zero _ => 0 <? z
  | S754_finite s m e =>
      let v := if s then Z.neg m else Z.pos m in
      if 0 <=? e then v * 2 ^ e <? z else v <? z * 2 ^ (- e)
  end.

(** ** Named constants of the module *)

Definition _NUMBER_OF_BYTES_PER_REGISTER : Z := 2.
Definition MODE_RTU : string := "rtu".

(** ** Error checking functions *)

(** [inputvalue < bound] and [inputvalue > bound] for a numerical value. *)
Definition num_lt_Z (v : pyvalue) (bound : Z) : bool :=
  match v with
  | VInt z => z <? bound
  | VFloat f => float_lt_Z f bound
  | _ => false
  end.

Definition num_gt_Z (v : pyvalue) (bound : Z) : bool :=
  match v with
  | VInt z => bound <? z
  | VFloat f => Z_lt_float bound f
  | _ => false
  end.

Definition _checkNumerical (inputvalue : pyvalue) (minvalue maxvalue : option Z)
    (description : string) : result unit :=
  match inputvalue with
  | VInt _ | VFloat _ =>
      match minvalue, maxvalue with
      | Some lo, Some hi =>
          if hi <? lo then Raise (ValueError "The maxvalue must not be smaller than minvalue")
          else Ok tt
      | _, _ => Ok tt
      end ;;
      match minvalue with
      | Some lo =>
          if num_lt_Z inputvalue lo
          then Raise (ValueError ("The " ++ description ++ " is too small"))
          else Ok tt
      | None => Ok tt
      end ;;
      match maxvalue with
      | Some hi =>
          if num_gt_Z inputvalue hi
          then Raise (ValueError ("The " ++ description ++ " is too large"))
          else Ok tt
      | None => Ok tt
      end
  | _ => Raise (TypeError ("The " ++ description ++ " must be numerical"))
  end.

Definition _checkInt (inputvalue : pyvalue) (minvalue maxvalue : option Z)
    (description : string) : result unit :=
  match inputvalue with
  | VInt _ => _checkNumerical inputvalue minvalue maxvalue description
  | _ => Raise (TypeError ("The " ++ description ++ " must be an integer"))
  end.

Definition _checkString (inputstring : pybuf) (description : string)
    (minlength : Z) (maxlength : option Z) : result unit :=
  match inputstring with
  | ByteArray _ =>
      _checkInt (VInt minlength) (Some 0) None "minlength" ;;
      (if buf_len inputstring <? minlength
       then Raise (ValueError ("The " ++ description ++ " is too short"))
       else Ok tt) ;;
      match maxlength with
      | None => Ok tt
      | Some mx =>
          if mx <? 0 then Raise (ValueError "The maxlength must be positive")
          else if mx <? minlength
          then Raise (ValueError "The maxlength must not be smaller than minlength")
          else if mx <? buf_len inputstring
          then Raise (ValueError ("The " ++ description ++ " is too long"))
          else Ok tt
      end
  | _ => Raise (TypeError ("The " ++ description ++ " should be a string"))
  end.

Definition _checkMode (mode : string) : result unit :=
  if String.eqb mode MODE_RTU then Ok tt
  else Raise (ValueError "Unreconized Modbus mode given").

Fixpoint check_all (l : list Z) (chk : Z -> result unit) : result unit :=
  match l with
  | [] => Ok tt
  | x :: rest => chk x ;; check_all rest chk
  end.

Definition Z_in (x : Z) (l : list Z) : bool := existsb (Z.eqb x) l.

(** [listOfAllowedValues] is [None] or a list of integers. *)
Definition _checkFunctioncode (functioncode : Z) (listOfAllowedValues : option (list Z))
    : result unit :=
  let FUNCTIONCODE_MIN := 1 in
  let FUNCTIONCODE_MAX := 127 in
  _checkInt (VInt functioncode) (Some FUNCTIONCODE_MIN) (Some FUNCTIONCODE_MAX) "functioncode" ;;
  match listOfAllowedValues with
  | None => Ok tt
  | Some allowed =>
      check_all allowed (fun value =>
        _checkInt (VInt value) (Some FUNCTIONCODE_MIN) (Some FUNCTIONCODE_MAX)
          "functioncode inside listOfAllowedValues") ;;
      if Z_in functioncode allowed then Ok tt
      else Raise (ValueError "Wrong function code")
  end.

Definition _checkSlaveaddress (slaveaddress : Z) : result unit :=
  let SLAVEADDRESS_MAX := 247 in
  let SLAVEADDRESS_MIN := 0 in
  _checkInt (VInt slaveaddress) (Some SLAVEADDRESS_MIN) (Some SLAVEADDRESS_MAX) "slaveaddress".

Definition _checkRegisteraddress (registeraddress : Z) : result unit :=
  let REGISTERADDRESS_MAX := 0xFFFF in
  let REGISTERADDRESS_MIN := 0 in
  _checkInt (VInt registeraddress) (Some REGISTERADDRESS_MIN) (Some REGISTERADDRESS_MAX)
    "registeraddress".

(** ** String and num conversions *)

(** [struct.pack(formatstring, value)] for the four format codes the module
    builds; [None] stands for [struct.error]. *)
Definition struct_pack (formatstring : string) (value : Z) : option (list Z) :=
  let w := value mod 65536 in
  let hi := w / 256 in
  let lo := w mod 256 in
  let fits_H := (0 <=? value) && (value <=? 65535) in
  let fits_h := (-32768 <=? value) && (value <=? 32767) in
  if String.eqb formatstring ">H" then (if fits_H then Some [hi; lo] else None)
  else if String.eqb formatstring "<H" then (if fits_H then Some [lo; hi] else None)
  else if String.eqb formatstring ">h" then (if fits_h then Some [hi; lo] else None)
  else if String.eqb formatstring "<h" then (if fits_h then Some [lo; hi] else None)
  else None.

(** [struct.unpack(formatstring, packed)[0]] for ['>H'] and ['>h']. *)
Definition struct_unpack (formatstring : string) (packed : list Z) : option Z :=
  match packed with
  | [hi; lo] =>
      let u := hi * 256 + lo in
      if String.eqb formatstring ">H" then Some u
      else if String.eqb formatstring ">h" then Some (if u <? 32768 then u else u - 65536)
      else None
  | _ => None
  end.

Definition _pack (formatstring : string) (value : Z) : result pybuf :=
  match struct_pack formatstring value with
  | Some bs => Ok (ByteArray bs)
  | None => Raise (ValueError "The value to send is probably out of range")
  end.

Definition _unpack (formatstring : string) (packed : pybuf) : result Z :=
  _checkString packed "packed string" 1 None ;;
  match struct_unpack formatstring (buf_data packed) with
  | Some value => Ok value
  | None => Raise (ValueError "The received bytearray is probably wrong")
  end.

Definition _numToOneByteArray (inputvalue : Z) : result pybuf :=
  _checkInt (VInt inputvalue) (Some 0) (Some 0xFF) "inputvalue" ;;
  Ok (ByteArray [inputvalue]).

(** [float(value)]; a value that is not a number does not pass
    [_checkNumerical] and does not get here. *)
Definition float_of_value (value : pyvalue) : result spec_float :=
  match value with
  | VInt z => py_float z
  | VFloat f => Ok f
  | _ => Raise (TypeError "float() argument must be a string or a number")
  end.

Definition _numToTwoByteArray (value : pyvalue) (numberOfDecimals : Z)
    (LsbFirst signed : bool) : result pybuf :=
  _checkNumerical value None None "inputvalue" ;;
  _checkInt (VInt numberOfDecimals) (Some 0) None "number of decimals" ;;
  let multiplier := 10 ^ numberOfDecimals in
  (* int(float(value) * multiplier): the product converts the int multiplier *)
  x ← float_of_value value ;
  m ← py_float multiplier ;
  integer ← float_to_int (SF64mul x m) ;
  let formatcode := if LsbFirst then "<" else ">" in
  let formatcode := (formatcode ++ (if signed then "h" else "H"))%string in
  outstring ← _pack formatcode integer ;
  if buf_len outstring =? 2 then Ok outstring else Raise AssertionError.

Definition _twoByteStringToNum (bytearray : pybuf) (numberOfDecimals : Z)
    (signed : bool) : result pyvalue :=
  _checkString bytearray "bytearray" 2 (Some 2) ;;
  _checkInt (VInt numberOfDecimals) (Some 0) None "number of decimals" ;;
  let formatcode := ">" in
  let formatcode := (formatcode ++ (if signed then "h" else "H"))%string in
  fullregister ← _unpack formatcode bytearray ;
  if numberOfDecimals =? 0 then Ok (VInt fullregister)
  else
    let divisor := 10 ^ numberOfDecimals in
    (* fullregister / float(divisor): the division converts the int dividend *)
    d ← py_float divisor ;
    n ← py_float fullregister ;
    q ← py_float_div n d ;
    Ok (VFloat q).

(** ** Bit manipulation *)

Definition _setBitOn (x bitNum : Z) : result Z :=
  _checkInt (VInt x) (Some 0) None "input value" ;;
  _checkInt (VInt bitNum) (Some 0) None "bitnumber" ;;
  Ok (Z.lor x (Z.shiftl 1 bitNum)).

(** ** The CRC16 engine *)

Definition _CRC16TABLE : list Z := [
      0; 49345; 49537;   320; 49921;   960;   640; 49729; 50689;  1728;  1920;
  51009;  1280; 50625; 50305;  1088; 52225;  3264;  3456; 52545;  3840; 53185;
  52865;  3648;  2560; 51905; 52097;  2880; 51457;  2496;  2176; 51265; 55297;
   6336;  6528; 55617;  6912; 56257; 55937;  6720;  7680; 57025; 57217;  8000;
  56577;  7616;  7296; 56385;  5120; 54465; 54657;  5440; 55041;  6080;  5760;
  54849; 53761;  4800;  4992; 54081;  4352; 53697; 53377;  4160; 61441; 12480;
  12672; 61761; 13056; 62401; 62081; 12864; 13824; 63169; 63361; 14144; 62721;
  13760; 13440; 62529; 15360; 64705; 64897; 15680; 65281; 16320; 16000; 65089;
  64001; 15040; 15232; 64321; 14592; 63937; 63617; 14400; 10240; 59585; 59777;
  10560; 60161; 11200; 10880; 59969; 60929; 11968; 12160; 61249; 11520; 60865;
  60545; 11328; 58369;  9408;  9600; 58689;  9984; 59329; 59009;  9792;  8704;
  58049; 58241;  9024; 57601;  8640;  8320; 57409; 40961; 24768; 24960; 41281;
  25344; 41921; 41601; 25152; 26112; 42689; 42881; 26432; 42241; 26048; 25728;
  42049; 27648; 44225; 44417; 27968; 44801; 28608; 28288; 44609; 43521; 27328;
  27520; 43841; 26880; 43457; 43137; 26688; 30720; 47297; 47489; 31040; 47873;
  31680; 31360; 47681; 48641; 32448; 32640; 48961; 32000; 48577; 48257; 31808;
  46081; 29888; 30080; 46401; 30464; 47041; 46721; 30272; 29184; 45761; 45953;
  29504; 45313; 29120; 28800; 45121; 20480; 37057; 37249; 20800; 37633; 21440;
  21120; 37441; 38401; 22208; 22400; 38721; 21760; 38337; 38017; 21568; 39937;
  23744; 23936; 40257; 24320; 40897; 40577; 24128; 23040; 39617; 39809; 23360;
  39169; 22976; 22656; 38977; 34817; 18624; 18816; 35137; 19200; 35777; 35457;
  19008; 19968; 36545; 36737; 20288; 36097; 19904; 19584; 35905; 17408; 33985;
  34177; 17728; 34561; 18368; 18048; 34369; 33281; 17088; 17280; 33601; 16640;
  33217; 32897; 16448
].

(** The body of [for char in inputstring: register = ...]: the register
    reached, and whether the loop ran to its end. *)
Fixpoint crc_update (register : Z) (chars : list Z) : Z * result unit :=
  match chars with
  | [] => (register, Ok tt)
  | char :: rest =>
      match py_index _CRC16TABLE (Z.land (Z.lxor register char) 0xFF) with
      | Ok t => crc_update (Z.lxor (Z.shiftr register 8) t) rest
      | Raise e => (register, Raise e)
      end
  end.

(** The elements of a [bytearray] or of [bytes] are integers; those of a
    [str] are characters, on which [register ^ char] raises. *)
Definition crc_loop (register : Z) (inputstring : pybuf) : Z * result unit :=
  match inputstring with
  | ByteArray l | Bytes l => crc_update register l
  | Str [] => (register, Ok tt)
  | Str (_ :: _) => (register, Raise (TypeError "unsupported operand type(s) for ^"))
  end.

Definition _calculateCrcString (inputstring : pybuf) : result pybuf :=
  let register := 0xFFFF in
  let '(register, outcome) :=
    match _checkString inputstring "input CRC string" 0 None with
    | Ok _ => crc_loop register inputstring
    | Raise e => (register, Raise e)
    end in
  match outcome with
  | Ok _ => _numToTwoByteArray (VInt register) 0 true false
  | Raise _ =>
      let '(register, outcome) := crc_loop register inputstring in
      outcome ;;
      _numToTwoByteArray (VInt register) 0 true false
  end.

(** ** Payload handling *)

(** [a + b] for two [bytearray]s. *)
Definition bytearray_add (a b : pybuf) : pybuf :=
  ByteArray (buf_data a ++ buf_data b).

Definition _embedPayload (slaveaddress : Z) (mode : string) (functioncode : Z)
    (payloaddata : pybuf) : result pybuf :=
  _checkSlaveaddress slaveaddress ;;
  _checkMode mode ;;
  _checkFunctioncode functioncode None ;;
  _checkString payloaddata "payload" 0 None ;;
  a ← _numToOneByteArray slaveaddress ;
  f ← _numToOneByteArray functioncode ;
  let firstPart := bytearray_add (bytearray_add a f) payloaddata in
  crc ← _calculateCrcString firstPart ;
  let request := bytearray_add firstPart crc in
  Ok request.

(** [b[i]]: an integer for a buffer of bytes, a one-character [str] for a
    [str]. *)
Definition buf_index (b : pybuf) (i : Z) : result pyvalue :=
  x ← py_index (buf_data b) i ;
  Ok (match b with Str _ => VBuf (Str [x]) | _ => VInt x end).

(** [v != z] for an integer [z]. *)
Definition py_ne_int (v : pyvalue) (z : Z) : bool :=
  match v with
  | VInt x => negb (x =? z)
  | VFloat S754_nan => true
  | VFloat f => float_lt_Z f z || Z_lt_float z f
  | _ => true
  end.

Definition _extractPayload (response : pybuf) (slaveaddress : Z) (mode : string)
    (functioncode : Z) : result pybuf :=
  let BYTEPOSITION_FOR_SLAVEADDRESS := 0 in
  let BYTEPOSITION_FOR_FUNCTIONCODE := 1 in
  let NUMBER_OF_RESPONSE_STARTBYTES := 2 in
  let NUMBER_OF_CRC_BYTES := 2 in
  let BITNUMBER_FUNCTIONCODE_ERRORINDICATION := 7 in
  let MINIMAL_RESPONSE_LENGTH_RTU := NUMBER_OF_RESPONSE_STARTBYTES + NUMBER_OF_CRC_BYTES in
  _checkSlaveaddress slaveaddress ;;
  _checkMode mode ;;
  _checkFunctioncode functioncode None ;;
  if buf_len response <? MINIMAL_RESPONSE_LENGTH_RTU
  then Raise (ValueError "Too short Modbus RTU response")
  else
    let numberOfChecksumBytes := NUMBER_OF_CRC_BYTES in
    let receivedChecksum := buf_slice_from response (- numberOfChecksumBytes) in
    let responseWithoutChecksum :=
      buf_slice response 0 (buf_len response - numberOfChecksumBytes) in
    calculatedChecksum ← _calculateCrcString responseWithoutChecksum ;
    if negb (buf_eqb receivedChecksum calculatedChecksum)
    then Raise (ValueError "Checksum error in rtu mode")
    else
      responseaddress ← buf_index response BYTEPOSITION_FOR_SLAVEADDRESS ;
      if py_ne_int responseaddress slaveaddress
      then Raise (ValueError "Wrong return slave address")
      else
        receivedFunctioncode ← buf_index response BYTEPOSITION_FOR_FUNCTIONCODE ;
        errorcode ← _setBitOn functioncode BITNUMBER_FUNCTIONCODE_ERRORINDICATION ;
        if negb (py_ne_int receivedFunctioncode errorcode)
        then Raise (ValueError "The slave is indicating an error")
        else if py_ne_int receivedFunctioncode functioncode
        then Raise (ValueError "Wrong functioncode: {} instead of {}")
        else
          let firstDatabyteNumber := NUMBER_OF_RESPONSE_STARTBYTES in
          let lastDatabyteNumber := buf_len response - NUMBER_OF_CRC_BYTES in
          let payload := buf_slice response firstDatabyteNumber lastDatabyteNumber in
          Ok (ByteArray (buf_data payload)).

(** ** Serial communication utility functions *)

(** An operand of integer arithmetic ([//], [%], [*]) in the predictor. *)
Definition expect_int (v : pyvalue) : result Z :=
  match v with
  | VInt z => Ok z
  | _ => Raise (TypeError "unsupported operand type(s)")
  end.

Definition _predictResponseSize (mode : string) (functioncode : Z)
    (payloadToSlave : pybuf) : result Z :=
  let MIN_PAYLOAD_LENGTH := 4 in
  let NUMBER_OF_PAYLOAD_BYTES_IN_WRITE_CONFIRMATION := 4 in
  let NUMBER_OF_PAYLOAD_BYTES_FOR_BYTECOUNTFIELD := 1 in
  let NUMBER_OF_RTU_RESPONSE_STARTBYTES := 2 in
  let NUMBER_OF_RTU_RESPONSE_ENDBYTES := 2 in
  _checkMode mode ;;
  _checkFunctioncode functioncode None ;;
  _checkString payloadToSlave "payload" MIN_PAYLOAD_LENGTH None ;;
  response_payload_size ←
    (if Z_in functioncode [5; 6; 15; 16]
     then Ok NUMBER_OF_PAYLOAD_BYTES_IN_WRITE_CONFIRMATION
     else if Z_in functioncode [1; 2; 3; 4]
     then
       given ← _twoByteStringToNum (buf_slice payloadToSlave 2 4) 0 false ;
       given_size ← expect_int given ;
       if (functioncode =? 1) || (functioncode =? 2)
       then
         let number_of_inputs := given_size in
         Ok (NUMBER_OF_PAYLOAD_BYTES_FOR_BYTECOUNTFIELD
             + number_of_inputs / 8 + (if number_of_inputs mod 8 =? 0 then 0 else 1))
       else
         (* functioncode == 3 or functioncode == 4 *)
         let number_of_registers := given_size in
         Ok (NUMBER_OF_PAYLOAD_BYTES_FOR_BYTECOUNTFIELD
             + number_of_registers * _NUMBER_OF_BYTES_PER_REGISTER)
     else Raise (ValueError "Wrong functioncode: {}. The payload is")) ;
  Ok (NUMBER_OF_RTU_RESPONSE_STARTBYTES + response_payload_size
      + NUMBER_OF_RTU_RESPONSE_ENDBYTES).

(** The float literal [3.5]. *)
Definition float_3_5 : spec_float := binary_normalize prec emax 7 (-1) false.

(** The int operands [1000] and [11] of the float operations are converted
    exactly. *)
Definition _calculate_minimum_silent_period (baudrate : pyvalue) : result spec_float :=
  _checkNumerical baudrate (Some 1) None "baudrate" ;;
  let BITTIMES_PER_CHARACTERTIME := 11 in
  let MINIMUM_SILENT_CHARACTERTIMES := float_3_5 in
  divisor ← float_of_value baudrate ;
  bittime ← py_float_div (Z2SF 1000) divisor ;
  Ok (SF64mul (SF64mul bittime (Z2SF BITTIMES_PER_CHARACTERTIME))
        MINIMUM_SILENT_CHARACTERTIMES).

(** ** Coil patterns *)

Definition _createBitpattern (functioncode : Z) (value : pyvalue) : result pybuf :=
  _checkFunctioncode functioncode (Some [5; 15]) ;;
  _checkInt value (Some 0) (Some 1) "inputvalue" ;;
  v ← expect_int value ;
  if functioncode =? 5 then
    (if v =? 0 then Ok (Str [0x00; 0x00]) else Ok (Str [0xff; 0x00]))
  else
    (* functioncode == 15 *)
    (if v =? 0 then Ok (Str [0x00]) else Ok (Str [0x01])).

(** ** Checks of the response payload *)

Definition _checkResponseByteCount (payload : pybuf) : result unit :=
  let POSITION_FOR_GIVEN_NUMBER := 0 in
  let NUMBER_OF_BYTES_TO_SKIP := 1 in
  _checkString payload "payload" 1 None ;;
  givenNumberOfDatabytes ← buf_index payload POSITION_FOR_GIVEN_NUMBER ;
  let countedNumberOfDatabytes := buf_len payload - NUMBER_OF_BYTES_TO_SKIP in
  if py_ne_int givenNumberOfDatabytes countedNumberOfDatabytes
  then Raise (ValueError "Wrong given number of bytes in the response")
  else Ok tt.

Definition _checkResponseRegisterAddress (payload : pybuf) (registeraddress : Z)
    : result unit :=
  _checkString payload "payload" 2 None ;;
  _checkRegisteraddress registeraddress ;;
  let bytesForStartAddress := buf_slice payload 0 2 in
  receivedStartAddress ← _twoByteStringToNum bytesForStartAddress 0 false ;
  if py_ne_int receivedStartAddress registeraddress
  then Raise (ValueError "Wrong given write start adress")
  else Ok tt.

Definition _checkResponseNumberOfRegisters (payload : pybuf) (numberOfRegisters : Z)
    : result unit :=
  _checkString payload "payload" 4 None ;;
  _checkInt (VInt numberOfRegisters) (Some 1) (Some 0xFFFF) "numberOfRegisters" ;;
  let bytesForNumberOfRegisters := buf_slice payload 2 4 in
  receivedNumberOfWrittenReisters ← _twoByteStringToNum bytesForNumberOfRegisters 0 false ;
  if py_ne_int receivedNumberOfWrittenReisters numberOfRegisters
  then Raise (ValueError "Wrong number of registers to write in the response")
  else Ok tt.

Definition _checkResponseWriteData (payload writedata : pybuf) : result unit :=
  _checkString payload "payload" 4 None ;;
  _checkString writedata "writedata" 2 (Some 2) ;;
  let receivedWritedata := buf_slice payload 2 4 in
  if negb (buf_eqb receivedWritedata writedata)
  then Raise (ValueError "Wrong write data in the response")
  else Ok tt.

(** ** The world: clock, serial line and the shared read times *)

Inductive event : Type :=
  | EvSleep (duration : spec_float)       (* time.sleep_ms(duration) *)
  | EvWrite (port : Z) (data : list Z)    (* serial.write(data) *)
  | EvRead (port : Z) (size : Z).         (* serial.read(size) *)

(** [ticks] are the values that the coming calls of [time.ticks_ms()]
    return, [incoming] the bytes that the coming calls of [serial.read]
    find on the line (an exhausted script reads as the clock value 0 and
    as a silent line).  [_LATEST_READ_TIMES] is the dictionary of the
    module; [trace] lists the effects performed, oldest first. *)
Record World : Type := mkWorld {
  ticks : list Z;
  incoming : list (list Z);
  _LATEST_READ_TIMES : gmap Z Z;
  trace : list event
}.

Definition M (A : Type) : Type := World -> result A * World.

#[global] Instance M_ret : MRet M := fun _ a w => (Ok a, w).
#[global] Instance M_bind : MBind M := fun _ _ k m w =>
  match m w with
  | (Ok a, w') => k a w'
  | (Raise e, w') => (Raise e, w')
  end.

Definition lift {A} (r : result A) : M A := fun w => (r, w).
Definition raise {A} (e : pyexn) : M A := fun w => (Raise e, w).

Definition log (ev : event) (w : World) : World :=
  mkWorld (ticks w) (incoming w) (_LATEST_READ_TIMES w) (trace w ++ [ev]).

Definition time_ticks_ms : M Z := fun w =>
  (Ok (hd 0 (ticks w)),
   mkWorld (tl (ticks w)) (incoming w) (_LATEST_READ_TIMES w) (trace w)).

Definition time_sleep_ms (duration : spec_float) : M unit := fun w =>
  (Ok tt, log (EvSleep duration) w).

Definition serial_write (port : Z) (data : pybuf) : M unit := fun w =>
  (Ok tt, log (EvWrite port (buf_data data)) w).

(** [serial.read(size)] returns at most [size] of the bytes on the line. *)
Definition serial_read (port : Z) (size : Z) : M pybuf := fun w =>
  (Ok (Bytes (firstn (Z.to_nat size) (hd [] (incoming w)))),
   log (EvRead port size)
     (mkWorld (ticks w) (tl (incoming w)) (_LATEST_READ_TIMES w) (trace w))).

(** [_LATEST_READ_TIMES.get(port, 0)] *)
Definition latest_read_time_get (port : Z) : M Z := fun w =>
  (Ok (default 0 (_LATEST_READ_TIMES w !! port)), w).

(** [_LATEST_READ_TIMES[port] = t] *)
Definition latest_read_time_set (port t : Z) : M unit := fun w =>
  (Ok tt, mkWorld (ticks w) (incoming w) (<[port := t]> (_LATEST_READ_TIMES w)) (trace w)).

(** ** Modbus instrument object *)

Record Instrument : Type := mkInstrument {
  port : Z;
  address : Z;
  mode : string;
  baudrate : pyvalue;
  precalculate_read_size : bool;
  handle_local_echo : bool
}.

(** [Instrument(port, slaveaddress)] with the default values. *)
Definition BAUDRATE : Z := 9600.

Definition Instrument_init (port slaveaddress : Z) : Instrument :=
  mkInstrument port slaveaddress MODE_RTU (VInt BAUDRATE) true false.

Definition _communicate (self : Instrument) (request : pybuf)
    (number_of_bytes_to_read : Z) : M pybuf :=
  lift (_checkString request "request" 1 None) ;;
  lift (_checkInt (VInt number_of_bytes_to_read) None None "inputvalue") ;;
  (* Sleep to make sure 3.5 character times have passed *)
  minimum_silent_period ← lift (_calculate_minimum_silent_period (baudrate self)) ;
  now ← time_ticks_ms ;
  latest ← latest_read_time_get (port self) ;
  let time_since_read := now - latest in
  (if Z_lt_float time_since_read minimum_silent_period
   then
     (* minimum_silent_period - time_since_read: the difference of two
        readings of the millisecond counter lies inside the range of the
        floats, where the conversion of the int operand is [Z2SF] *)
     let sleep_time := SF64sub minimum_silent_period (Z2SF time_since_read) in
     time_sleep_ms sleep_time
   else mret tt) ;;
  (* Write request *)
  latest_write_time ← time_ticks_ms ;
  serial_write (port self) request ;;
  (* Read and discard local echo *)
  (if handle_local_echo self
   then
     localEchoToDiscard ← serial_read (port self) (buf_len request) ;
     if negb (buf_eqb localEchoToDiscard request)
     then raise (IOError "Local echo handling is enabled, but the local echo does not match the sent request")
     else mret tt
   else mret tt) ;;
  (* Read response *)
  answer ← serial_read (port self) number_of_bytes_to_read ;
  t ← time_ticks_ms ;
  latest_read_time_set (port self) t ;;
  if buf_len answer =? 0
  then raise (IOError "No communication with the instrument (no answer)")
  else mret answer.

Definition DEFAULT_NUMBER_OF_BYTES_TO_READ : Z := 1000.

(** The [try: ... except:] around the size prediction: any exception leaves
    the default in place. *)
Definition number_of_bytes_to_read_for (self : Instrument) (functioncode : Z)
    (payloadToSlave : pybuf) : Z :=
  if precalculate_read_size self
  then match _predictResponseSize (mode self) functioncode payloadToSlave with
       | Ok n => n
       | Raise _ => DEFAULT_NUMBER_OF_BYTES_TO_READ
       end
  else DEFAULT_NUMBER_OF_BYTES_TO_READ.

Definition _performCommand (self : Instrument) (functioncode : Z)
    (payloadToSlave : pybuf) : M pybuf :=
  lift (_checkFunctioncode functioncode None) ;;
  lift (_checkString payloadToSlave "payload" 0 None) ;;
  (* Build request *)
  request ← lift (_embedPayload (address self) (mode self) functioncode payloadToSlave) ;
  (* Calculate number of bytes to read *)
  let number_of_bytes_to_read :=
    number_of_bytes_to_read_for self functioncode payloadToSlave in
  (* Communicate *)
  response ← _communicate self request number_of_bytes_to_read ;
  (* Extract payload *)
  lift (_extractPayload response (address self) (mode self) functioncode).

(** ** Operations whose meaning depends on the Python runtime

    The module mixes [str] literals with [bytearray] values in three places:
    [bytearray + str] (building the payload of function codes 5 and 15),
    [str += bytearray] (the list codec) and [bytearray == str] (decoding a
    bit response).  Python 2 treats a [str] as bytes there, CPython 3
    raises or answers [False].  The runtime is a parameter of the functions
    that reach these operations. *)
Record PyRuntime : Type := mkPyRuntime {
  mixed_add : pybuf -> pybuf -> result pybuf;
  mixed_eqb : pybuf -> pybuf -> bool
}.

Section Runtime.
Context (rt : PyRuntime).

(** [a + b] on buffers. *)
Definition py_add (a b : pybuf) : result pybuf :=
  match a, b with
  | ByteArray x, (ByteArray y | Bytes y) => Ok (ByteArray (x ++ y))
  | Bytes x, (ByteArray y | Bytes y) => Ok (Bytes (x ++ y))
  | Str x, Str y => Ok (Str (x ++ y))
  | _, _ => mixed_add rt a b
  end.

(** [a == b] on buffers. *)
Definition py_eqb (a b : pybuf) : bool :=
  match a, b with
  | Str _, (ByteArray _ | Bytes _) | (ByteArray _ | Bytes _), Str _ => mixed_eqb rt a b
  | _, _ => buf_eqb a b
  end.

Definition _bitResponseToValue (bytearray : pybuf) : result Z :=
  _checkString bytearray "bytearray" 1 (Some 1) ;;
  let RESPONSE_ON := Str [0x01] in
  let RESPONSE_OFF := Str [0x00] in
  if py_eqb bytearray RESPONSE_ON then Ok 1
  else if py_eqb bytearray RESPONSE_OFF then Ok 0
  else Raise (ValueError "Could not convert bit response to a value").

Fixpoint check_all_values (l : list pyvalue) (chk : pyvalue -> result unit)
    : result unit :=
  match l with
  | [] => Ok tt
  | x :: rest => chk x ;; check_all_values rest chk
  end.

(** [for value in valuelist: bytearray += _numToTwoByteArray(value, signed=False)] *)
Fixpoint valuelist_concat (acc : pybuf) (valuelist : list pyvalue) : result pybuf :=
  match valuelist with
  | [] => Ok acc
  | value :: rest =>
      two ← _numToTwoByteArray value 0 false false ;
      acc' ← py_add acc two ;
      valuelist_concat acc' rest
  end.

Definition _valuelistToBytestring (valuelist : pyvalue) (numberOfRegisters : Z)
    : result pybuf :=
  let MINVALUE := 0 in
  let MAXVALUE := 65535 in
  _checkInt (VInt numberOfRegisters) (Some 1) None "number of registers" ;;
  match valuelist with
  | VList l =>
      check_all_values l (fun value =>
        _checkInt value (Some MINVALUE) (Some MAXVALUE) "elements in the input value list") ;;
      _checkInt (VInt (Z.of_nat (length l))) (Some numberOfRegisters) (Some numberOfRegisters)
        "length of the list" ;;
      let numberOfBytes := _NUMBER_OF_BYTES_PER_REGISTER * numberOfRegisters in
      bytearray ← valuelist_concat (Str []) l ;
      if buf_len bytearray =? numberOfBytes then Ok bytearray else Raise AssertionError
  | _ => Raise (TypeError "The valuelist parameter must be a list")
  end.

(** [for i in range(numberOfRegisters): values.append(...)], from index [i]
    for [count] more registers. *)
Fixpoint valuelist_decode (bytearray : pybuf) (i : Z) (count : nat)
    : result (list pyvalue) :=
  match count with
  | O => Ok []
  | S count' =>
      let offset := _NUMBER_OF_BYTES_PER_REGISTER * i in
      let substring := buf_slice bytearray offset (offset + _NUMBER_OF_BYTES_PER_REGISTER) in
      v ← _twoByteStringToNum substring 0 false ;
      vs ← valuelist_decode bytearray (i + 1) count' ;
      Ok (v :: vs)
  end.

Definition _bytearrayToValuelist (bytearray : pybuf) (numberOfRegisters : Z)
    : result pyvalue :=
  _checkInt (VInt numberOfRegisters) (Some 1) None "number of registers" ;;
  let numberOfBytes := _NUMBER_OF_BYTES_PER_REGISTER * numberOfRegisters in
  _checkString bytearray "byte string" numberOfBytes (Some numberOfBytes) ;;
  values ← valuelist_decode bytearray 0 (Z.to_nat numberOfRegisters) ;
  Ok (VList values).

(** *** Generic command *)

Definition PAYLOADFORMAT_REGISTER : string := "register".
Definition PAYLOADFORMAT_REGISTERS : string := "registers".

Definition str_in (s : string) (l : list string) : bool := existsb (String.eqb s) l.

(** [payloadformat not in l], where [payloadformat] may be [None]. *)
Definition format_not_in (payloadformat : option string) (l : list string) : bool :=
  match payloadformat with
  | Some s => negb (str_in s l)
  | None => true
  end.

Definition format_is (payloadformat : option string) (s : string) : bool :=
  match payloadformat with
  | Some s' => String.eqb s' s
  | None => false
  end.

Definition is_None (v : pyvalue) : bool :=
  match v with VNone => true | _ => false end.

Definition when (c : bool) (r : result unit) : result unit :=
  if c then r else Ok tt.

(** The part of [_genericCommand] before the communication: the checks of
    the arguments and the payload sent to the slave, together with the
    payload format in force. *)
Definition build_payloadToSlave (functioncode registeraddress : Z) (value : pyvalue)
    (numberOfDecimals numberOfRegisters : Z) (signed : bool)
    (payloadformat : option string) : result (pybuf * option string) :=
  let NUMBER_OF_BITS := 1 in
  let NUMBER_OF_BYTES_FOR_ONE_BIT := 1 in
  let ALL_ALLOWED_FUNCTIONCODES := [1; 2; 3; 4; 5; 6; 15; 16] in
  let MAX_NUMBER_OF_REGISTERS := 255 in
  let ALL_PAYLOADFORMATS := [PAYLOADFORMAT_REGISTER; PAYLOADFORMAT_REGISTERS] in
  (* Check input values *)
  _checkFunctioncode functioncode (Some ALL_ALLOWED_FUNCTIONCODES) ;;
  _checkRegisteraddress registeraddress ;;
  _checkInt (VInt numberOfDecimals) (Some 0) None "number of decimals" ;;
  _checkInt (VInt numberOfRegisters) (Some 1) (Some MAX_NUMBER_OF_REGISTERS)
    "number of registers" ;;
  when (match payloadformat with
        | Some s => negb (str_in s ALL_PAYLOADFORMATS)
        | None => false
        end)
    (Raise (ValueError "Wrong payload format variable")) ;;
  (* Check combinations of input parameters *)
  let numberOfRegisterBytes := numberOfRegisters * _NUMBER_OF_BYTES_PER_REGISTER in
  let payloadformat :=
    if Z_in functioncode [3; 4; 6; 16] && negb (bool_decide (is_Some payloadformat))
    then Some PAYLOADFORMAT_REGISTER else payloadformat in
  (if Z_in functioncode [3; 4; 6; 16]
   then when (format_not_in payloadformat ALL_PAYLOADFORMATS)
          (Raise (ValueError "The payload format is unknown"))
   else when (bool_decide (is_Some payloadformat))
          (Raise (ValueError "The payload format given is not allowed for this function code"))) ;;
  (* [PAYLOADFORMAT_LONG] is not defined in the module *)
  when signed (Raise (NameError "PAYLOADFORMAT_LONG")) ;;
  when ((0 <? numberOfDecimals) && negb (format_is payloadformat PAYLOADFORMAT_REGISTER))
    (Raise (ValueError "The numberOfDecimals parameter can not be used for this data format")) ;;
  when (negb (Z_in functioncode [3; 4; 16]) && negb (numberOfRegisters =? 1))
    (Raise (ValueError "The numberOfRegisters is not valid for this function code")) ;;
  when ((functioncode =? 16) && format_is payloadformat PAYLOADFORMAT_REGISTER
        && negb (numberOfRegisters =? 1))
    (Raise (ValueError "Wrong numberOfRegisters when writing to a single register")) ;;
  when (Z_in functioncode [5; 6; 15; 16] && is_None value)
    (Raise (ValueError "The input value is not valid for this function code")) ;;
  when ((functioncode =? 16) && format_is payloadformat PAYLOADFORMAT_REGISTER)
    (_checkNumerical value None None "input value") ;;
  when ((functioncode =? 6) && format_is payloadformat PAYLOADFORMAT_REGISTER)
    (_checkNumerical value None None "input value") ;;
  when ((functioncode =? 16) && format_is payloadformat PAYLOADFORMAT_REGISTERS)
    (match value with
     | VList l =>
         when (negb (Z.of_nat (length l) =? numberOfRegisters))
           (Raise (ValueError "The list length does not match number of registers"))
     | _ => Raise (TypeError "The value parameter must be a list")
     end) ;;
  (* Build payload to slave *)
  payloadToSlave ←
    (if Z_in functioncode [1; 2] then
       a ← _numToTwoByteArray (VInt registeraddress) 0 false false ;
       b ← _numToTwoByteArray (VInt NUMBER_OF_BITS) 0 false false ;
       py_add a b
     else if Z_in functioncode [3; 4] then
       a ← _numToTwoByteArray (VInt registeraddress) 0 false false ;
       b ← _numToTwoByteArray (VInt numberOfRegisters) 0 false false ;
       py_add a b
     else if functioncode =? 5 then
       a ← _numToTwoByteArray (VInt registeraddress) 0 false false ;
       b ← _createBitpattern functioncode value ;
       py_add a b
     else if functioncode =? 6 then
       a ← _numToTwoByteArray (VInt registeraddress) 0 false false ;
       b ← _numToTwoByteArray value numberOfDecimals false signed ;
       py_add a b
     else if functioncode =? 15 then
       a ← _numToTwoByteArray (VInt registeraddress) 0 false false ;
       b ← _numToTwoByteArray (VInt NUMBER_OF_BITS) 0 false false ;
       ab ← py_add a b ;
       c ← _numToOneByteArray NUMBER_OF_BYTES_FOR_ONE_BIT ;
       abc ← py_add ab c ;
       d ← _createBitpattern functioncode value ;
       py_add abc d
     else if functioncode =? 16 then
       registerdata ←
         (if format_is payloadformat PAYLOADFORMAT_REGISTER
          then _numToTwoByteArray value numberOfDecimals false signed
          else if format_is payloadformat PAYLOADFORMAT_REGISTERS
          then _valuelistToBytestring value numberOfRegisters
          else Raise (NameError "registerdata")) ;
       (if buf_len registerdata =? numberOfRegisterBytes then Ok tt else Raise AssertionError) ;;
       a ← _numToTwoByteArray (VInt registeraddress) 0 false false ;
       b ← _numToTwoByteArray (VInt numberOfRegisters) 0 false false ;
       ab ← py_add a b ;
       c ← _numToOneByteArray numberOfRegisterBytes ;
       abc ← py_add ab c ;
       py_add abc registerdata
     else Raise (NameError "payloadToSlave")) ;
  Ok (payloadToSlave, payloadformat).

(** The part of [_genericCommand] after the communication: the checks of
    the response payload and the return value. *)
Definition check_payloadFromSlave (functioncode registeraddress : Z) (value : pyvalue)
    (numberOfDecimals numberOfRegisters : Z) (signed : bool)
    (payloadformat : option string) (payloadFromSlave : pybuf) : result pyvalue :=
  let NUMBER_OF_BITS := 1 in
  let NUMBER_OF_BYTES_FOR_ONE_BIT := 1 in
  let NUMBER_OF_BYTES_BEFORE_REGISTERDATA := 1 in
  let numberOfRegisterBytes := numberOfRegisters * _NUMBER_OF_BYTES_PER_REGISTER in
  (* Check the contents in the response payload *)
  when (Z_in functioncode [1; 2; 3; 4]) (_checkResponseByteCount payloadFromSlave) ;;
  when (Z_in functioncode [5; 6; 15; 16])
    (_checkResponseRegisterAddress payloadFromSlave registeraddress) ;;
  when (functioncode =? 5)
    (writedata ← _createBitpattern functioncode value ;
     _checkResponseWriteData payloadFromSlave writedata) ;;
  when (functioncode =? 6)
    (writedata ← _numToTwoByteArray value numberOfDecimals false signed ;
     _checkResponseWriteData payloadFromSlave writedata) ;;
  when (functioncode =? 15)
    (_checkResponseNumberOfRegisters payloadFromSlave NUMBER_OF_BITS) ;;
  when (functioncode =? 16)
    (_checkResponseNumberOfRegisters payloadFromSlave numberOfRegisters) ;;
  (* Calculate return value *)
  if Z_in functioncode [1; 2] then
    let registerdata := buf_slice_from payloadFromSlave NUMBER_OF_BYTES_BEFORE_REGISTERDATA in
    if negb (buf_len registerdata =? NUMBER_OF_BYTES_FOR_ONE_BIT)
    then Raise (ValueError "The registerdata length does not match NUMBER_OF_BYTES_FOR_ONE_BIT")
    else (b ← _bitResponseToValue registerdata ; Ok (VInt b))
  else if Z_in functioncode [3; 4] then
    let registerdata := buf_slice_from payloadFromSlave NUMBER_OF_BYTES_BEFORE_REGISTERDATA in
    if negb (buf_len registerdata =? numberOfRegisterBytes)
    then Raise (ValueError "The registerdata length does not match number of register bytes")
    else if format_is payloadformat PAYLOADFORMAT_REGISTERS
    then _bytearrayToValuelist registerdata numberOfRegisters
    else if format_is payloadformat PAYLOADFORMAT_REGISTER
    then _twoByteStringToNum registerdata numberOfDecimals signed
    else Raise (ValueError "Wrong payloadformat for return value generation")
  else Ok VNone.

Definition _genericCommand (self : Instrument) (functioncode registeraddress : Z)
    (value : pyvalue) (numberOfDecimals numberOfRegisters : Z) (signed : bool)
    (payloadformat : option string) : M pyvalue :=
  built ← lift (build_payloadToSlave functioncode registeraddress value numberOfDecimals
                  numberOfRegisters signed payloadformat) ;
  let '(payloadToSlave, payloadformat) := built in
  (* Communicate *)
  payloadFromSlave ← _performCommand self functioncode payloadToSlave ;
  lift (check_payloadFromSlave functioncode registeraddress value numberOfDecimals
          numberOfRegisters signed payloadformat payloadFromSlave).

(** *** Methods for talking to the slave *)

Definition write_register (self : Instrument) (registeraddress : Z) (value : pyvalue)
    (numberOfDecimals functioncode : Z) (signed : bool) : M pyvalue :=
  lift (_checkFunctioncode functioncode (Some [6; 16])) ;;
  lift (_checkInt (VInt numberOfDecimals) (Some 0) (Some 10) "number of decimals") ;;
  lift (_checkNumerical value None None "input value") ;;
  _genericCommand self functioncode registeraddress value numberOfDecimals 1 signed None ;;
  mret VNone.

Definition read_registers (self : Instrument) (registeraddress numberOfRegisters : Z)
    (functioncode : Z) : M pyvalue :=
  lift (_checkFunctioncode functioncode (Some [3; 4])) ;;
  lift (_checkInt (VInt numberOfRegisters) (Some 1) None "number of registers") ;;
  _genericCommand self functioncode registeraddress VNone 0 numberOfRegisters false
    (Some "registers").

Definition write_registers (self : Instrument) (registeraddress : Z) (values : pyvalue)
    : M pyvalue :=
  match values with
  | VList l =>
      lift (_checkInt (VInt (Z.of_nat (length l))) (Some 1) None "length of input list") ;;
      _genericCommand self 16 registeraddress values 0 (Z.of_nat (length l)) false
        (Some "registers") ;;
      mret VNone
  | _ => raise (TypeError "The values parameter must be a list")
  end.

End Runtime.

(** ** Text: hexadecimal dumps and [__repr__]

    [str] values that are only printed are Rocq strings.  The formatting
    of integers and [str.format] belong to the Python runtime; they are
    modelled for the format strings that the module uses. *)

Definition hex_digit (d : Z) : ascii :=
  nth (Z.to_nat d) (list_ascii_of_string "0123456789ABCDEF") "0"%char.

(** The hexadecimal digits of a non-negative integer, upper case, most
    significant first. *)
Fixpoint hex_digits (fuel : nat) (n : Z) : string :=
  match fuel with
  | O => EmptyString
  | S fuel' =>
      if n <? 16 then String (hex_digit n) EmptyString
      else (hex_digits fuel' (n / 16) ++ String (hex_digit (n mod 16)) EmptyString)%string
  end.

Definition py_hex_upper (n : Z) : string := hex_digits (S (Z.to_nat (Z.log2 n))) n.

(** ['{0:02X}'.format(c)] for an integer [c]: upper-case hexadecimal,
    padded with zeros to two characters, the sign of a negative number
    counting as one. *)
Definition format_02X (c : Z) : string :=
  let digits := py_hex_upper (Z.abs c) in
  if c <? 0 then ("-" ++ digits)%string
  else if (String.length digits <? 2)%nat then ("0" ++ digits)%string
  else digits.

(** [s.strip()]: the white space at both ends is removed. *)
Definition is_space (c : ascii) : bool :=
  let n := nat_of_ascii c in
  (((9 <=? n) && (n <=? 13)) || (n =? 32))%nat.

Fixpoint lstrip (s : list ascii) : list ascii :=
  match s with
  | c :: rest => if is_space c then lstrip rest else s
  | [] => []
  end.

Definition py_strip (s : string) : string :=
  string_of_list_ascii (rev (lstrip (rev (lstrip (list_ascii_of_string s))))).

(** Iterating over a [bytearray] or over [bytes] gives integers; the
    characters of a [str] do not take the format code [X]. *)
Definition _hexencode (bytearray : pybuf) (insert_spaces : bool) : result string :=
  let separator := if negb insert_spaces then EmptyString else " " in
  byte_representions ←
    match bytearray with
    | ByteArray l | Bytes l => Ok (map format_02X l)
    | Str [] => Ok []
    | Str (_ :: _) => Raise (ValueError "Unknown format code 'X' for object of type 'str'")
    end ;
  Ok (py_strip (String.concat separator byte_representions)).

Definition _hexlify (bytearray : pybuf) : result string :=
  _hexencode bytearray true.

(** *** [str.format] with automatically numbered fields *)

(** An argument of [str.format]. *)
Inductive pyarg : Type :=
  | AStr (s : string)
  | AInt (z : Z)
  | ABool (b : bool)
  | AObject (description : string).

(** [template.format] on the arguments [args], for a template whose
    replacement fields are [{}] or [{:spec}] and that has no doubled
    braces.  The fields take the arguments from left to right, and a field
    that finds no argument left raises [IndexError].  [render spec arg] is the text of an argument under
    a format specification; [field] holds the characters read since an
    opening brace, latest first. *)
Fixpoint str_format (render : string -> pyarg -> string) (template : list ascii)
    (field : option (list ascii)) (args : list pyarg) : result string :=
  match template with
  | [] =>
      match field with
      | None => Ok EmptyString
      | Some _ => Raise (ValueError "Single '{' encountered in format string")
      end
  | c :: rest =>
      match field with
      | None =>
          if Ascii.eqb c "{" then str_format render rest (Some []) args
          else
            text ← str_format render rest None args ;
            Ok (String c text)
      | Some read =>
          if Ascii.eqb c "}" then
            match rev read, args with
            | [], arg :: args' | ":"%char :: _, arg :: args' =>
                text ← str_format render rest None args' ;
                Ok (render (string_of_list_ascii (tl (rev read))) arg ++ text)%string
            | [], [] | ":"%char :: _, [] =>
                Raise (IndexError "Replacement index out of range")
            | _ :: _, _ =>
                Raise (ValueError "cannot switch from automatic field numbering to manual field specification")
            end
          else str_format render rest (Some (c :: read)) args
      end
  end.

(** What the runtime knows of an object: the attributes [__module__] and
    [__class__.__name__], [id(self)], and the attributes [debug] and
    [serial] (the text of the port object) that the methods of the model
    do not use. *)
Record ObjectInfo : Type := mkObjectInfo {
  __module__ : string;
  __name__ : string;
  object_id : Z;
  debug : bool;
  serial : string
}.

Definition __repr__ (render : string -> pyarg -> string) (info : ObjectInfo)
    (self : Instrument) : result string :=
  str_format render
    (list_ascii_of_string
       "{}.{}<id=0x{:x}, address={}, mode={}, close_port_after_each_call={}, precalculate_read_size={}, debug={}, serial={}>")
    None
    [AStr (__module__ info); AStr (__name__ info); AInt (object_id info);
     AInt (address self); AStr (mode self); ABool (precalculate_read_size self);
     ABool (debug info); AObject (serial info)].

(** * Specification-level definitions

    The definitions of this part follow the words of the specification;
    the theorems below compare them with the functions of the module. *)

(** ** Bounded enumeration *)

(** [forall_upto P lo n]: [P] holds on [lo, lo+1, ..., lo+n-1]. *)
Fixpoint forall_upto (P : Z -> bool) (lo : Z) (n : nat) : bool :=
  match n with
  | O => true
  | S k => P lo && forall_upto P (lo + 1) k
  end.

(** ** CRC16 *)

Definition is_byte (b : Z) : Prop := 0 <= b < 256.

(** One table lookup per input byte:
    [register = (register >> 8) XOR table[(register XOR byte) & 0xFF]]. *)
Definition crc16_table_step (register byte : Z) : Z :=
  Z.lxor (Z.shiftr register 8)
    (nth (Z.to_nat (Z.land (Z.lxor register byte) 0xFF)) _CRC16TABLE 0).

(** The register preloaded to 0xFFFF and updated over the input. *)
Definition crc16_register (bs : list Z) : Z := fold_left crc16_table_step bs 0xFFFF.

(** The register serialized low byte first. *)
Definition crc16 (bs : list Z) : list Z :=
  let register := crc16_register bs in [register mod 256; register / 256].

(** The Modbus CRC16 bit by bit: polynomial 0xA001, reflected. *)
Definition crc16_shift (register : Z) : Z :=
  if Z.odd register then Z.lxor (Z.shiftr register 1) 0xA001 else Z.shiftr register 1.

Definition crc16_bitwise_step (register byte : Z) : Z :=
  Nat.iter 8 crc16_shift (Z.lxor register byte).

Definition crc16_modbus (bs : list Z) : Z := fold_left crc16_bitwise_step bs 0xFFFF.

Definition table_agrees_with_shifts (x : Z) : bool :=
  Nat.iter 8 crc16_shift x =? crc16_table_step x 0.

Definition table_entry_ok (i : Z) : bool :=
  match py_index _CRC16TABLE i with
  | Ok t => (t =? nth (Z.to_nat i) _CRC16TABLE 0) && (0 <=? t) && (t <? 65536)
  | Raise _ => false
  end.

(** ** Effects of a run, read off the trace *)

Definition writes (tr : list event) : list (Z * list Z) :=
  omap (fun ev => match ev with EvWrite p d => Some (p, d) | _ => None end) tr.

Definition reads (tr : list event) : list (Z * Z) :=
  omap (fun ev => match ev with EvRead p n => Some (p, n) | _ => None end) tr.

Definition sleeps (tr : list event) : list spec_float :=
  omap (fun ev => match ev with EvSleep d => Some d | _ => None end) tr.

(** ** Floats *)

(** The record of the rounding functions for a mantissa with nothing
    shifted out. *)
Definition exact_record (m : positive) : shr_record :=
  {| shr_m := Z.pos m; shr_r := false; shr_s := false |}.

(** ** Register codec *)

(** The integers that [struct.pack] accepts for the codes ['H'] and ['h']. *)
Definition fits16 (signed : bool) (n : Z) : bool :=
  if signed then (-32768 <=? n) && (n <=? 32767) else (0 <=? n) && (n <=? 65535).

(** Big-endian 16-bit word of [n], in two's complement. *)
Definition word16_be (n : Z) : list Z :=
  let w := n mod 65536 in [w / 256; w mod 256].




(** ** Frame validation *)

(** A response of bytes ([bytes] from the serial line, or a [bytearray]). *)
Definition byteslike (response : pybuf) : Prop :=
  match response with Str _ => False | _ => True end.

(** The failure modes of §7 that the validator can report, and success. *)
Inductive validation : Type :=
  | FramingError
  | ChecksumError
  | AddressMismatchError
  | SlaveExceptionError
  | FunctionCodeMismatchError
  | Payload (payload : list Z).

(** The sequence of checks of §4.5 on the bytes of a response. *)
Definition validate (response : list Z) (address functioncode : Z) : validation :=
  let n := length response in
  if (n <? 4)%nat then FramingError
  else if negb (list_Z_eqb (skipn (n - 2) response) (crc16 (firstn (n - 2) response)))
  then ChecksumError
  else if negb (nth 0 response 0 =? address) then AddressMismatchError
  else if nth 1 response 0 =? Z.setbit functioncode 7 then SlaveExceptionError
  else if negb (nth 1 response 0 =? functioncode) then FunctionCodeMismatchError
  else Payload (firstn (n - 4) (skipn 2 response)).

(** How [_extractPayload] reports each outcome. *)
Definition reported (v : validation) : result pybuf :=
  match v with
  | FramingError => Raise (ValueError "Too short Modbus RTU response")
  | ChecksumError => Raise (ValueError "Checksum error in rtu mode")
  | AddressMismatchError => Raise (ValueError "Wrong return slave address")
  | SlaveExceptionError => Raise (ValueError "The slave is indicating an error")
  | FunctionCodeMismatchError => Raise (ValueError "Wrong functioncode: {} instead of {}")
  | Payload p => Ok (ByteArray p)
  end.

(** ** One exchange on the serial line, in closed form *)

(** Time since the last recorded read on the port of [self], as
    [_communicate] computes it on entry. *)
Definition time_since_read (self : Instrument) (w : World) : Z :=
  hd 0 (ticks w) - default 0 (_LATEST_READ_TIMES w !! port self).

(** The sleep before the write: none when the gap meets the minimum. *)
Definition sleep_events (minimum_silent_period : spec_float) (elapsed : Z) : list event :=
  if Z_lt_float elapsed minimum_silent_period
  then [EvSleep (SF64sub minimum_silent_period (Z2SF elapsed))]
  else [].

(** What the local-echo read delivers. *)
Definition echo_read (request : list Z) (w : World) : list Z :=
  firstn (length request) (hd [] (incoming w)).

(** The local echo is not handled, or it matches the request. *)
Definition echo_ok (self : Instrument) (request : list Z) (w : World) : bool :=
  negb (handle_local_echo self) || list_Z_eqb (echo_read request w) request.

(** The bytes on the line when the response is read. *)
Definition response_on_line (self : Instrument) (w : World) : list Z :=
  if handle_local_echo self then hd [] (tl (incoming w)) else hd [] (incoming w).

Definition answer_read (self : Instrument) (size : Z) (w : World) : list Z :=
  firstn (Z.to_nat size) (response_on_line self w).

Definition echo_events (self : Instrument) (request : list Z) : list event :=
  if handle_local_echo self
  then [EvRead (port self) (Z.of_nat (length request))]
  else [].

Definition communicate_outcome (self : Instrument) (request : list Z) (size : Z)
    (minimum_silent_period : spec_float) (w : World) : result pybuf * World :=
  let before := trace w ++ sleep_events minimum_silent_period (time_since_read self w)
                ++ [EvWrite (port self) request] ++ echo_events self request in
  if echo_ok self request w then
    (if (length (answer_read self size w) =? 0)%nat
     then Raise (IOError "No communication with the instrument (no answer)")
     else Ok (Bytes (answer_read self size w)),
     mkWorld (tl (tl (tl (ticks w))))
       (tl (if handle_local_echo self then tl (incoming w) else incoming w))
       (<[port self := hd 0 (tl (tl (ticks w)))]> (_LATEST_READ_TIMES w))
       (before ++ [EvRead (port self) size]))
  else
    (Raise (IOError "Local echo handling is enabled, but the local echo does not match the sent request"),
     mkWorld (tl (tl (ticks w))) (tl (incoming w)) (_LATEST_READ_TIMES w) before).

(** ** Frames *)

(** Frame = SlaveAddress ‖ FunctionCode ‖ Payload ‖ CRC16 of what precedes. *)
Definition frame (slaveaddress functioncode : Z) (payload : list Z) : list Z :=
  let firstPart := slaveaddress :: functioncode :: payload in
  firstPart ++ crc16 firstPart.

(** An instrument whose address and mode pass the checks of the module. *)
Definition valid_instrument (self : Instrument) : Prop :=
  0 <= address self <= 247 /\ mode self = "rtu".

(** ** Timing *)

(** A baud rate of at least 1: an integer, or a float that is a number. *)
Definition at_least_1 (baudrate : pyvalue) : Prop :=
  match baudrate with
  | VInt b => 1 <= b
  | VFloat f => f <> S754_nan /\ float_lt_Z f 1 = false
  | _ => False
  end.

(** The float that a number stands for: the nearest one for an integer. *)
Definition to_float (value : pyvalue) : spec_float :=
  match value with
  | VInt z => Z2SF z
  | VFloat f => f
  | _ => S754_nan
  end.

(** The first integer whose nearest float is beyond the largest float:
    half a unit in the last place above the largest float. *)
Definition float_overflow_threshold : Z := 2 ^ 1024 - 2 ^ 970.

(** A number that [float] converts: a float, or an integer inside the
    range of the floats. *)
Definition converts_to_float (value : pyvalue) : Prop :=
  match value with
  | VInt z => Z.abs z < float_overflow_threshold
  | VFloat _ => True
  | _ => False
  end.

(** [(1000 / baudrate) * 11 * 3.5] in float arithmetic. *)
Definition silent_period_formula (baudrate : pyvalue) : spec_float :=
  SF64mul (SF64mul (SF64div (Z2SF 1000) (to_float baudrate)) (Z2SF 11)) float_3_5.

(** The events of one exchange in the order they happen. *)
Definition exchange_events (self : Instrument) (request : list Z) (size : Z)
    (minimum_silent_period : spec_float) (w : World) : list event :=
  sleep_events minimum_silent_period (time_since_read self w)
  ++ [EvWrite (port self) request]
  ++ echo_events self request
  ++ (if echo_ok self request w then [EvRead (port self) size] else []).

(** ** Scenarios *)

(** Port 1 was last read at tick 50; the clock then reads 100, 101 and 105,
    and the line stays silent. *)
Definition silent_line_world : World :=
  mkWorld [100; 101; 105] [[]] {[ 1 := 50 ]} [].

(** The slave at address 1 echoes a write of coil 0 (function code 5). *)
Definition coil_echo_world : World :=
  mkWorld [100; 101; 105] [[0x01; 0x05; 0x00; 0x00; 0xFF; 0x00; 0x8C; 0x3A]] ∅ [].

(** The slave at address 1 echoes a write of 5 to register 0 (function
    code 6). *)
Definition register_echo_world : World :=
  mkWorld [100; 101; 105] [[0x01; 0x06; 0x00; 0x00; 0x00; 0x05; 0x49; 0xC9]] ∅ [].

(** A runtime where a [str] stands for the bytes of its characters (as in
    Python 2). *)
Definition lenient_runtime : PyRuntime :=
  mkPyRuntime (fun a b => Ok (ByteArray (buf_data a ++ buf_data b)))
              (fun a b => list_Z_eqb (buf_data a) (buf_data b)).

(** A runtime where a [str] does not mix with bytes (as in CPython 3). *)
Definition strict_runtime : PyRuntime :=
  mkPyRuntime (fun _ _ => Raise (TypeError "can't concat str to bytearray"))
              (fun _ _ => false).

(** A value that [_checkNumerical] accepts. *)
Definition is_numerical (value : pyvalue) : Prop :=
  match value with VInt _ | VFloat _ => True | _ => False end.

(** ** Undoing one step of the CRC16 register *)

(** The high bytes of the 256 table entries are pairwise different:
    [crc_high_index] gives, for a high byte, the index of the entry that
    carries it. *)
Definition crc_index_of_high (h : Z) : Z :=
  match find (fun i => nth (Z.to_nat i) _CRC16TABLE 0 / 256 =? h)
             (map Z.of_nat (seq 0 256)) with
  | Some i => i
  | None => 0
  end.

Definition crc_high_index : list Z :=
  Eval vm_compute in map (fun h => crc_index_of_high (Z.of_nat h)) (seq 0 256).

(** The register before a step, from the register after it and the byte
    consumed being 0. *)
Definition crc16_unstep (register : Z) : Z :=
  let i := nth (Z.to_nat (register / 256)) crc_high_index 0 in
  Z.lxor register (nth (Z.to_nat i) _CRC16TABLE 0) * 256 + i.

Definition unstep_undoes_step (x : Z) : bool :=
  crc16_unstep (crc16_table_step x 0) =? x.

(** ** Runs of registers *)

(** The 16-bit registers held by a run of bytes, high byte first. *)
Fixpoint registers_of_bytes (bs : list Z) : list Z :=
  match bs with
  | hi :: lo :: rest => hi * 256 + lo :: registers_of_bytes rest
  | _ => []
  end.

(** The bytes of a run of registers, high byte first. *)
Definition bytes_of_registers (values : list Z) : list Z :=
  flat_map (fun v => [v / 256; v mod 256]) values.

(** The value of two bytes read as a big-endian word, in two's complement
    when [signed]. *)
Definition word_value (signed : bool) (hi lo : Z) : Z :=
  let u := hi * 256 + lo in
  if signed && (32768 <=? u) then u - 65536 else u.

(** ** Writing registers *)

(** The four bytes of a register address and a 16-bit quantity (or
    value), each high byte first. *)
Definition address_and_word (registeraddress word : Z) : list Z :=
  [registeraddress / 256; registeraddress mod 256; word / 256; word mod 256].

(** The payload that [write_register] sends: for function code 6 the
    address and the two bytes of the value; for function code 16 the
    address, the quantity 1, the byte count 2 and the two bytes. *)
Definition write_register_payload (functioncode registeraddress b0 b1 : Z) : list Z :=
  if functioncode =? 6
  then [registeraddress / 256; registeraddress mod 256; b0; b1]
  else address_and_word registeraddress 1 ++ [2; b0; b1].

(** The payload of the response that confirms it: for function code 6 the
    echo of the request, for function code 16 the address and the
    quantity 1. *)
Definition write_register_confirmation (functioncode registeraddress b0 b1 : Z) : list Z :=
  if functioncode =? 6
  then [registeraddress / 256; registeraddress mod 256; b0; b1]
  else address_and_word registeraddress 1.

(** The payload that [write_registers] sends for a list of values. *)
Definition write_registers_payload (registeraddress : Z) (values : list Z) : list Z :=
  address_and_word registeraddress (Z.of_nat (length values))
  ++ [Z.of_nat (length values) * 2] ++ bytes_of_registers values.

(** ** The effects of one call *)

(** At most one request written, at most two reads (the local echo and the
    response) and at most one sleep. *)
Definition one_exchange_at_most (events : list event) : Prop :=
  (length (writes events) <= 1)%nat
  /\ (length (reads events) <= 2)%nat
  /\ (length (sleeps events) <= 1)%nat.

(** A computation that, from every world, adds the events of at most one
    exchange to the trace. *)
Definition at_most_one_exchange {A} (m : M A) : Prop :=
  forall w, exists events,
    trace (snd (m w)) = trace w ++ events /\ one_exchange_at_most events.

(** ** Local echo *)

(** The instrument with the handling of the local echo switched off. *)
Definition without_local_echo (self : Instrument) : Instrument :=
  mkInstrument (port self) (address self) (mode self) (baudrate self)
    (precalculate_read_size self) false.

(** The world once the local echo has been taken off the line. *)
Definition after_echo (w : World) : World :=
  mkWorld (ticks w) (tl (incoming w)) (_LATEST_READ_TIMES w) (trace w).

(** ** Further scenarios *)

(** The instrument at address 1 on port 1 that handles a local echo. *)
Definition echoing_instrument : Instrument :=
  mkInstrument 1 1 MODE_RTU (VInt BAUDRATE) true true.

(** The line first carries the echo of the request 01 03 00 00 00 01 84 0A,
    then the response 01 03 02 00 2A 39 9B. *)
Definition echo_line_world : World :=
  mkWorld [100; 101; 105]
    [[0x01; 0x03; 0x00; 0x00; 0x00; 0x01; 0x84; 0x0A];
     [0x01; 0x03; 0x02; 0x00; 0x2A; 0x39; 0x9B]] ∅ [].

(** Port 1 was last read at tick 50; the clock then reads 100, 101, 105
    and 107, and the slave answers a read of one register once. *)
Definition two_calls_world : World :=
  mkWorld [100; 101; 105; 107; 108; 120] [[0x01; 0x03; 0x02; 0x00; 0x2A; 0x39; 0x9B]]
    {[ 1 := 50 ]} [].

(** ** Hexadecimal dumps *)

(** The two hexadecimal digits of a byte. *)
Definition two_digits (b : Z) : list ascii := [hex_digit (b / 16); hex_digit (b mod 16)].

(** The dump of a run of bytes: two digits per byte, [separator] between
    the bytes. *)
Fixpoint dump (separator : list ascii) (bs : list Z) : list ascii :=
  match bs with
  | [] => []
  | [b] => two_digits b
  | b :: rest => two_digits b ++ separator ++ dump separator rest
  end.

Definition hex_value (c : ascii) : option Z :=
  let n := Z.of_nat (nat_of_ascii c) in
  if (48 <=? n) && (n <=? 57) then Some (n - 48)
  else if (65 <=? n) && (n <=? 70) then Some (n - 55)
  else None.

(** Reading a dump back: pairs of hexadecimal digits, the spaces between
    them skipped. *)
Fixpoint unhex (s : list ascii) : option (list Z) :=
  match s with
  | [] => Some []
  | c :: rest =>
      if Ascii.eqb c " " then unhex rest
      else
        match rest with
        | d :: rest' =>
            match hex_value c, hex_value d, unhex rest' with
            | Some h, Some l, Some bs => Some (h * 16 + l :: bs)
            | _, _, _ => None
            end
        | [] => None
        end
  end.

Definition format_02X_is_two_digits (b : Z) : bool :=
  String.eqb (format_02X b) (string_of_list_ascii (two_digits b)).

Definition hex_digit_reads_back (d : Z) : bool :=
  match hex_value (hex_digit d) with
  | Some v => (v =? d) && negb (is_space (hex_digit d)) && negb (Ascii.eqb (hex_digit d) " ")
  | None => false
  end.

(** * Properties *)

(** ** Enumeration *)

Lemma forall_upto_sound (P : Z -> bool) (n : nat) :
  forall lo, forall_upto P lo n = true ->
  forall z, lo <= z < lo + Z.of_nat n -> P z = true.
Proof.
  induction n as [|k IH]; intros lo Hall z Hz.
  - lia.
  - cbn [forall_upto] in Hall. apply andb_prop in Hall as [Hlo Hrest].
    destruct (Z.eq_dec z lo) as [->|Hne]; [exact Hlo|].
    apply (IH (lo + 1)); [exact Hrest|lia].
Qed.

(** ** Checks that pass *)

Ltac case_ltb :=
  repeat match goal with
         | |- context [?x <? ?y] => destruct (Z.ltb_spec x y); try lia
         | |- context [?x <=? ?y] => destruct (Z.leb_spec x y); try lia
         | |- context [?x =? ?y] => destruct (Z.eqb_spec x y); try lia
         end.

Lemma checkSlaveaddress_ok a : 0 <= a <= 247 -> _checkSlaveaddress a = Ok tt.
Proof.
  intros H. unfold _checkSlaveaddress, _checkInt, _checkNumerical. cbn.
  case_ltb. reflexivity.
Qed.

Lemma checkFunctioncode_ok f : 1 <= f <= 127 -> _checkFunctioncode f None = Ok tt.
Proof.
  intros H. unfold _checkFunctioncode, _checkInt, _checkNumerical. cbn.
  case_ltb. reflexivity.
Qed.

Lemma checkString_bytearray l description :
  _checkString (ByteArray l) description 0 None = Ok tt.
Proof.
  unfold _checkString, _checkInt, _checkNumerical, buf_len. cbn.
  case_ltb. reflexivity.
Qed.

Lemma numToOneByteArray_ok x : 0 <= x <= 255 -> _numToOneByteArray x = Ok (ByteArray [x]).
Proof.
  intros H. unfold _numToOneByteArray, _checkInt, _checkNumerical. cbn.
  case_ltb. reflexivity.
Qed.

(** ** The CRC16 register stays a 16-bit word *)

Lemma table_entries : forall_upto table_entry_ok 0 (Z.to_nat 256) = true.
Proof. vm_compute. reflexivity. Qed.

Lemma table_lookup i :
  0 <= i < 256 ->
  py_index _CRC16TABLE i = Ok (nth (Z.to_nat i) _CRC16TABLE 0)
  /\ 0 <= nth (Z.to_nat i) _CRC16TABLE 0 < 65536.
Proof.
  intros Hi.
  pose proof (forall_upto_sound table_entry_ok _ 0 table_entries i ltac:(lia)) as H.
  unfold table_entry_ok in H.
  destruct (py_index _CRC16TABLE i) as [t|e]; [|discriminate].
  apply andb_prop in H as [H Hhi]. apply andb_prop in H as [Heq Hlo].
  apply Z.eqb_eq in Heq. subst t. split; [reflexivity|lia].
Qed.

Lemma land_255_range x : 0 <= Z.land x 0xFF < 256.
Proof.
  change 0xFF with (Z.ones 8). rewrite Z.land_ones by lia.
  apply Z.mod_pos_bound. lia.
Qed.

Lemma lxor_word16 a b :
  0 <= a < 65536 -> 0 <= b < 65536 -> 0 <= Z.lxor a b < 65536.
Proof.
  intros Ha Hb. split; [apply Z.lxor_nonneg; lia|].
  destruct (Z.eq_dec (Z.lxor a b) 0) as [->|Hnz]; [lia|].
  assert (Hpos : 0 < Z.lxor a b) by (pose proof (proj2 (Z.lxor_nonneg a b)); lia).
  change 65536 with (2 ^ 16). apply Z.log2_lt_pow2; [exact Hpos|].
  pose proof (Z.log2_lxor a b ltac:(lia) ltac:(lia)) as Hl.
  assert (Z.log2 a < 16).
  { destruct (Z.eq_dec a 0) as [->|]; [cbn; lia|apply Z.log2_lt_pow2; lia]. }
  assert (Z.log2 b < 16).
  { destruct (Z.eq_dec b 0) as [->|]; [cbn; lia|apply Z.log2_lt_pow2; lia]. }
  lia.
Qed.

Lemma crc16_table_step_range register byte :
  0 <= register < 65536 -> 0 <= crc16_table_step register byte < 65536.
Proof.
  intros Hr. unfold crc16_table_step.
  pose proof (land_255_range (Z.lxor register byte)) as Hi.
  destruct (table_lookup _ Hi) as [_ Ht].
  apply lxor_word16; [|exact Ht].
  rewrite Z.shiftr_div_pow2 by lia. change (2 ^ 8) with 256.
  split; [apply Z.div_pos; lia|].
  apply Z.div_lt_upper_bound; lia.
Qed.

Lemma fold_table_step_range bs : forall register,
  0 <= register < 65536 -> 0 <= fold_left crc16_table_step bs register < 65536.
Proof.
  induction bs as [|b bs IH]; intros register Hr; cbn [fold_left]; [exact Hr|].
  apply IH, crc16_table_step_range, Hr.
Qed.

Lemma crc16_register_range bs : 0 <= crc16_register bs < 65536.
Proof. apply fold_table_step_range. lia. Qed.

(** The loop of the source never raises and computes the fold. *)
Lemma crc_update_fold bs : forall register,
  crc_update register bs = (fold_left crc16_table_step bs register, Ok tt).
Proof.
  induction bs as [|b bs IH]; intros register; cbn [crc_update fold_left]; [reflexivity|].
  destruct (table_lookup _ (land_255_range (Z.lxor register b))) as [-> _].
  apply IH.
Qed.

(** ** The float of a positive integer is not zero *)

Lemma digits2_lower p : 2 ^ (Z.pos (digits2_pos p) - 1) <= Z.pos p.
Proof.
  induction p as [p IH|p IH|]; cbn [digits2_pos].
  - rewrite Pos2Z.inj_succ. replace (Z.succ (Z.pos (digits2_pos p)) - 1)
      with (Z.succ (Z.pos (digits2_pos p) - 1)) by lia.
    rewrite Z.pow_succ_r by lia. lia.
  - rewrite Pos2Z.inj_succ. replace (Z.succ (Z.pos (digits2_pos p)) - 1)
      with (Z.succ (Z.pos (digits2_pos p) - 1)) by lia.
    rewrite Z.pow_succ_r by lia. lia.
  - cbn. lia.
Qed.

Lemma shr_1_m mrs : 0 <= shr_m mrs -> shr_m (shr_1 mrs) = shr_m mrs / 2.
Proof.
  destruct mrs as [m r s]. cbn [shr_m shr_1]. intros Hm.
  destruct m as [|[p|p|]|p]; cbn [shr_m]; try lia; try reflexivity.
  - apply (Z.div_unique (Z.pos p~1) 2 (Z.pos p) 1); lia.
  - apply (Z.div_unique (Z.pos p~0) 2 (Z.pos p) 0); lia.
Qed.

Lemma shr_1_nonneg mrs : 0 <= shr_m mrs -> 0 <= shr_m (shr_1 mrs).
Proof. intros H. rewrite shr_1_m by exact H. apply Z.div_pos; lia. Qed.

Lemma iter_pos_shr_1 n : forall mrs,
  0 <= shr_m mrs -> shr_m (SpecFloat.iter_pos shr_1 n mrs) = shr_m mrs / 2 ^ Z.pos n.
Proof.
  induction n as [n IH|n IH|]; intros mrs Hm; cbn [SpecFloat.iter_pos].
  - set (P := 2 ^ Z.pos n) in *.
    assert (HP : 0 < P) by (apply Z.pow_pos_nonneg; lia).
    assert (H1 : 0 <= shr_m (shr_1 mrs)) by (apply shr_1_nonneg, Hm).
    assert (H2 : 0 <= shr_m (SpecFloat.iter_pos shr_1 n (shr_1 mrs)))
      by (rewrite IH by exact H1; apply Z.div_pos; lia).
    rewrite IH by exact H2. rewrite IH by exact H1. rewrite shr_1_m by exact Hm.
    rewrite !Z.div_div by lia. f_equal.
    replace (Z.pos n~1) with (1 + Z.pos n + Z.pos n) by lia.
    rewrite !Z.pow_add_r by lia. change (2 ^ 1) with 2. fold P. lia.
  - set (P := 2 ^ Z.pos n) in *.
    assert (HP : 0 < P) by (apply Z.pow_pos_nonneg; lia).
    assert (H2 : 0 <= shr_m (SpecFloat.iter_pos shr_1 n mrs))
      by (rewrite IH by exact Hm; apply Z.div_pos; lia).
    rewrite IH by exact H2. rewrite IH by exact Hm.
    rewrite Z.div_div by lia. f_equal.
    replace (Z.pos n~0) with (Z.pos n + Z.pos n) by lia.
    rewrite Z.pow_add_r by lia. reflexivity.
  - rewrite shr_1_m by exact Hm. reflexivity.
Qed.

Lemma shr_record_of_loc_m m l : shr_m (shr_record_of_loc m l) = m.
Proof. destruct l as [|[]]; reflexivity. Qed.

(** Above the smallest exponent, the shift of [shr_fexp] keeps a positive
    mantissa positive. *)
Lemma shr_fexp_positive m e l :
  0 < m -> emin prec emax <= e ->
  0 < shr_m (fst (shr_fexp prec emax m e l))
  /\ emin prec emax <= snd (shr_fexp prec emax m e l).
Proof.
  intros Hm He. unfold shr_fexp, shr.
  set (n := fexp prec emax (Zdigits2 m + e) - e).
  destruct m as [|p|p]; try lia.
  assert (Hn : n <= Z.pos (digits2_pos p) - 1).
  { subst n. unfold fexp, emin, prec, emax in *. cbn [Zdigits2]. lia. }
  destruct n as [|k|k] eqn:En; cbn [fst snd]; rewrite ?shr_record_of_loc_m; try lia.
  rewrite iter_pos_shr_1 by (rewrite shr_record_of_loc_m; lia).
  rewrite shr_record_of_loc_m. split; [|lia].
  apply Z.div_str_pos. split; [apply Z.pow_pos_nonneg; lia|].
  pose proof (digits2_lower p) as Hd.
  assert (2 ^ Z.pos k <= 2 ^ (Z.pos (digits2_pos p) - 1))
    by (apply Z.pow_le_mono_r; lia).
  lia.
Qed.

Lemma round_nearest_even_positive m l : 0 < m -> 0 < round_nearest_even m l.
Proof.
  intros Hm. unfold round_nearest_even.
  destruct l as [|[]]; try lia. destruct (Z.even m); lia.
Qed.

Lemma binary_round_aux_nonzero sx m e l :
  0 < m -> emin prec emax <= e ->
  SF_is_zero (binary_round_aux prec emax sx m e l) = false.
Proof.
  intros Hm He. unfold binary_round_aux.
  destruct (shr_fexp_positive m e l Hm He) as [H1 H2].
  destruct (shr_fexp prec emax m e l) as [mrs' e']. cbn [fst snd] in H1, H2.
  pose proof (round_nearest_even_positive (shr_m mrs') (loc_of_shr_record mrs') H1) as Hr.
  destruct (shr_fexp_positive _ e' loc_Exact Hr H2) as [H3 _].
  destruct (shr_fexp prec emax _ e' loc_Exact) as [mrs'' e'']. cbn [fst] in H3.
  destruct (shr_m mrs'') as [|q|q]; try lia.
  destruct (e'' <=? emax - prec); reflexivity.
Qed.

Lemma Z2SF_positive_nonzero b : 1 <= b -> SF_is_zero (Z2SF b) = false.
Proof.
  intros Hb. destruct b as [|p|p]; try lia.
  unfold Z2SF, binary_normalize, binary_round.
  destruct (shl_align p 0 _) as [mz ez] eqn:E.
  apply binary_round_aux_nonzero; [lia|].
  unfold shl_align in E.
  destruct (fexp prec emax (Z.pos (digits2_pos p) + 0) - 0) eqn:Ed;
    inversion E; subst; unfold emin, fexp, prec, emax in *; lia.
Qed.

(** ** Small integers go through the float scaling unchanged *)

Lemma iter_pos_iter {A} (f : A -> A) p : forall x, SpecFloat.iter_pos f p x = Pos.iter f x p.
Proof.
  induction p as [p IH|p IH|]; intros x; cbn [SpecFloat.iter_pos Pos.iter].
  - rewrite !IH, !Pos.iter_swap. reflexivity.
  - rewrite !IH. reflexivity.
  - reflexivity.
Qed.

Lemma shift_back m k : Pos.iter shr_1 (exact_record (Pos.iter xO m k)) k = exact_record m.
Proof.
  revert m. induction k as [|k IH] using Pos.peano_ind; intros m.
  - reflexivity.
  - rewrite Pos.iter_succ_r, Pos.iter_succ. cbn [exact_record shr_1]. apply IH.
Qed.

Lemma digits_shifted m k :
  Z.pos (digits2_pos (Pos.iter xO m k)) = Z.pos (digits2_pos m) + Z.pos k.
Proof.
  induction k as [|k IH] using Pos.peano_ind.
  - cbn [Pos.iter digits2_pos]. lia.
  - rewrite Pos.iter_succ. cbn [digits2_pos]. lia.
Qed.

Lemma value_shifted m k : Z.pos (Pos.iter xO m k) = Z.pos m * 2 ^ Z.pos k.
Proof.
  induction k as [|k IH] using Pos.peano_ind.
  - cbn [Pos.iter]. change (2 ^ 1) with 2. lia.
  - rewrite Pos.iter_succ, Pos2Z.inj_xO, IH, Pos2Z.inj_succ, Z.pow_succ_r by lia. lia.
Qed.

(** A full mantissa with a representable exponent is left alone. *)
Lemma shr_fexp_full m e :
  Z.pos (digits2_pos m) = prec -> emin prec emax <= e ->
  shr_fexp prec emax (Z.pos m) e loc_Exact = (exact_record m, e).
Proof.
  intros Hd He. unfold shr_fexp. cbn [Zdigits2]. rewrite Hd.
  replace (fexp prec emax (prec + e) - e) with 0
    by (unfold fexp, emin, prec, emax in *; lia).
  reflexivity.
Qed.

Lemma binary_round_aux_full s m e :
  Z.pos (digits2_pos m) = prec -> emin prec emax <= e <= emax - prec ->
  binary_round_aux prec emax s (Z.pos m) e loc_Exact = S754_finite s m e.
Proof.
  intros Hd He. unfold binary_round_aux.
  rewrite (shr_fexp_full m e Hd) by lia.
  cbn [exact_record shr_m loc_of_shr_record round_nearest_even].
  rewrite (shr_fexp_full m e Hd) by lia. cbn [exact_record shr_m].
  destruct (Z.leb_spec e (emax - prec)); [reflexivity|lia].
Qed.

(** A full mantissa followed by [k] zero bits is shifted back exactly. *)
Lemma binary_round_aux_shifted s m k e :
  Z.pos (digits2_pos m) = prec ->
  emin prec emax <= e -> e + Z.pos k <= emax - prec ->
  binary_round_aux prec emax s (Z.pos (Pos.iter xO m k)) e loc_Exact =
  S754_finite s m (e + Z.pos k).
Proof.
  intros Hd He Hk. unfold binary_round_aux at 1.
  assert (Hshr : shr_fexp prec emax (Z.pos (Pos.iter xO m k)) e loc_Exact
                 = (exact_record m, e + Z.pos k)).
  { unfold shr_fexp. cbn [Zdigits2]. rewrite digits_shifted, Hd.
    replace (fexp prec emax (prec + Z.pos k + e) - e) with (Z.pos k)
      by (unfold fexp, emin, prec, emax in *; lia).
    cbn [shr shr_record_of_loc]. rewrite iter_pos_iter.
    fold (exact_record (Pos.iter xO m k)). rewrite shift_back. reflexivity. }
  rewrite Hshr. cbn [exact_record shr_m loc_of_shr_record round_nearest_even].
  rewrite (shr_fexp_full m (e + Z.pos k) Hd) by lia. cbn [exact_record shr_m].
  destruct (Z.leb_spec (e + Z.pos k) (emax - prec)); [reflexivity|lia].
Qed.

Lemma digits2_upper p n : Z.pos p < 2 ^ n -> 0 <= n -> Z.pos (digits2_pos p) <= n.
Proof.
  intros Hp Hn. pose proof (digits2_lower p) as Hl.
  destruct (Z_le_gt_dec (Z.pos (digits2_pos p)) n) as [H|H]; [exact H|].
  assert (2 ^ n <= 2 ^ (Z.pos (digits2_pos p) - 1)) by (apply Z.pow_le_mono_r; lia).
  lia.
Qed.

(** The float of an integer below 2^52: the integer shifted to a full
    mantissa. *)
Lemma binary_round_small s p :
  Z.pos p < 2 ^ 52 ->
  exists k, Z.pos (digits2_pos p) + Z.pos k = prec
            /\ binary_round prec emax s p 0 = S754_finite s (Pos.iter xO p k) (Z.neg k).
Proof.
  intros Hp. pose proof (digits2_upper p 52 Hp ltac:(lia)) as Hd.
  unfold binary_round, shl_align.
  replace (fexp prec emax (Z.pos (digits2_pos p) + 0) - 0)
    with (Z.pos (digits2_pos p) - prec)
    by (unfold fexp, emin, prec, emax in *; lia).
  replace (fexp prec emax (Z.pos (digits2_pos p) + 0))
    with (Z.pos (digits2_pos p) - prec)
    by (unfold fexp, emin, prec, emax in *; lia).
  destruct (Z.pos (digits2_pos p) - prec) as [|q|q] eqn:Eq;
    try (unfold prec in *; lia).
  exists q. split; [unfold prec in *; lia|].
  rewrite binary_round_aux_full; [reflexivity| |unfold emin, prec, emax in *; lia].
  rewrite digits_shifted. unfold prec in *. lia.
Qed.

Lemma Z2SF_one : Z2SF 1 = S754_finite false (Pos.iter xO 1%positive 52) (-52).
Proof. reflexivity. Qed.

(** [float(z) * 1.0] is [float(z)], and [int] of it is [z]. *)
Lemma scaling_by_one z :
  - 2 ^ 52 < z < 2 ^ 52 -> float_to_int (SF64mul (Z2SF z) (Z2SF 1)) = Ok z.
Proof.
  intros Hz.
  assert (Hpos : forall s p, Z.pos p < 2 ^ 52 ->
            float_to_int (SF64mul (binary_round prec emax s p 0) (Z2SF 1))
            = Ok (if s then Z.neg p else Z.pos p)).
  { intros s p Hp. destruct (binary_round_small s p Hp) as (k & Hk & ->).
    rewrite Z2SF_one. unfold SF64mul, SFmul. rewrite xorb_false_r.
    assert (Hmul : (Pos.iter xO p k * Pos.iter xO 1 52 = Pos.iter xO (Pos.iter xO p k) 52)%positive).
    { rewrite Pos.mul_comm. reflexivity. }
    rewrite Hmul.
    rewrite binary_round_aux_shifted;
      [|rewrite digits_shifted; unfold prec in *; lia
       |unfold emin, prec, emax in *; lia|unfold emin, prec, emax in *; lia].
    unfold float_to_int.
    replace (Z.neg k + -52 + 52) with (Z.neg k) by lia.
    destruct (Z.leb_spec 0 (Z.neg k)); [lia|].
    change (- Z.neg k) with (Z.pos k).
    rewrite value_shifted, Z.div_mul by (apply Z.pow_nonzero; lia).
    destruct s; reflexivity. }
  destruct z as [|p|p].
  - reflexivity.
  - apply (Hpos false). lia.
  - apply (Hpos true). lia.
Qed.

(** ** The integers that convert to a float *)

Lemma digits2_strict_upper p : Z.pos p < 2 ^ Z.pos (digits2_pos p).
Proof.
  induction p as [p IH|p IH|]; cbn [digits2_pos].
  - rewrite Pos2Z.inj_succ, Z.pow_succ_r by lia. lia.
  - rewrite Pos2Z.inj_succ, Z.pow_succ_r by lia. lia.
  - cbn. lia.
Qed.

(** The exponent only grows in [shr_fexp]. *)
Lemma shr_fexp_exponent m e l : e <= snd (shr_fexp prec emax m e l).
Proof.
  unfold shr_fexp, shr.
  destruct (fexp prec emax (Zdigits2 m + e) - e) as [|n|n]; cbn [snd]; lia.
Qed.

(** The round bit after a shift: the last bit shifted out. *)
Lemma shr_1_r mrs : 0 <= shr_m mrs -> shr_r (shr_1 mrs) = Z.odd (shr_m mrs).
Proof.
  destruct mrs as [m r s]. cbn [shr_m shr_1]. intros Hm.
  destruct m as [|[p|p|]|p]; try lia; reflexivity.
Qed.

Lemma iter_shr_1_nonneg k : forall mrs,
  0 <= shr_m mrs -> 0 <= shr_m (Pos.iter shr_1 mrs k).
Proof.
  induction k as [|k IH] using Pos.peano_ind; intros mrs Hm.
  - cbn [Pos.iter]. apply shr_1_nonneg, Hm.
  - rewrite Pos.iter_succ. apply shr_1_nonneg, IH, Hm.
Qed.

Lemma iter_pos_shr_1_r n mrs :
  0 <= shr_m mrs ->
  shr_r (SpecFloat.iter_pos shr_1 n mrs) = Z.odd (shr_m mrs / 2 ^ (Z.pos n - 1)).
Proof.
  intros Hm. rewrite iter_pos_iter.
  destruct (Pos.eq_dec n 1%positive) as [->|Hn].
  - cbn [Pos.iter]. rewrite shr_1_r by exact Hm.
    change (2 ^ (1 - 1)) with 1. rewrite Z.div_1_r. reflexivity.
  - destruct (Pos.succ_pred_or n) as [?|Hs]; [contradiction|].
    rewrite <- Hs at 1. rewrite Pos.iter_succ.
    rewrite shr_1_r by (apply iter_shr_1_nonneg, Hm).
    rewrite <- iter_pos_iter, iter_pos_shr_1 by exact Hm.
    do 3 f_equal. lia.
Qed.

Lemma digits2_exact p n : 2 ^ (n - 1) <= Z.pos p < 2 ^ n -> 0 < n -> Z.pos (digits2_pos p) = n.
Proof.
  intros [Hlo Hhi] Hn. pose proof (digits2_upper p n Hhi ltac:(lia)) as Hu.
  pose proof (digits2_strict_upper p) as Hs.
  destruct (Z_lt_le_dec (Z.pos (digits2_pos p)) n) as [Hlt|Hge]; [|lia].
  assert (2 ^ Z.pos (digits2_pos p) <= 2 ^ (n - 1)) by (apply Z.pow_le_mono_r; lia).
  lia.
Qed.

(** The float of an integer of more than 53 bits: the [n] bits beyond
    the 53rd are shifted out and the mantissa is rounded; a mantissa that
    rounds up to [2^53] takes one more shift. *)
Lemma binary_round_large sx p n :
  Z.pos (digits2_pos p) = prec + Z.pos n ->
  let mrs := SpecFloat.iter_pos shr_1 n (exact_record p) in
  let r := round_nearest_even (shr_m mrs) (loc_of_shr_record mrs) in
  2 ^ 52 <= shr_m mrs < 2 ^ 53
  /\ binary_round prec emax sx p 0 =
     if r <? 2 ^ 53
     then (if Z.pos n <=? emax - prec then S754_finite sx (Z.to_pos r) (Z.pos n)
           else S754_infinity sx)
     else (if Z.pos n + 1 <=? emax - prec then S754_finite sx (Z.to_pos (2 ^ 52)) (Z.pos n + 1)
           else S754_infinity sx).
Proof.
  intros Hd mrs r.
  assert (Hq : shr_m mrs = Z.pos p / 2 ^ Z.pos n)
    by (subst mrs; rewrite iter_pos_shr_1 by (cbn; lia); reflexivity).
  pose proof (digits2_lower p) as Hlo. pose proof (digits2_strict_upper p) as Hhi.
  rewrite Hd in Hlo, Hhi. unfold prec in Hlo, Hhi.
  assert (Hpn : 0 < 2 ^ Z.pos n) by (apply Z.pow_pos_nonneg; lia).
  replace (53 + Z.pos n - 1) with (52 + Z.pos n) in Hlo by lia.
  rewrite Z.pow_add_r in Hlo, Hhi by lia.
  assert (Hqb : 2 ^ 52 <= shr_m mrs < 2 ^ 53).
  { rewrite Hq. split.
    - apply Z.div_le_lower_bound; lia.
    - apply Z.div_lt_upper_bound; lia. }
  split; [exact Hqb|].
  assert (Hr : shr_m mrs <= r <= shr_m mrs + 1).
  { subst r. unfold round_nearest_even.
    destruct (loc_of_shr_record mrs) as [|[]]; try lia.
    destruct (Z.even (shr_m mrs)); lia. }
  unfold binary_round, shl_align.
  replace (fexp prec emax (Z.pos (digits2_pos p) + 0) - 0) with (Z.pos n)
    by (rewrite Hd; unfold fexp, emin, prec, emax; lia).
  unfold binary_round_aux.
  assert (Hshr : shr_fexp prec emax (Z.pos p) 0 loc_Exact = (mrs, Z.pos n)).
  { unfold shr_fexp. cbn [Zdigits2]. rewrite Hd.
    replace (fexp prec emax (prec + Z.pos n + 0) - 0) with (Z.pos n)
      by (unfold fexp, emin, prec, emax; lia).
    reflexivity. }
  rewrite Hshr. fold r.
  destruct r as [|r'|r'] eqn:Er; try lia.
  destruct (Z.ltb_spec (Z.pos r') (2 ^ 53)) as [Hlt|Hge].
  - assert (Hdr : Z.pos (digits2_pos r') = prec)
      by (apply digits2_exact; unfold prec; [change (53 - 1) with 52|]; lia).
    rewrite (shr_fexp_full r' (Z.pos n) Hdr) by (unfold emin, prec, emax; lia).
    cbn [exact_record shr_m Z.to_pos]. reflexivity.
  - assert (Hr53 : Z.pos r' = 2 ^ 53) by lia.
    assert (Er' : r' = Z.to_pos (2 ^ 53)) by lia. subst r'.
    unfold shr_fexp.
    replace (fexp prec emax (Zdigits2 (Z.pos (Z.to_pos (2 ^ 53))) + Z.pos n) - Z.pos n)
      with 1 by (cbn [Zdigits2]; change (Z.pos (digits2_pos (Z.to_pos (2 ^ 53)))) with 54;
                 unfold fexp, emin, prec, emax; lia).
    reflexivity.
Qed.

Lemma loc_round_bit mrs :
  round_nearest_even (shr_m mrs) (loc_of_shr_record mrs) =
  if shr_r mrs
  then (if shr_s mrs || Z.odd (shr_m mrs) then shr_m mrs + 1 else shr_m mrs)
  else shr_m mrs.
Proof.
  destruct mrs as [m [] []]; cbn [shr_m shr_r shr_s loc_of_shr_record round_nearest_even orb];
    try reflexivity.
  rewrite <- Z.negb_odd. destruct (Z.odd m); reflexivity.
Qed.

Lemma threshold_powers :
  2 ^ 1024 = 2 ^ 54 * 2 ^ 970 /\ 2 ^ 971 = 2 * 2 ^ 970 /\ 0 < 2 ^ 970.
Proof.
  split; [|split].
  - rewrite <- Z.pow_add_r by lia. reflexivity.
  - change 971 with (1 + 970). rewrite Z.pow_add_r by lia. reflexivity.
  - apply Z.pow_pos_nonneg; lia.
Qed.

(** An integer of 1024 bits: its 54 leading bits. *)
Lemma leading_bits p :
  2 ^ 1023 <= Z.pos p < 2 ^ 1024 ->
  let h := Z.pos p / 2 ^ 970 in
  Z.pos (digits2_pos p) = prec + 971
  /\ Z.pos p / 2 ^ 971 = h / 2
  /\ 2 ^ 53 <= h < 2 ^ 54
  /\ (Z.pos p < 2 ^ 1024 - 2 ^ 970 <-> h < 2 ^ 54 - 1).
Proof.
  intros Hp h. destruct threshold_powers as (H1024 & H971 & H970).
  assert (H1023 : 2 ^ 1023 = 2 ^ 53 * 2 ^ 970)
    by (rewrite <- Z.pow_add_r by lia; reflexivity).
  split; [apply digits2_exact; unfold prec; [change (53 + 971 - 1) with 1023;
                                              change (53 + 971) with 1024|]; lia|].
  split; [unfold h; rewrite Z.div_div, H971 by lia; f_equal; lia|].
  pose proof (Z.div_mod (Z.pos p) (2 ^ 970) ltac:(lia)) as Hdm.
  pose proof (Z.mod_pos_bound (Z.pos p) (2 ^ 970) H970) as Hmod.
  fold h in Hdm. rewrite H1024. rewrite H1023, H1024 in Hp.
  assert (HB : 2 ^ 54 = 2 * 2 ^ 53) by reflexivity.
  assert (HA : 0 < 2 ^ 53) by reflexivity.
  revert Hp Hdm Hmod HB HA H970. clear.
  generalize (2 ^ 970) (2 ^ 53) (2 ^ 54) (Z.pos p `mod` 2 ^ 970) h (Z.pos p).
  intros P A B m h' x Hp Hdm Hmod HB HA H970. subst B.
  split; [split; nia|]. split; intros H; nia.
Qed.

(** The round bit and the mantissa of an integer of 1024 bits. *)
Lemma round_1024 p :
  2 ^ 1023 <= Z.pos p < 2 ^ 1024 ->
  let mrs := SpecFloat.iter_pos shr_1 971 (exact_record p) in
  (round_nearest_even (shr_m mrs) (loc_of_shr_record mrs) <? 2 ^ 53)
  = (Z.pos p <? 2 ^ 1024 - 2 ^ 970).
Proof.
  intros Hp mrs. destruct (leading_bits p Hp) as (_ & Hq & Hh & Hiff).
  set (h := Z.pos p / 2 ^ 970) in *.
  assert (Hm : shr_m mrs = h / 2)
    by (subst mrs; rewrite iter_pos_shr_1 by (cbn; lia); exact Hq).
  assert (Hr : shr_r mrs = Z.odd h)
    by (subst mrs; rewrite iter_pos_shr_1_r by (cbn; lia); reflexivity).
  rewrite loc_round_bit, Hr, Hm.
  pose proof (Z.div_mod h 2 ltac:(lia)) as Hdm. rewrite Zmod_odd in Hdm.
  assert (HB : 2 ^ 54 = 2 * 2 ^ 53) by reflexivity.
  destruct (Z.ltb_spec (Z.pos p) (2 ^ 1024 - 2 ^ 970)) as [Hlt|Hge].
  - apply Hiff in Hlt. apply Z.ltb_lt.
    destruct (Z.odd h); [|lia].
    destruct (shr_s mrs || Z.odd (h / 2)); lia.
  - assert (Hh' : h = 2 ^ 54 - 1) by (destruct (Z_lt_le_dec h (2 ^ 54 - 1)) as [H|H];
                                       [apply Hiff in H|]; lia).
    rewrite Hh'. replace (Z.odd (2 ^ 54 - 1)) with true by reflexivity.
    replace (Z.odd ((2 ^ 54 - 1) / 2)) with true by reflexivity.
    rewrite orb_true_r. reflexivity.
Qed.

(** The float nearest to a positive integer is finite below the overflow
    threshold, and an infinity from there on. *)
Lemma binary_round_finite sx p :
  Z.pos p < float_overflow_threshold ->
  exists m e, binary_round prec emax sx p 0 = S754_finite sx m e.
Proof.
  unfold float_overflow_threshold. intros Hp.
  destruct (Z_lt_le_dec (Z.pos p) (2 ^ 52)) as [H52|H52].
  { destruct (binary_round_small sx p H52) as (k & _ & ->). eauto. }
  destruct (Z_lt_le_dec (Z.pos p) (2 ^ 53)) as [H53|H53].
  { assert (Hd : Z.pos (digits2_pos p) = prec)
      by (apply digits2_exact; unfold prec; [change (53 - 1) with 52|]; lia).
    unfold binary_round, shl_align. rewrite Hd.
    replace (fexp prec emax (prec + 0) - 0) with 0 by reflexivity.
    rewrite (binary_round_aux_full sx p 0 Hd) by (unfold emin, prec, emax; lia). eauto. }
  pose proof (digits2_lower p) as Hlo. pose proof (digits2_strict_upper p) as Hhi.
  set (d := Z.pos (digits2_pos p)) in *.
  assert (Hd53 : 53 < d).
  { destruct (Z_lt_le_dec 53 d) as [H|H]; [exact H|].
    assert (2 ^ d <= 2 ^ 53) by (apply Z.pow_le_mono_r; lia). lia. }
  destruct (d - 53) as [|n|n] eqn:En; try lia.
  assert (Hd : Z.pos (digits2_pos p) = prec + Z.pos n) by (fold d; unfold prec; lia).
  destruct (binary_round_large sx p n Hd) as [Hq ->].
  destruct (Z_lt_le_dec (Z.pos p) (2 ^ 1023)) as [H1023|H1023].
  - assert (Hn : Z.pos n + 1 <= 971).
    { assert (Hd' : d <= 1023) by (apply digits2_upper; lia). lia. }
    destruct (_ <? 2 ^ 53).
    + destruct (Z.leb_spec (Z.pos n) (emax - prec)); [eauto|unfold emax, prec in *; lia].
    + destruct (Z.leb_spec (Z.pos n + 1) (emax - prec)); [eauto|unfold emax, prec in *; lia].
  - assert (Hp' : 2 ^ 1023 <= Z.pos p < 2 ^ 1024).
    { split; [exact H1023|]. pose proof (proj2 (proj2 threshold_powers)). lia. }
    destruct (leading_bits p Hp') as (Hd' & _).
    assert (n = 971%positive) by (unfold prec in *; lia). subst n.
    rewrite (round_1024 p Hp'). destruct (Z.ltb_spec (Z.pos p) (2 ^ 1024 - 2 ^ 970)); [|lia].
    cbn [Z.leb]. eauto.
Qed.

Lemma binary_round_overflow sx p :
  float_overflow_threshold <= Z.pos p ->
  binary_round prec emax sx p 0 = S754_infinity sx.
Proof.
  unfold float_overflow_threshold. intros Hp.
  destruct threshold_powers as (H1024 & H971 & H970).
  assert (H1023 : 2 ^ 1023 = 2 ^ 53 * 2 ^ 970)
    by (rewrite <- Z.pow_add_r by lia; reflexivity).
  assert (Hlow : 2 ^ 1023 <= Z.pos p).
  { assert (HB : 2 ^ 54 = 2 * 2 ^ 53) by reflexivity.
    assert (HA : 1 < 2 ^ 53) by reflexivity. nia. }
  destruct (Z_lt_le_dec (Z.pos p) (2 ^ 1024)) as [Hlt|Hge].
  - assert (Hp' : 2 ^ 1023 <= Z.pos p < 2 ^ 1024) by lia.
    destruct (leading_bits p Hp') as (Hd & _).
    destruct (binary_round_large sx p 971 Hd) as [_ ->].
    rewrite (round_1024 p Hp'). destruct (Z.ltb_spec (Z.pos p) (2 ^ 1024 - 2 ^ 970)); [lia|].
    reflexivity.
  - pose proof (digits2_strict_upper p) as Hhi.
    set (d := Z.pos (digits2_pos p)) in *.
    assert (Hd : 1024 < d).
    { destruct (Z_lt_le_dec 1024 d) as [H|H]; [exact H|].
      assert (2 ^ d <= 2 ^ 1024) by (apply Z.pow_le_mono_r; lia). lia. }
    destruct (d - 53) as [|n|n] eqn:En; try lia.
    assert (Hd' : Z.pos (digits2_pos p) = prec + Z.pos n) by (fold d; unfold prec; lia).
    destruct (binary_round_large sx p n Hd') as [_ ->].
    destruct (_ <? 2 ^ 53).
    + destruct (Z.leb_spec (Z.pos n) (emax - prec)); [unfold emax, prec in *; lia|reflexivity].
    + destruct (Z.leb_spec (Z.pos n + 1) (emax - prec)); [unfold emax, prec in *; lia|reflexivity].
Qed.

(** [float(z)] returns below the threshold and raises from there on. *)
Lemma py_float_converts z :
  Z.abs z < float_overflow_threshold -> py_float z = Ok (Z2SF z).
Proof.
  intros Hz. unfold py_float, Z2SF. destruct z as [|p|p]; [reflexivity| |];
    cbn [binary_normalize];
    [destruct (binary_round_finite false p) as (m & e & ->)
    |destruct (binary_round_finite true p) as (m & e & ->)]; try reflexivity; lia.
Qed.

Lemma py_float_overflow z :
  float_overflow_threshold <= Z.abs z ->
  py_float z = Raise (OverflowError "int too large to convert to float").
Proof.
  intros Hz. unfold py_float, Z2SF.
  assert (0 < float_overflow_threshold) by reflexivity.
  destruct z as [|p|p]; [cbn in Hz; lia| |]; cbn [binary_normalize];
    rewrite binary_round_overflow by lia; reflexivity.
Qed.

Lemma py_float_small z : - 2 ^ 1023 < z < 2 ^ 1023 -> py_float z = Ok (Z2SF z).
Proof.
  intros Hz. apply py_float_converts. unfold float_overflow_threshold.
  destruct threshold_powers as (H1024 & _ & H970).
  assert (H1023 : 2 ^ 1023 = 2 ^ 53 * 2 ^ 970)
    by (rewrite <- Z.pow_add_r by lia; reflexivity).
  assert (HB : 2 ^ 54 = 2 * 2 ^ 53) by reflexivity.
  assert (HA : 1 < 2 ^ 53) by reflexivity. nia.
Qed.

(** ** Integers through the float scaling *)

Lemma numToTwoByteArray_int z (LsbFirst signed : bool) :
  -32768 <= z < 65536 ->
  _numToTwoByteArray (VInt z) 0 LsbFirst signed =
  _pack ((if LsbFirst then "<" else ">") ++ (if signed then "h" else "H")) z ≫=
    (fun outstring => if buf_len outstring =? 2 then Ok outstring else Raise AssertionError).
Proof.
  intros Hz. unfold _numToTwoByteArray.
  change (10 ^ 0) with 1. cbn [float_of_value].
  rewrite (py_float_small z) by lia. change (py_float 1) with (Ok (Z2SF 1)).
  cbn [mbind result_bind]. rewrite (scaling_by_one z) by lia. reflexivity.
Qed.

(** [struct.pack] on the four format codes. *)
Lemma struct_pack_formats v :
  struct_pack ">H" v = (if fits16 false v then Some (word16_be v) else None)
  /\ struct_pack "<H" v = (if fits16 false v then Some (rev (word16_be v)) else None)
  /\ struct_pack ">h" v = (if fits16 true v then Some (word16_be v) else None)
  /\ struct_pack "<h" v = (if fits16 true v then Some (rev (word16_be v)) else None).
Proof. repeat split; reflexivity. Qed.

Lemma pack_fits (LsbFirst signed : bool) v :
  fits16 signed v = true ->
  _pack ((if LsbFirst then "<" else ">") ++ (if signed then "h" else "H")) v =
  Ok (ByteArray (if LsbFirst then rev (word16_be v) else word16_be v)).
Proof.
  intros Hfit. unfold _pack.
  destruct (struct_pack_formats v) as (H1 & H2 & H3 & H4).
  destruct LsbFirst, signed; cbv [String.append];
    rewrite ?H1, ?H2, ?H3, ?H4; rewrite Hfit; try reflexivity.
Qed.

Lemma pack_overflow (LsbFirst signed : bool) v :
  fits16 signed v = false ->
  _pack ((if LsbFirst then "<" else ">") ++ (if signed then "h" else "H")) v =
  Raise (ValueError "The value to send is probably out of range").
Proof.
  intros Hfit. unfold _pack.
  destruct (struct_pack_formats v) as (H1 & H2 & H3 & H4).
  destruct LsbFirst, signed; cbv [String.append];
    rewrite ?H1, ?H2, ?H3, ?H4; rewrite Hfit; try reflexivity.
Qed.

Lemma fits16_unsigned r : 0 <= r < 65536 -> fits16 false r = true.
Proof. intros H. unfold fits16. case_ltb; try reflexivity. Qed.

(** The two bytes of a 16-bit register, low byte first: the CRC trailer. *)
Lemma numToTwoByteArray_lsb r :
  0 <= r < 65536 ->
  _numToTwoByteArray (VInt r) 0 true false = Ok (ByteArray [r mod 256; r / 256]).
Proof.
  intros Hr. rewrite numToTwoByteArray_int by lia.
  rewrite (pack_fits true false r (fits16_unsigned r Hr)).
  unfold word16_be. rewrite (Z.mod_small r 65536) by lia. reflexivity.
Qed.

(** The two bytes of an unsigned register, high byte first. *)
Lemma numToTwoByteArray_msb r :
  0 <= r < 65536 ->
  _numToTwoByteArray (VInt r) 0 false false = Ok (ByteArray [r / 256; r mod 256]).
Proof.
  intros Hr. rewrite numToTwoByteArray_int by lia.
  rewrite (pack_fits false false r (fits16_unsigned r Hr)).
  unfold word16_be. rewrite (Z.mod_small r 65536) by lia. reflexivity.
Qed.

(** ** What [_calculateCrcString] returns *)

Lemma calculateCrcString_bytearray bs :
  _calculateCrcString (ByteArray bs) = Ok (ByteArray (crc16 bs)).
Proof.
  unfold _calculateCrcString. rewrite checkString_bytearray.
  cbn [crc_loop]. rewrite crc_update_fold.
  apply numToTwoByteArray_lsb, crc16_register_range.
Qed.

(** On [bytes] the type check raises, and the handler runs the same loop. *)
Lemma calculateCrcString_bytes bs :
  _calculateCrcString (Bytes bs) = Ok (ByteArray (crc16 bs)).
Proof.
  unfold _calculateCrcString. cbn [_checkString crc_loop].
  rewrite crc_update_fold. cbn [mbind result_bind].
  apply numToTwoByteArray_lsb, crc16_register_range.
Qed.

(** ** The table is the bitwise Modbus CRC16 *)

Lemma table_agrees_all : forall_upto table_agrees_with_shifts 0 (Z.to_nat 65536) = true.
Proof. vm_compute. reflexivity. Qed.

Lemma table_step_is_bitwise register byte :
  0 <= register < 65536 -> is_byte byte ->
  crc16_table_step register byte = crc16_bitwise_step register byte.
Proof.
  intros Hr Hb. unfold is_byte in Hb.
  assert (Hx : 0 <= Z.lxor register byte < 65536) by (apply lxor_word16; lia).
  pose proof (forall_upto_sound _ _ _ table_agrees_all (Z.lxor register byte)
                ltac:(lia)) as H.
  unfold table_agrees_with_shifts in H. apply Z.eqb_eq in H.
  unfold crc16_bitwise_step. rewrite H. unfold crc16_table_step.
  rewrite Z.lxor_0_r, Z.shiftr_lxor.
  rewrite (Z.shiftr_div_pow2 byte 8) by lia. change (2 ^ 8) with 256.
  rewrite (Z.div_small byte 256) by lia. rewrite Z.lxor_0_r. reflexivity.
Qed.

Lemma crc16_register_is_modbus bs :
  Forall is_byte bs -> crc16_register bs = crc16_modbus bs.
Proof.
  unfold crc16_register, crc16_modbus.
  assert (H : 0 <= 0xFFFF < 65536) by lia. revert H. generalize 0xFFFF.
  induction bs as [|b bs IH]; intros register Hr Hall; [reflexivity|].
  inversion Hall as [|? ? Hb Hbs]; subst. cbn [fold_left].
  rewrite <- (table_step_is_bitwise register b Hr Hb).
  apply IH; [apply crc16_table_step_range, Hr|exact Hbs].
Qed.

(** ** Slices of a frame *)

Lemma py_slice_nonneg {A} (l : list A) i j :
  0 <= i <= j -> j <= Z.of_nat (length l) ->
  py_slice l i j = firstn (Z.to_nat (j - i)) (skipn (Z.to_nat i) l).
Proof.
  intros Hij Hj. unfold py_slice, norm_index.
  destruct (Z.ltb_spec i 0); [lia|]. destruct (Z.ltb_spec j 0); [lia|].
  rewrite !Z.min_l by lia. reflexivity.
Qed.

Lemma py_slice_from_end {A} (l : list A) i :
  - Z.of_nat (length l) <= i < 0 ->
  py_slice_from l i = skipn (length l - Z.to_nat (- i)) l.
Proof.
  intros Hi. unfold py_slice_from, py_slice, norm_index.
  destruct (Z.ltb_spec i 0); [|lia].
  destruct (Z.ltb_spec (Z.of_nat (length l)) 0); [lia|].
  rewrite Z.max_r, Z.min_l by lia.
  replace (Z.to_nat (i + Z.of_nat (length l))) with (length l - Z.to_nat (- i))%nat by lia.
  apply firstn_all2. rewrite length_skipn. lia.
Qed.

Lemma py_index_nth (l : list Z) i :
  0 <= i < Z.of_nat (length l) -> py_index l i = Ok (nth (Z.to_nat i) l 0).
Proof.
  intros Hi. unfold py_index. cbv zeta.
  assert (E0 : (i <? 0) = false) by (apply Z.ltb_ge; lia).
  assert (E1 : (Z.of_nat (length l) <=? i) = false) by (apply Z.leb_gt; lia).
  rewrite E0. cbv iota. rewrite E0, E1. cbn [orb].
  destruct (nth_error l (Z.to_nat i)) as [x|] eqn:E.
  - erewrite nth_error_nth by exact E. reflexivity.
  - apply nth_error_None in E. lia.
Qed.

Lemma setBitOn_7 f : 1 <= f <= 127 -> _setBitOn f 7 = Ok (Z.setbit f 7).
Proof.
  intros H. unfold _setBitOn, _checkInt, _checkNumerical. cbn -[Z.shiftl Z.lor].
  case_ltb. reflexivity.
Qed.

Lemma list_Z_eqb_refl l : list_Z_eqb l l = true.
Proof. unfold list_Z_eqb. apply bool_decide_eq_true. reflexivity. Qed.

(** ** The frame validator *)

Lemma extractPayload_validate response slaveaddress functioncode :
  byteslike response ->
  0 <= slaveaddress <= 247 -> 1 <= functioncode <= 127 ->
  _extractPayload response slaveaddress "rtu" functioncode =
  reported (validate (buf_data response) slaveaddress functioncode).
Proof.
  intros Hkind Ha Hf. unfold _extractPayload, validate.
  rewrite (checkSlaveaddress_ok _ Ha), (checkFunctioncode_ok _ Hf).
  change (_checkMode "rtu") with (Ok tt). cbn [mbind result_bind]. change (2 + 2) with 4.
  set (resp := buf_data response).
  assert (Hlen : buf_len response = Z.of_nat (length resp)) by reflexivity.
  rewrite Hlen.
  destruct (Nat.ltb_spec (length resp) 4) as [Hshort|Hlong].
  { destruct (Z.ltb_spec (Z.of_nat (length resp)) 4); [reflexivity|lia]. }
  destruct (Z.ltb_spec (Z.of_nat (length resp)) 4); [lia|].
  assert (Hcrc : _calculateCrcString (buf_slice response 0 (Z.of_nat (length resp) - 2))
                 = Ok (ByteArray (crc16 (firstn (length resp - 2) resp)))).
  { destruct response as [l|l|l]; [| |contradiction]; cbn [buf_slice buf_data] in *;
      subst resp; rewrite py_slice_nonneg by lia;
      replace (Z.to_nat (Z.of_nat (length l) - 2 - 0)) with (length l - 2)%nat by lia;
      cbn [Z.to_nat skipn];
      [apply calculateCrcString_bytearray|apply calculateCrcString_bytes]. }
  rewrite Hcrc. cbn [mbind result_bind].
  assert (Hrecv : buf_eqb (buf_slice_from response (Z.opp 2))
                    (ByteArray (crc16 (firstn (length resp - 2) resp)))
                  = list_Z_eqb (skipn (length resp - 2) resp)
                      (crc16 (firstn (length resp - 2) resp))).
  { unfold buf_slice_from. rewrite Hlen.
    destruct response as [l|l|l]; [| |contradiction]; cbn [buf_slice buf_data buf_eqb] in *;
      subst resp; fold (py_slice_from l (Z.opp 2));
      rewrite py_slice_from_end by lia; reflexivity. }
  rewrite Hrecv.
  destruct (list_Z_eqb _ _); cbn [negb]; [|reflexivity].
  assert (Hidx : forall i, 0 <= i < 2 ->
            buf_index response i = Ok (VInt (nth (Z.to_nat i) resp 0))).
  { intros i Hi. unfold buf_index. fold resp. rewrite py_index_nth by lia.
    destruct response; [reflexivity|reflexivity|contradiction]. }
  rewrite (Hidx 0), (Hidx 1) by lia.
  change (Z.to_nat 0) with 0%nat. change (Z.to_nat 1) with 1%nat.
  cbn [mbind result_bind py_ne_int].
  destruct (nth 0 resp 0 =? slaveaddress); cbn [negb]; [|reflexivity].
  rewrite (setBitOn_7 _ Hf). cbn [mbind result_bind].
  rewrite negb_involutive.
  destruct (nth 1 resp 0 =? Z.setbit functioncode 7); [reflexivity|].
  destruct (nth 1 resp 0 =? functioncode); cbn [negb]; [|reflexivity].
  cbn [reported]. do 2 f_equal.
  destruct response as [l|l|l]; [| |contradiction]; cbn [buf_slice buf_data] in *;
    subst resp; rewrite py_slice_nonneg by lia;
    f_equal; lia.
Qed.

(** ** One exchange on the serial line *)

Lemma checkString_request request :
  request <> [] -> _checkString (ByteArray request) "request" 1 None = Ok tt.
Proof.
  intros Hne. unfold _checkString, _checkInt, _checkNumerical, buf_len. cbn.
  destruct request as [|b rest]; [contradiction|].
  cbn [length]. case_ltb. reflexivity.
Qed.

Lemma communicate_closed_form self request size minimum_silent_period w :
  request <> [] ->
  _calculate_minimum_silent_period (baudrate self) = Ok minimum_silent_period ->
  _communicate self (ByteArray request) size w =
  communicate_outcome self request size minimum_silent_period w.
Proof.
  intros Hne Hmsp. unfold _communicate, communicate_outcome.
  rewrite (checkString_request _ Hne), Hmsp.
  unfold mbind, M_bind, mret, M_ret, lift, raise, time_ticks_ms, latest_read_time_get,
    latest_read_time_set, time_sleep_ms, serial_write, serial_read, log.
  cbn [_checkInt _checkNumerical mbind result_bind fst snd ticks incoming
       _LATEST_READ_TIMES trace].
  fold (time_since_read self w).
  unfold sleep_events, echo_ok, echo_events, answer_read, response_on_line, echo_read.
  destruct (Z_lt_float (time_since_read self w) minimum_silent_period);
    destruct (handle_local_echo self);
    cbn [ticks incoming _LATEST_READ_TIMES trace buf_len buf_data buf_eqb negb orb];
    unfold buf_len; cbn [buf_data]; rewrite ?Nat2Z.id;
    try (destruct (list_Z_eqb (take (length request) (hd [] (incoming w))) request);
         cbn [negb ticks incoming _LATEST_READ_TIMES trace]);
    repeat match goal with
           | |- context [take (Z.to_nat size) ?l] =>
               let a := fresh "answer" in
               set (a := take (Z.to_nat size) l); destruct a
           end;
    cbn [length Z.of_nat Z.eqb Nat.eqb]; rewrite <- ?app_assoc; reflexivity.
Qed.

(** ** Building and sending a request *)

Lemma embedPayload_frame slaveaddress functioncode payload :
  0 <= slaveaddress <= 247 -> 1 <= functioncode <= 127 ->
  _embedPayload slaveaddress "rtu" functioncode (ByteArray payload) =
  Ok (ByteArray (frame slaveaddress functioncode payload)).
Proof.
  intros Ha Hf. unfold _embedPayload.
  rewrite (checkSlaveaddress_ok _ Ha), (checkFunctioncode_ok _ Hf), checkString_bytearray.
  change (_checkMode "rtu") with (Ok tt).
  rewrite !numToOneByteArray_ok by lia.
  cbn [mbind result_bind]. unfold bytearray_add. cbn [buf_data app].
  rewrite calculateCrcString_bytearray. reflexivity.
Qed.

Lemma frame_not_nil slaveaddress functioncode payload :
  frame slaveaddress functioncode payload <> [].
Proof. discriminate. Qed.

Lemma performCommand_closed_form self functioncode payload minimum_silent_period w :
  valid_instrument self -> 1 <= functioncode <= 127 ->
  _calculate_minimum_silent_period (baudrate self) = Ok minimum_silent_period ->
  _performCommand self functioncode (ByteArray payload) w =
  let '(answer, w') :=
    communicate_outcome self (frame (address self) functioncode payload)
      (number_of_bytes_to_read_for self functioncode (ByteArray payload))
      minimum_silent_period w in
  (answer ≫= (fun response =>
     _extractPayload response (address self) "rtu" functioncode), w').
Proof.
  intros [Ha Hm] Hf Hmsp. unfold _performCommand. rewrite Hm.
  rewrite (checkFunctioncode_ok _ Hf), checkString_bytearray, (embedPayload_frame _ _ _ Ha Hf).
  unfold mbind at 1 2 3 4, M_bind, lift. cbn [fst snd].
  rewrite (communicate_closed_form _ _ _ _ _ (frame_not_nil _ _ _) Hmsp).
  destruct (communicate_outcome _ _ _ _ _) as [[response|e] w']; reflexivity.
Qed.

Lemma communicate_outcome_trace self request size minimum_silent_period w :
  trace (snd (communicate_outcome self request size minimum_silent_period w)) =
  trace w ++ exchange_events self request size minimum_silent_period w.
Proof.
  unfold communicate_outcome, exchange_events.
  destruct (echo_ok self request w); cbn [snd trace];
    rewrite <- ?app_assoc, ?app_nil_r; reflexivity.
Qed.

Lemma performCommand_snd self functioncode payload minimum_silent_period w :
  valid_instrument self -> 1 <= functioncode <= 127 ->
  _calculate_minimum_silent_period (baudrate self) = Ok minimum_silent_period ->
  snd (_performCommand self functioncode (ByteArray payload) w) =
  snd (communicate_outcome self (frame (address self) functioncode payload)
         (number_of_bytes_to_read_for self functioncode (ByteArray payload))
         minimum_silent_period w).
Proof.
  intros Hv Hf Hmsp. rewrite (performCommand_closed_form _ _ _ _ _ Hv Hf Hmsp).
  destruct (communicate_outcome _ _ _ _ _) as [answer w']. reflexivity.
Qed.

Lemma performCommand_fst self functioncode payload minimum_silent_period w :
  valid_instrument self -> 1 <= functioncode <= 127 ->
  _calculate_minimum_silent_period (baudrate self) = Ok minimum_silent_period ->
  fst (_performCommand self functioncode (ByteArray payload) w) =
  fst (communicate_outcome self (frame (address self) functioncode payload)
         (number_of_bytes_to_read_for self functioncode (ByteArray payload))
         minimum_silent_period w)
  ≫= (fun response => _extractPayload response (address self) "rtu" functioncode).
Proof.
  intros Hv Hf Hmsp. rewrite (performCommand_closed_form _ _ _ _ _ Hv Hf Hmsp).
  destruct (communicate_outcome _ _ _ _ _) as [answer w']. reflexivity.
Qed.

(** The checks after the communication are pure: the world that
    [_genericCommand] leaves is the one [_performCommand] leaves. *)
Lemma genericCommand_snd rt self functioncode registeraddress value numberOfDecimals
    numberOfRegisters signed payloadformat w :
  snd (_genericCommand rt self functioncode registeraddress value numberOfDecimals
         numberOfRegisters signed payloadformat w) =
  match build_payloadToSlave rt functioncode registeraddress value numberOfDecimals
          numberOfRegisters signed payloadformat with
  | Ok (payloadToSlave, _) => snd (_performCommand self functioncode payloadToSlave w)
  | Raise _ => w
  end.
Proof.
  unfold _genericCommand. unfold mbind at 1, M_bind, lift. cbn [fst snd].
  destruct (build_payloadToSlave _ _ _ _ _ _ _ _) as [[payloadToSlave fmt]|e];
    [|reflexivity].
  unfold mbind, M_bind.
  destruct (_performCommand self functioncode payloadToSlave w) as [[pl|e] w'];
    reflexivity.
Qed.

Lemma writes_app a b : writes (a ++ b) = writes a ++ writes b.
Proof. apply omap_app. Qed.

Lemma sleeps_app a b : sleeps (a ++ b) = sleeps a ++ sleeps b.
Proof. apply omap_app. Qed.

Lemma reads_app a b : reads (a ++ b) = reads a ++ reads b.
Proof. apply omap_app. Qed.

Lemma writes_exchange self request size minimum_silent_period w :
  writes (exchange_events self request size minimum_silent_period w) =
  [(port self, request)].
Proof.
  unfold exchange_events, sleep_events, echo_events.
  destruct (Z_lt_float _ _), (handle_local_echo self), (echo_ok self request w);
    reflexivity.
Qed.

(** ** The minimum silent period *)

Lemma minimum_silent_period_formula baudrate :
  at_least_1 baudrate -> converts_to_float baudrate ->
  _calculate_minimum_silent_period baudrate = Ok (silent_period_formula baudrate).
Proof.
  intros Hb Hc. unfold _calculate_minimum_silent_period, silent_period_formula, py_float_div.
  destruct baudrate as [|b|f|l|buf]; try contradiction;
    cbn [at_least_1 converts_to_float] in Hb, Hc.
  - unfold _checkNumerical. cbn [num_lt_Z mbind result_bind to_float float_of_value].
    destruct (Z.ltb_spec b 1); [lia|]. cbn [mbind result_bind].
    rewrite (py_float_converts b Hc). cbn [mbind result_bind].
    rewrite (Z2SF_positive_nonzero b Hb). reflexivity.
  - destruct Hb as [Hnan Hlt].
    unfold _checkNumerical. cbn [num_lt_Z mbind result_bind to_float float_of_value].
    rewrite Hlt. cbn [mbind result_bind].
    destruct f as [s|s| |s m e]; try reflexivity; try contradiction.
    cbn in Hlt. discriminate.
Qed.

(** An integer baud rate beyond the range of the floats passes the check
    of the minimum and fails in [float(baudrate)]. *)
Lemma minimum_silent_period_overflow b :
  float_overflow_threshold <= b ->
  _calculate_minimum_silent_period (VInt b)
  = Raise (OverflowError "int too large to convert to float").
Proof.
  intros Hb. assert (H0 : 1 < float_overflow_threshold) by reflexivity.
  unfold _calculate_minimum_silent_period, _checkNumerical.
  cbn [num_lt_Z mbind result_bind float_of_value].
  destruct (Z.ltb_spec b 1); [lia|]. cbn [mbind result_bind].
  rewrite (py_float_overflow b) by lia. reflexivity.
Qed.

Lemma default_silent_period :
  _calculate_minimum_silent_period (VInt BAUDRATE) =
  Ok (S754_finite false 4515327751400107 (-50)).
Proof. vm_compute. reflexivity. Qed.

(** ** The response size predictor *)

Lemma checkString_min4 a0 a1 hi lo rest :
  _checkString (ByteArray (a0 :: a1 :: hi :: lo :: rest)) "payload" 4 None = Ok tt.
Proof.
  unfold _checkString, _checkInt, _checkNumerical, buf_len. cbn -[Z.of_nat].
  cbn [buf_data length]. case_ltb. reflexivity.
Qed.

Lemma twoByteStringToNum_unsigned hi lo :
  _twoByteStringToNum (ByteArray [hi; lo]) 0 false = Ok (VInt (hi * 256 + lo)).
Proof. reflexivity. Qed.

Lemma quantity_field a0 a1 hi lo rest :
  buf_slice (ByteArray (a0 :: a1 :: hi :: lo :: rest)) 2 4 = ByteArray [hi; lo].
Proof.
  cbn [buf_slice]. rewrite py_slice_nonneg by (cbn [length]; lia). reflexivity.
Qed.

Lemma ceil_div_8 q : q / 8 + (if q mod 8 =? 0 then 0 else 1) = (q + 7) / 8.
Proof.
  pose proof (Z.div_mod q 8 ltac:(lia)) as Hq.
  pose proof (Z.mod_pos_bound q 8 ltac:(lia)) as Hr.
  destruct (Z.eqb_spec (q mod 8) 0) as [E|E].
  - replace (q + 7) with (7 + (q / 8) * 8) by lia.
    rewrite Z.div_add by lia. change (7 / 8) with 0. lia.
  - replace (q + 7) with ((q mod 8 - 1) + (q / 8 + 1) * 8) by lia.
    rewrite Z.div_add by lia. rewrite (Z.div_small (q mod 8 - 1) 8) by lia. lia.
Qed.

Lemma predictResponseSize_cases functioncode a0 a1 hi lo rest :
  1 <= functioncode <= 127 ->
  _predictResponseSize "rtu" functioncode (ByteArray (a0 :: a1 :: hi :: lo :: rest)) =
  if Z_in functioncode [5; 6; 15; 16] then Ok 8
  else if Z_in functioncode [1; 2] then Ok (2 + (1 + ((hi * 256 + lo) + 7) / 8) + 2)
  else if Z_in functioncode [3; 4] then Ok (2 + (1 + (hi * 256 + lo) * 2) + 2)
  else Raise (ValueError "Wrong functioncode: {}. The payload is").
Proof.
  intros Hf. unfold _predictResponseSize.
  change (_checkMode "rtu") with (Ok tt).
  rewrite (checkFunctioncode_ok _ Hf), checkString_min4, quantity_field,
    twoByteStringToNum_unsigned.
  cbn [mbind result_bind expect_int].
  destruct (Z_in functioncode [5; 6; 15; 16]) eqn:Ew; [reflexivity|].
  unfold Z_in in *. cbn [existsb] in *.
  destruct (Z.eqb_spec functioncode 1) as [->|N1];
    [cbn [orb mbind result_bind]; f_equal;
     pose proof (ceil_div_8 (hi * 256 + lo)); lia|].
  destruct (Z.eqb_spec functioncode 2) as [->|N2];
    [cbn [orb mbind result_bind]; f_equal;
     pose proof (ceil_div_8 (hi * 256 + lo)); lia|].
  destruct (Z.eqb_spec functioncode 3) as [->|N3]; [reflexivity|].
  destruct (Z.eqb_spec functioncode 4) as [->|N4]; [reflexivity|].
  reflexivity.
Qed.

(** Outside 1..127 the function code is rejected before anything else. *)
Lemma checkFunctioncode_range functioncode allowed :
  ~ 1 <= functioncode <= 127 ->
  exists msg, _checkFunctioncode functioncode allowed = Raise (ValueError msg).
Proof.
  intros Hf. unfold _checkFunctioncode, _checkInt, _checkNumerical.
  cbn [num_lt_Z num_gt_Z mbind result_bind].
  destruct (Z.ltb_spec 127 1); [lia|].
  destruct (Z.ltb_spec functioncode 1); [eexists; reflexivity|].
  destruct (Z.ltb_spec 127 functioncode); [eexists; reflexivity|lia].
Qed.

Lemma predictResponseSize_short mode functioncode payloadToSlave :
  buf_len payloadToSlave < 4 ->
  exists e, _predictResponseSize mode functioncode payloadToSlave = Raise e.
Proof.
  intros Hlen. unfold _predictResponseSize.
  destruct (_checkMode mode) as [[]|e]; [|eexists; reflexivity].
  destruct (_checkFunctioncode functioncode None) as [[]|e]; [|eexists; reflexivity].
  cbn [mbind result_bind].
  unfold _checkString.
  destruct payloadToSlave as [l|l|l]; try (eexists; reflexivity).
  cbn [_checkInt _checkNumerical num_lt_Z num_gt_Z mbind result_bind].
  change (4 <? 0) with false. cbv iota. cbn [mbind result_bind].
  destruct (Z.ltb_spec (buf_len (ByteArray l)) 4); [eexists; reflexivity|lia].
Qed.

(** * The properties of the specification *)

(** ** Frames: round trip and validation *)

Lemma setbit_7_differs f : 1 <= f <= 127 -> Z.setbit f 7 <> f.
Proof.
  intros Hf E.
  assert (Hset : Z.testbit (Z.setbit f 7) 7 = true) by (apply Z.setbit_eq; lia).
  rewrite E in Hset.
  rewrite Z.bits_above_log2 in Hset; [discriminate|lia|].
  apply Z.log2_lt_pow2; lia.
Qed.

Lemma validate_frame slaveaddress functioncode payload :
  1 <= functioncode <= 127 ->
  validate (frame slaveaddress functioncode payload) slaveaddress functioncode =
  Payload payload.
Proof.
  intros Hf. unfold validate, frame. cbv zeta.
  set (firstPart := slaveaddress :: functioncode :: payload).
  assert (Hcrc : length (crc16 firstPart) = 2%nat) by reflexivity.
  assert (Hlen : length (firstPart ++ crc16 firstPart) = (length firstPart + 2)%nat)
    by (rewrite length_app, Hcrc; reflexivity).
  rewrite Hlen. replace (length firstPart + 2 - 2)%nat with (length firstPart) by lia.
  rewrite take_app_length, drop_app_length.
  rewrite list_Z_eqb_refl. cbn [negb].
  destruct (Nat.ltb_spec (length firstPart + 2) 4) as [Hlt|_].
  { subst firstPart. cbn [length] in Hlt. lia. }
  subst firstPart. cbn [app nth skipn length].
  rewrite !Z.eqb_refl. cbn [negb].
  destruct (Z.eqb_spec functioncode (Z.setbit functioncode 7)) as [E|_].
  { exfalso. apply (setbit_7_differs functioncode Hf). symmetry. exact E. }
  f_equal.
  replace (S (S (length payload)) + 2 - 4)%nat with (length payload) by lia.
  apply take_app_length.
Qed.

(** C1: for every slave address in [0, 247], every function code in
    [1, 127] and every payload, extracting the payload from the frame that
    [_embedPayload] builds over the same address and function code gives the
    payload back unchanged. *)
Theorem C1_extract_embed_roundtrip slaveaddress functioncode (payload : list Z) :
  0 <= slaveaddress <= 247 ->
  1 <= functioncode <= 127 ->
  (_embedPayload slaveaddress "rtu" functioncode (ByteArray payload) ≫=
     fun request => _extractPayload request slaveaddress "rtu" functioncode)
  = Ok (ByteArray payload).
Proof.
  intros Ha Hf. rewrite (embedPayload_frame _ _ _ Ha Hf). cbn [mbind result_bind].
  rewrite extractPayload_validate by (cbn; trivial || lia).
  cbn [buf_data]. rewrite (validate_frame _ _ _ Hf). reflexivity.
Qed.

(** C1 on a request to slave 17 for three registers. *)
Lemma C1_witness :
  0 <= 17 <= 247 /\ 1 <= 3 <= 127 /\
  (_embedPayload 17 "rtu" 3 (ByteArray [0; 107; 0; 3]) ≫=
     fun request => _extractPayload request 17 "rtu" 3)
  = Ok (ByteArray [0; 107; 0; 3]).
Proof.
  split; [lia|]. split; [lia|].
  apply (C1_extract_embed_roundtrip 17 3 [0; 107; 0; 3]); lia.
Defined.

(** C3: the validator checks an inbound response in a fixed order, each
    step with its own failure: shorter than 4 bytes (framing error); CRC16
    over all bytes but the last two against those two (checksum error);
    first byte against the expected slave address; second byte against the
    function code with bit 7 set (slave-reported exception, reached only when
    checksum and address passed) and then against the function code itself
    (function-code mismatch); on success the payload is what lies between
    the 2-byte header and the 2 CRC bytes.  The order and the outcomes are
    those of [validate]; the response may be [bytes] or a [bytearray]. *)
Theorem C3_validation_sequence (response : list Z) slaveaddress functioncode :
  0 <= slaveaddress <= 247 ->
  1 <= functioncode <= 127 ->
  _extractPayload (Bytes response) slaveaddress "rtu" functioncode =
    reported (validate response slaveaddress functioncode)
  /\ _extractPayload (ByteArray response) slaveaddress "rtu" functioncode =
    reported (validate response slaveaddress functioncode).
Proof.
  intros Ha Hf. split.
  - apply (extractPayload_validate (Bytes response)); [exact I|lia|lia].
  - apply (extractPayload_validate (ByteArray response)); [exact I|lia|lia].
Qed.

(** C3 on a response that reports a slave exception. *)
Lemma C3_witness :
  0 <= 1 <= 247 /\ 1 <= 3 <= 127 /\
  _extractPayload (Bytes [1; 0x83; 2; 0xC0; 0xF1]) 1 "rtu" 3 =
    reported (validate [1; 0x83; 2; 0xC0; 0xF1] 1 3)
  /\ _extractPayload (ByteArray [1; 0x83; 2; 0xC0; 0xF1]) 1 "rtu" 3 =
    reported (validate [1; 0x83; 2; 0xC0; 0xF1] 1 3).
Proof.
  split; [lia|]. split; [lia|].
  apply (C3_validation_sequence [1; 0x83; 2; 0xC0; 0xF1] 1 3); lia.
Defined.

(** The five outcomes on concrete responses to a request of function code 3
    sent to slave 1. *)
Example validate_outcomes :
  validate [1; 3; 2] 1 3 = FramingError
  /\ validate [1; 3; 2; 0; 42; 0; 0] 1 3 = ChecksumError
  /\ validate [2; 3; 2; 0; 42; 0x7D; 0x9B] 1 3 = AddressMismatchError
  /\ validate [1; 0x83; 2; 0xC0; 0xF1] 1 3 = SlaveExceptionError
  /\ validate [1; 4; 2; 0; 42; 0x38; 0xEF] 1 3 = FunctionCodeMismatchError
  /\ validate [1; 3; 2; 0; 42; 0x39; 0x9B] 1 3 = Payload [2; 0; 42].
Proof. vm_compute. repeat split; reflexivity. Qed.

(** ** The CRC16 engine and the request on the wire *)

Lemma read_registers_snd rt self registeraddress numberOfRegisters functioncode w payload fmt :
  _checkFunctioncode functioncode (Some [3; 4]) = Ok tt ->
  _checkInt (VInt numberOfRegisters) (Some 1) None "number of registers" = Ok tt ->
  build_payloadToSlave rt functioncode registeraddress VNone 0 numberOfRegisters false
    (Some "registers") = Ok (payload, fmt) ->
  snd (read_registers rt self registeraddress numberOfRegisters functioncode w) =
  snd (_performCommand self functioncode payload w).
Proof.
  intros H1 H2 Hb. unfold read_registers. rewrite H1, H2.
  unfold mbind at 1 2, M_bind, lift. cbn [fst snd].
  rewrite genericCommand_snd, Hb. reflexivity.
Qed.

(** C2: the CRC16 engine preloads the register with 0xFFFF, updates it per
    input byte as [(register >> 8) XOR table[(register XOR byte) & 0xFF]]
    over the 256-entry table ([crc16_register]) and serializes it low byte
    first ([crc16]); on bytes this is the Modbus CRC16 of polynomial 0xA001
    computed bit by bit.  The CRC of 01 03 00 00 00 01 is 84 0A, and reading
    one register at address 0x0000 with function code 3 from slave 1 writes
    exactly 01 03 00 00 00 01 84 0A to the port. *)
Theorem C2_crc16_engine :
  length _CRC16TABLE = 256%nat
  /\ (forall bs, _calculateCrcString (ByteArray bs) = Ok (ByteArray (crc16 bs)))
  /\ (forall bs, Forall is_byte bs -> crc16_register bs = crc16_modbus bs)
  /\ _calculateCrcString (ByteArray [0x01; 0x03; 0x00; 0x00; 0x00; 0x01])
     = Ok (ByteArray [0x84; 0x0A])
  /\ (forall rt p w,
        writes (trace (snd (read_registers rt (Instrument_init p 1) 0x0000 1 3 w)))
        = writes (trace w) ++ [(p, [0x01; 0x03; 0x00; 0x00; 0x00; 0x01; 0x84; 0x0A])]).
Proof.
  split; [reflexivity|]. split; [exact calculateCrcString_bytearray|].
  split; [exact crc16_register_is_modbus|].
  split; [rewrite calculateCrcString_bytearray; vm_compute; reflexivity|].
  intros rt p w.
  assert (Hb : build_payloadToSlave rt 3 0 VNone 0 1 false (Some "registers")
               = Ok (ByteArray [0; 0; 0; 1], Some "registers"))
    by (vm_compute; reflexivity).
  rewrite (read_registers_snd rt (Instrument_init p 1) 0 1 3 w _ _ eq_refl eq_refl Hb).
  assert (Hv : valid_instrument (Instrument_init p 1))
    by (split; [cbn; lia|reflexivity]).
  rewrite (performCommand_snd (Instrument_init p 1) 3 [0; 0; 0; 1] _ w Hv ltac:(lia)
             default_silent_period).
  rewrite communicate_outcome_trace, writes_app, writes_exchange. reflexivity.
Qed.

(** The scenario of the specification, with the CRC that the response
    must carry (39 9B): the register value 42 comes back.  With the trailer
    B8 58 the same response fails the checksum. *)
Example read_registers_scenario :
  fst (read_registers strict_runtime (Instrument_init 1 1) 0x0000 1 3
         (mkWorld [100; 101; 105] [[0x01; 0x03; 0x02; 0x00; 0x2A; 0x39; 0x9B]] ∅ []))
    = Ok (VList [VInt 42])
  /\ fst (read_registers strict_runtime (Instrument_init 1 1) 0x0000 1 3
            (mkWorld [100; 101; 105] [[0x01; 0x03; 0x02; 0x00; 0x2A; 0xB8; 0x58]] ∅ []))
    = Raise (ValueError "Checksum error in rtu mode").
Proof. vm_compute. split; reflexivity. Qed.

(** C2 on the bytes of the request 01 03 00 00 00 01. *)
Lemma C2_witness :
  Forall is_byte [0x01; 0x03; 0x00; 0x00; 0x00; 0x01]
  /\ crc16_register [0x01; 0x03; 0x00; 0x00; 0x00; 0x01]
     = crc16_modbus [0x01; 0x03; 0x00; 0x00; 0x00; 0x01].
Proof.
  assert (H : Forall is_byte [0x01; 0x03; 0x00; 0x00; 0x00; 0x01])
    by (repeat constructor; unfold is_byte; lia).
  split; [exact H|].
  exact (proj1 (proj2 (proj2 C2_crc16_engine)) _ H).
Defined.

(** ** The response size predictor *)

Lemma checkRegisteraddress_ok a : 0 <= a <= 65535 -> _checkRegisteraddress a = Ok tt.
Proof.
  intros H. unfold _checkRegisteraddress, _checkInt, _checkNumerical. cbn.
  case_ltb. reflexivity.
Qed.

Lemma checkInt_registers_ok n :
  1 <= n <= 255 -> _checkInt (VInt n) (Some 1) (Some 255) "number of registers" = Ok tt.
Proof.
  intros H. unfold _checkInt, _checkNumerical. cbn.
  case_ltb. reflexivity.
Qed.

(** The payload of a request to read [numberOfRegisters] registers. *)
Lemma build_read_registers rt functioncode registeraddress numberOfRegisters :
  functioncode = 3 \/ functioncode = 4 ->
  0 <= registeraddress <= 65535 -> 1 <= numberOfRegisters <= 255 ->
  build_payloadToSlave rt functioncode registeraddress VNone 0 numberOfRegisters false
    (Some "registers")
  = Ok (ByteArray [registeraddress / 256; registeraddress mod 256;
                   numberOfRegisters / 256; numberOfRegisters mod 256],
        Some "registers").
Proof.
  intros Hf Ha Hn. unfold build_payloadToSlave.
  rewrite (checkRegisteraddress_ok _ Ha), (checkInt_registers_ok _ Hn).
  rewrite !numToTwoByteArray_msb by lia.
  destruct Hf as [-> | ->]; reflexivity.
Qed.

(** C4, amended: for an outgoing payload of at least 4 bytes the predictor
    returns 8 = 2 + 4 + 2 for the function codes 5, 6, 15 and 16;
    2 + 1 + ceil(q/8) + 2 for the codes 1 and 2 and 2 + 1 + 2*q + 2 for the
    codes 3 and 4, where q is the big-endian quantity in bytes 2-3 of the
    payload; any other function code is rejected with a [ValueError].  A
    request for R registers built by [_genericCommand] has q = R. *)
Theorem C4_predicted_response_size functioncode a0 a1 hi lo rest :
  let payloadToSlave := ByteArray (a0 :: a1 :: hi :: lo :: rest) in
  let q := hi * 256 + lo in
  (In functioncode [5; 6; 15; 16] ->
     _predictResponseSize "rtu" functioncode payloadToSlave = Ok (2 + 4 + 2))
  /\ (In functioncode [1; 2] ->
     _predictResponseSize "rtu" functioncode payloadToSlave = Ok (2 + 1 + (q + 7) / 8 + 2))
  /\ (In functioncode [3; 4] ->
     _predictResponseSize "rtu" functioncode payloadToSlave = Ok (2 + 1 + 2 * q + 2))
  /\ (~ In functioncode [1; 2; 3; 4; 5; 6; 15; 16] ->
     exists msg, _predictResponseSize "rtu" functioncode payloadToSlave
                 = Raise (ValueError msg))
  /\ (forall rt registeraddress R,
        In functioncode [3; 4] -> 0 <= registeraddress <= 65535 -> 1 <= R <= 255 ->
        exists payload fmt,
          build_payloadToSlave rt functioncode registeraddress VNone 0 R false
            (Some "registers") = Ok (payload, fmt)
          /\ _predictResponseSize "rtu" functioncode payload = Ok (2 + 1 + 2 * R + 2)).
Proof.
  intros payloadToSlave q. subst payloadToSlave q.
  repeat split.
  - intros Hin. cbn [In] in Hin.
    rewrite predictResponseSize_cases by lia.
    destruct Hin as [<-|[<-|[<-|[<-|[]]]]]; reflexivity.
  - intros Hin. cbn [In] in Hin.
    rewrite predictResponseSize_cases by lia.
    destruct Hin as [<-|[<-|[]]]; cbn [Z_in existsb Z.eqb Pos.eqb orb]; f_equal; lia.
  - intros Hin. cbn [In] in Hin.
    rewrite predictResponseSize_cases by lia.
    destruct Hin as [<-|[<-|[]]]; cbn [Z_in existsb Z.eqb Pos.eqb orb]; f_equal; lia.
  - intros Hnot. cbn [In] in Hnot.
    destruct (Z_le_dec 1 functioncode) as [H1|H1];
      [destruct (Z_le_dec functioncode 127) as [H2|H2]|].
    + rewrite predictResponseSize_cases by lia.
      unfold Z_in. cbn [existsb].
      repeat match goal with
             | |- context [functioncode =? ?k] =>
                 destruct (Z.eqb_spec functioncode k); [exfalso; apply Hnot; lia|]
             end.
      eexists. reflexivity.
    + unfold _predictResponseSize. change (_checkMode "rtu") with (Ok tt).
      destruct (checkFunctioncode_range functioncode None ltac:(lia)) as [msg ->].
      eexists. reflexivity.
    + unfold _predictResponseSize. change (_checkMode "rtu") with (Ok tt).
      destruct (checkFunctioncode_range functioncode None ltac:(lia)) as [msg ->].
      eexists. reflexivity.
  - intros rt registeraddress R Hin Ha HR. cbn [In] in Hin.
    assert (Hf : functioncode = 3 \/ functioncode = 4) by (destruct Hin as [<-|[<-|[]]]; auto).
    eexists. eexists. split; [apply (build_read_registers rt _ _ _ Hf Ha HR)|].
    rewrite predictResponseSize_cases by lia.
    pose proof (Z.div_mod R 256 ltac:(lia)) as HRdiv.
    destruct Hf as [-> | ->]; cbn [Z_in existsb Z.eqb Pos.eqb orb]; f_equal; lia.
Qed.

(** C4 on the payload of a write of two registers. *)
Lemma C4_witness :
  In 16 [5; 6; 15; 16]
  /\ _predictResponseSize "rtu" 16 (ByteArray [0; 10; 0; 2; 4; 0; 1; 0; 2]) = Ok (2 + 4 + 2).
Proof.
  assert (H : In 16 [5; 6; 15; 16]) by (cbn; auto).
  split; [exact H|].
  exact (proj1 (C4_predicted_response_size 16 0 10 0 2 [4; 0; 1; 0; 2]) H).
Defined.

(** C4 without the bound on the payload: function code 6 with a payload of
    3 bytes is rejected, not predicted as 8. *)
Lemma C4_counterexample :
  _predictResponseSize "rtu" 6 (ByteArray [0; 1; 0])
  = Raise (ValueError "The payload is too short")
  /\ ~ (forall payload, _predictResponseSize "rtu" 6 (ByteArray payload) = Ok 8).
Proof.
  split; [reflexivity|].
  intros H. specialize (H [0; 1; 0]). discriminate H.
Qed.

(** ** The orchestrator: fallback read size and the silent line *)

Lemma exchange_events_last_read self request size minimum_silent_period w :
  echo_ok self request w = true ->
  exists before,
    trace w ++ exchange_events self request size minimum_silent_period w
    = before ++ [EvRead (port self) size].
Proof.
  intros Hecho. unfold exchange_events. rewrite Hecho.
  eexists. rewrite !app_assoc. reflexivity.
Qed.

(** C10: the predictor raises on every outgoing payload shorter than 4
    bytes, whatever the function code (also for the write codes 5, 6, 15 and
    16); and when the predictor raises, [_performCommand] does not abort:
    it runs the exchange with the default read size of 1000 bytes and goes
    on to validate what was read. *)
Theorem C10_short_payload_and_fallback :
  (forall mode functioncode payloadToSlave,
     buf_len payloadToSlave < 4 ->
     exists e, _predictResponseSize mode functioncode payloadToSlave = Raise e)
  /\ (forall self functioncode payload minimum_silent_period w e,
        valid_instrument self -> 1 <= functioncode <= 127 ->
        _calculate_minimum_silent_period (baudrate self) = Ok minimum_silent_period ->
        _predictResponseSize (mode self) functioncode (ByteArray payload) = Raise e ->
        let request := frame (address self) functioncode payload in
        let run := _performCommand self functioncode (ByteArray payload) w in
        let exchange := communicate_outcome self request 1000 minimum_silent_period w in
        snd run = snd exchange
        /\ fst run = (fst exchange ≫= fun response =>
                        _extractPayload response (address self) "rtu" functioncode)
        /\ (echo_ok self request w = true ->
            exists before, trace (snd run) = before ++ [EvRead (port self) 1000])).
Proof.
  split; [exact predictResponseSize_short|].
  intros self functioncode payload msp w e Hv Hf Hmsp Hraise request run exchange.
  assert (Hsize : number_of_bytes_to_read_for self functioncode (ByteArray payload) = 1000).
  { unfold number_of_bytes_to_read_for. rewrite Hraise.
    destruct (precalculate_read_size self); reflexivity. }
  subst run exchange request.
  rewrite (performCommand_snd _ _ _ _ _ Hv Hf Hmsp),
    (performCommand_fst _ _ _ _ _ Hv Hf Hmsp), Hsize.
  split; [reflexivity|]. split; [reflexivity|].
  intros Hecho. rewrite communicate_outcome_trace.
  apply exchange_events_last_read, Hecho.
Qed.

(** C10 on a payload of 3 bytes, and on a request with function code 7,
    which the predictor does not know: 1000 bytes are asked for. *)
Lemma C10_witness :
  (buf_len (ByteArray [0; 1; 0]) < 4
   /\ exists e, _predictResponseSize "rtu" 16 (ByteArray [0; 1; 0]) = Raise e)
  /\ (valid_instrument (Instrument_init 1 1) /\ 1 <= 7 <= 127
      /\ _predictResponseSize (mode (Instrument_init 1 1)) 7 (ByteArray [1; 2; 3; 4])
         = Raise (ValueError "Wrong functioncode: {}. The payload is")
      /\ echo_ok (Instrument_init 1 1) (frame 1 7 [1; 2; 3; 4]) silent_line_world = true
      /\ exists before,
           trace (snd (_performCommand (Instrument_init 1 1) 7 (ByteArray [1; 2; 3; 4])
                         silent_line_world))
           = before ++ [EvRead 1 1000]).
Proof.
  assert (H : buf_len (ByteArray [0; 1; 0]) < 4) by (vm_compute; reflexivity).
  assert (Hv : valid_instrument (Instrument_init 1 1)) by (split; [cbn; lia|reflexivity]).
  assert (Hf : 1 <= 7 <= 127) by lia.
  assert (Hp : _predictResponseSize (mode (Instrument_init 1 1)) 7 (ByteArray [1; 2; 3; 4])
               = Raise (ValueError "Wrong functioncode: {}. The payload is"))
    by reflexivity.
  assert (He : echo_ok (Instrument_init 1 1) (frame 1 7 [1; 2; 3; 4]) silent_line_world = true)
    by reflexivity.
  split.
  - split; [exact H|].
    exact (proj1 C10_short_payload_and_fallback "rtu" 16 (ByteArray [0; 1; 0]) H).
  - split; [exact Hv|]. split; [exact Hf|]. split; [exact Hp|]. split; [exact He|].
    exact (proj2 (proj2 (proj2 C10_short_payload_and_fallback (Instrument_init 1 1) 7
                           [1; 2; 3; 4] _ silent_line_world _ Hv Hf
                           default_silent_period Hp)) He).
Defined.

Lemma communicate_outcome_fst self request size minimum_silent_period w :
  echo_ok self request w = true ->
  fst (communicate_outcome self request size minimum_silent_period w) =
  match answer_read self size w with
  | [] => Raise (IOError "No communication with the instrument (no answer)")
  | answer => Ok (Bytes answer)
  end.
Proof.
  intros Hecho. unfold communicate_outcome. rewrite Hecho. cbn [fst].
  destruct (answer_read self size w); reflexivity.
Qed.

Lemma extractPayload_short response slaveaddress functioncode :
  0 <= slaveaddress <= 247 -> 1 <= functioncode <= 127 ->
  (length response < 4)%nat ->
  _extractPayload (Bytes response) slaveaddress "rtu" functioncode
  = Raise (ValueError "Too short Modbus RTU response").
Proof.
  intros Ha Hf Hlen.
  rewrite (extractPayload_validate (Bytes response)) by (exact I || lia).
  unfold validate. cbn [buf_data].
  destruct (Nat.ltb_spec (length response) 4); [reflexivity|lia].
Qed.

(** C6: when the read of the response returns zero bytes, the transaction
    fails with [IOError] (no answer); the exception is raised by
    [_communicate], before [_extractPayload] is reached.  A non-empty answer
    shorter than 4 bytes passes [_communicate] and fails in the validator
    with the [ValueError] of a too short response: two distinct failures. *)
Theorem C6_no_answer_is_transport_error self functioncode payload minimum_silent_period w :
  valid_instrument self -> 1 <= functioncode <= 127 ->
  _calculate_minimum_silent_period (baudrate self) = Ok minimum_silent_period ->
  let request := frame (address self) functioncode payload in
  let size := number_of_bytes_to_read_for self functioncode (ByteArray payload) in
  let answer := answer_read self size w in
  echo_ok self request w = true ->
  (answer = [] ->
     fst (_communicate self (ByteArray request) size w)
       = Raise (IOError "No communication with the instrument (no answer)")
     /\ fst (_performCommand self functioncode (ByteArray payload) w)
       = Raise (IOError "No communication with the instrument (no answer)"))
  /\ (answer <> [] -> (length answer < 4)%nat ->
     fst (_communicate self (ByteArray request) size w) = Ok (Bytes answer)
     /\ fst (_performCommand self functioncode (ByteArray payload) w)
       = Raise (ValueError "Too short Modbus RTU response")).
Proof.
  intros Hv Hf Hmsp request size answer Hecho.
  pose proof (communicate_closed_form self request size minimum_silent_period w
                (frame_not_nil _ _ _) Hmsp) as Hc.
  pose proof (performCommand_fst self functioncode payload minimum_silent_period w
                Hv Hf Hmsp) as Hp.
  fold request size in Hp. rewrite Hc, Hp.
  rewrite (communicate_outcome_fst _ _ _ _ _ Hecho). fold answer.
  destruct Hv as [Ha _].
  split.
  - intros ->. split; reflexivity.
  - intros Hne Hlen. destruct answer as [|b rest] eqn:E; [contradiction|].
    split; [reflexivity|]. cbn [mbind result_bind].
    apply extractPayload_short; assumption.
Qed.

(** C6 on a line that stays silent. *)
Lemma C6_witness :
  valid_instrument (Instrument_init 1 1) /\ 1 <= 3 <= 127
  /\ _calculate_minimum_silent_period (baudrate (Instrument_init 1 1))
     = Ok (S754_finite false 4515327751400107 (-50))
  /\ echo_ok (Instrument_init 1 1) (frame 1 3 [0; 0; 0; 1]) silent_line_world = true
  /\ fst (_performCommand (Instrument_init 1 1) 3 (ByteArray [0; 0; 0; 1]) silent_line_world)
     = Raise (IOError "No communication with the instrument (no answer)").
Proof.
  assert (Hv : valid_instrument (Instrument_init 1 1)) by (split; [cbn; lia|reflexivity]).
  assert (Hf : 1 <= 3 <= 127) by lia.
  assert (He : echo_ok (Instrument_init 1 1) (frame 1 3 [0; 0; 0; 1]) silent_line_world = true)
    by reflexivity.
  split; [exact Hv|]. split; [exact Hf|]. split; [exact default_silent_period|].
  split; [exact He|].
  exact (proj2 (proj1 (C6_no_answer_is_transport_error (Instrument_init 1 1) 3
                         [0; 0; 0; 1] _ silent_line_world Hv Hf default_silent_period He)
                  eq_refl)).
Defined.

(** ** Timing and the shared read times *)

Lemma communicate_trace self request size minimum_silent_period w :
  request <> [] ->
  _calculate_minimum_silent_period (baudrate self) = Ok minimum_silent_period ->
  trace (snd (_communicate self (ByteArray request) size w)) =
  trace w ++ exchange_events self request size minimum_silent_period w.
Proof.
  intros Hne Hmsp. rewrite (communicate_closed_form _ _ _ _ _ Hne Hmsp).
  apply communicate_outcome_trace.
Qed.

Lemma sleeps_exchange self request size minimum_silent_period w :
  sleeps (exchange_events self request size minimum_silent_period w) =
  if Z_lt_float (time_since_read self w) minimum_silent_period
  then [SF64sub minimum_silent_period (Z2SF (time_since_read self w))]
  else [].
Proof.
  unfold exchange_events, sleep_events, echo_events.
  destruct (Z_lt_float _ _), (handle_local_echo self), (echo_ok self request w);
    reflexivity.
Qed.

(** C7, amended: for every baud rate of at least 1 that converts to a
    float (a float, or an integer below [2^1024 - 2^970]) the minimum
    silent period is [(1000 / baudrate) * 11 * 3.5] (in float arithmetic),
    about 4.0104 ms at 9600 baud; for an integer baud rate from
    [2^1024 - 2^970] on, [float(baudrate)] raises [OverflowError] and there
    is no period.  Before writing the request, [_communicate] compares the
    time since the last recorded read on the port with this minimum: if it
    is shorter it sleeps once, for the minimum minus the elapsed time, and
    then writes; otherwise it writes without sleeping.  Nothing sleeps
    after the write. *)
Theorem C7_silent_period :
  (forall baudrate, at_least_1 baudrate -> converts_to_float baudrate ->
     _calculate_minimum_silent_period baudrate = Ok (silent_period_formula baudrate))
  /\ (forall b, float_overflow_threshold <= b ->
        _calculate_minimum_silent_period (VInt b)
        = Raise (OverflowError "int too large to convert to float"))
  /\ (_calculate_minimum_silent_period (VInt 9600)
        = Ok (S754_finite false 4515327751400107 (-50))
      /\ 40104 * 2 ^ 50 < 4515327751400107 * 10000 < 40105 * 2 ^ 50)
  /\ (forall self request size minimum_silent_period w,
        request <> [] ->
        _calculate_minimum_silent_period (baudrate self) = Ok minimum_silent_period ->
        let elapsed := hd 0 (ticks w) - default 0 (_LATEST_READ_TIMES w !! port self) in
        let w' := snd (_communicate self (ByteArray request) size w) in
        exists after,
          trace w' =
            trace w
            ++ (if Z_lt_float elapsed minimum_silent_period
                then [EvSleep (SF64sub minimum_silent_period (Z2SF elapsed))]
                else [])
            ++ EvWrite (port self) request :: after
          /\ sleeps after = []).
Proof.
  split; [exact minimum_silent_period_formula|].
  split; [exact minimum_silent_period_overflow|].
  split; [split; [exact default_silent_period|lia]|].
  intros self request size msp w Hne Hmsp elapsed w'. subst w'.
  rewrite (communicate_trace _ _ _ _ _ Hne Hmsp).
  unfold exchange_events, sleep_events. fold (time_since_read self w).
  eexists. split; [reflexivity|].
  unfold echo_events.
  destruct (handle_local_echo self), (echo_ok self request w); reflexivity.
Qed.

(** C7 at 19200 baud, at a baud rate of [10^400], and on an exchange at
    9600 baud that starts 2 ms after the last read on its port: one sleep,
    then the write. *)
Lemma C7_witness :
  (at_least_1 (VInt 19200) /\ converts_to_float (VInt 19200)
   /\ _calculate_minimum_silent_period (VInt 19200)
      = Ok (silent_period_formula (VInt 19200)))
  /\ (float_overflow_threshold <= 10 ^ 400
      /\ _calculate_minimum_silent_period (VInt (10 ^ 400))
         = Raise (OverflowError "int too large to convert to float"))
  /\ ([0x01; 0x03] <> []
      /\ _calculate_minimum_silent_period (baudrate (Instrument_init 1 1))
         = Ok (S754_finite false 4515327751400107 (-50))
      /\ exists after,
           trace (snd (_communicate (Instrument_init 1 1) (ByteArray [0x01; 0x03]) 7
                         (mkWorld [52; 53; 60] [[]] {[ 1 := 50 ]} [])))
           = [] ++ [EvSleep (SF64sub (S754_finite false 4515327751400107 (-50)) (Z2SF 2))]
             ++ EvWrite 1 [0x01; 0x03] :: after
           /\ sleeps after = []).
Proof.
  assert (H : at_least_1 (VInt 19200)) by (cbn; lia).
  assert (Hc : converts_to_float (VInt 19200)) by (vm_compute; reflexivity).
  assert (Hb : float_overflow_threshold <= 10 ^ 400) by (vm_compute; discriminate).
  assert (Hne : [0x01; 0x03] <> ([] : list Z)) by discriminate.
  split; [|split].
  - split; [exact H|]. split; [exact Hc|].
    exact (proj1 C7_silent_period (VInt 19200) H Hc).
  - split; [exact Hb|]. exact (proj1 (proj2 C7_silent_period) (10 ^ 400) Hb).
  - split; [exact Hne|]. split; [exact default_silent_period|].
    exact (proj2 (proj2 (proj2 C7_silent_period)) (Instrument_init 1 1) [0x01; 0x03] 7 _
             (mkWorld [52; 53; 60] [[]] {[ 1 := 50 ]} []) Hne default_silent_period).
Defined.

(** C7 as the specification words it, for every baud rate of at least 1:
    the baud rate [10^400] passes the check of the minimum, and
    [float(baudrate)] raises [OverflowError]: no period is computed. *)
Lemma C7_counterexample :
  at_least_1 (VInt (10 ^ 400))
  /\ _calculate_minimum_silent_period (VInt (10 ^ 400))
     = Raise (OverflowError "int too large to convert to float")
  /\ ~ (forall baudrate, at_least_1 baudrate ->
          exists period, _calculate_minimum_silent_period baudrate = Ok period).
Proof.
  assert (H : at_least_1 (VInt (10 ^ 400))) by (vm_compute; discriminate).
  assert (E : _calculate_minimum_silent_period (VInt (10 ^ 400))
              = Raise (OverflowError "int too large to convert to float"))
    by (vm_compute; reflexivity).
  split; [exact H|]. split; [exact E|].
  intros Hall. destruct (Hall _ H) as [period Hp]. rewrite E in Hp. discriminate Hp.
Qed.

Lemma communicate_outcome_times self request size minimum_silent_period w :
  _LATEST_READ_TIMES (snd (communicate_outcome self request size minimum_silent_period w)) =
  if echo_ok self request w
  then <[port self := hd 0 (tl (tl (ticks w)))]> (_LATEST_READ_TIMES w)
  else _LATEST_READ_TIMES w.
Proof.
  unfold communicate_outcome. destruct (echo_ok self request w); reflexivity.
Qed.

(** C9, amended: [_LATEST_READ_TIMES] is one mapping for the whole module,
    from the port to the clock value taken right after the latest read of
    a response on that port, and every instrument on the port sees it.  The
    entry of the port is set whenever the read of the response returns,
    whatever it delivered: a transaction that fails with a zero-length read
    still updates the time of its port.  The entry is left unchanged only
    when the transaction fails before that read (a rejected argument, a
    local echo that does not match); entries of other ports never change. *)
Theorem C9_read_time_recorded :
  (forall self request size minimum_silent_period w,
     request <> [] ->
     _calculate_minimum_silent_period (baudrate self) = Ok minimum_silent_period ->
     let run := _communicate self (ByteArray request) size w in
     let stamp := hd 0 (tl (tl (ticks w))) in
     (echo_ok self request w = true ->
        _LATEST_READ_TIMES (snd run) = <[port self := stamp]> (_LATEST_READ_TIMES w)
        /\ (answer_read self size w = [] ->
            fst run = Raise (IOError "No communication with the instrument (no answer)"))
        /\ (forall other : Instrument, port other = port self ->
            time_since_read other (snd run) = hd 0 (ticks (snd run)) - stamp))
     /\ (echo_ok self request w = false ->
         _LATEST_READ_TIMES (snd run) = _LATEST_READ_TIMES w)
     /\ (forall p, p <> port self ->
         _LATEST_READ_TIMES (snd run) !! p = _LATEST_READ_TIMES w !! p))
  /\ (forall self request size w e,
        _checkString request "request" 1 None = Raise e
        \/ _calculate_minimum_silent_period (baudrate self) = Raise e ->
        snd (_communicate self request size w) = w).
Proof.
  split.
  - intros self request size msp w Hne Hmsp run stamp. subst run stamp.
    rewrite (communicate_closed_form _ _ _ _ _ Hne Hmsp).
    rewrite communicate_outcome_times.
    split; [|split].
    + intros Hecho. rewrite Hecho. split; [reflexivity|]. split.
      * intros Hnil. rewrite (communicate_outcome_fst _ _ _ _ _ Hecho), Hnil. reflexivity.
      * intros other Hport. unfold time_since_read.
        rewrite communicate_outcome_times, Hecho, Hport, lookup_insert_eq. reflexivity.
    + intros Hecho. rewrite Hecho. reflexivity.
    + intros p Hp. destruct (echo_ok self request w); [|reflexivity].
      apply lookup_insert_ne. congruence.
  - intros self request size w e [Hraise|Hraise]; unfold _communicate.
    + rewrite Hraise. reflexivity.
    + destruct (_checkString request "request" 1 None) as [[]|e']; [|reflexivity].
      rewrite Hraise. reflexivity.
Qed.

(** C9 on a line that stays silent: the read time is still set. *)
Lemma C9_witness :
  frame 1 3 [0; 0; 0; 1] <> []
  /\ _calculate_minimum_silent_period (baudrate (Instrument_init 1 1))
     = Ok (S754_finite false 4515327751400107 (-50))
  /\ echo_ok (Instrument_init 1 1) (frame 1 3 [0; 0; 0; 1]) silent_line_world = true
  /\ _LATEST_READ_TIMES
       (snd (_communicate (Instrument_init 1 1) (ByteArray (frame 1 3 [0; 0; 0; 1])) 7
               silent_line_world))
     = <[1 := 105]> (_LATEST_READ_TIMES silent_line_world).
Proof.
  assert (Hne : frame 1 3 [0; 0; 0; 1] <> []) by discriminate.
  assert (He : echo_ok (Instrument_init 1 1) (frame 1 3 [0; 0; 0; 1]) silent_line_world = true)
    by reflexivity.
  split; [exact Hne|]. split; [exact default_silent_period|]. split; [exact He|].
  exact (proj1 (proj1 (proj1 C9_read_time_recorded (Instrument_init 1 1) _ 7 _
                         silent_line_world Hne default_silent_period) He)).
Defined.

(** C9 as the specification words it: the line stays silent, the
    transaction fails with "no answer", and yet the read time of port 1
    moves from 50 to 105. *)
Lemma C9_counterexample :
  fst (_performCommand (Instrument_init 1 1) 3 (ByteArray [0; 0; 0; 1]) silent_line_world)
    = Raise (IOError "No communication with the instrument (no answer)")
  /\ _LATEST_READ_TIMES silent_line_world !! 1 = Some 50
  /\ _LATEST_READ_TIMES
       (snd (_performCommand (Instrument_init 1 1) 3 (ByteArray [0; 0; 0; 1])
               silent_line_world)) !! 1 = Some 105.
Proof. vm_compute. repeat split; reflexivity. Qed.

(** ** The register codec *)










Lemma fits16_range signed v : fits16 signed v = true -> -32768 <= v < 65536.
Proof.
  unfold fits16. destruct signed; intros H; apply andb_prop in H as [H1 H2];
    apply Z.leb_le in H1, H2; lia.
Qed.
















(** The scaling is a float product that is truncated: the float nearest to
    0.29 times 100 is just below 29, so 0.29 with two decimals is sent as 28
    (and read back as 0.28); the float nearest to 0.7 times 10 rounds to 7. *)
Example encode_truncates_float_product :
  _numToTwoByteArray (VFloat (SF64div (Z2SF 29) (Z2SF 100))) 2 false false
    = Ok (ByteArray [0; 28])
  /\ _twoByteStringToNum (ByteArray [0; 28]) 2 false
    = Ok (VFloat (SF64div (Z2SF 28) (Z2SF 100)))
  /\ _numToTwoByteArray (VFloat (SF64div (Z2SF 7) (Z2SF 10))) 1 false false
    = Ok (ByteArray [0; 7]).
Proof. vm_compute. repeat split; reflexivity. Qed.

(** ** Coil patterns *)

(** What [_createBitpattern] returns: a [str] of two characters for
    function code 5, of one character for function code 15; any value but 0
    and 1 and any other function code is rejected. *)
Lemma createBitpattern_table :
  _createBitpattern 5 (VInt 1) = Ok (Str [0xFF; 0x00])
  /\ _createBitpattern 5 (VInt 0) = Ok (Str [0x00; 0x00])
  /\ _createBitpattern 15 (VInt 1) = Ok (Str [0x01])
  /\ _createBitpattern 15 (VInt 0) = Ok (Str [0x00])
  /\ (forall functioncode v,
        v <> 0 -> v <> 1 ->
        exists e, _createBitpattern functioncode (VInt v) = Raise e)
  /\ (forall functioncode value,
        functioncode <> 5 -> functioncode <> 15 ->
        exists e, _createBitpattern functioncode value = Raise e).
Proof.
  repeat split; try reflexivity.
  - intros functioncode v H0 H1. unfold _createBitpattern.
    destruct (_checkFunctioncode functioncode (Some [5; 15])) as [[]|e];
      [|eexists; reflexivity].
    unfold _checkInt, _checkNumerical. cbn [num_lt_Z num_gt_Z mbind result_bind].
    change (1 <? 0) with false. cbv iota. cbn [mbind result_bind].
    destruct (Z.ltb_spec v 0); [eexists; reflexivity|]. cbn [mbind result_bind].
    destruct (Z.ltb_spec 1 v); [eexists; reflexivity|lia].
  - intros functioncode value H5 H15. unfold _createBitpattern, _checkFunctioncode.
    destruct (_checkInt (VInt functioncode) (Some 1) (Some 127) "functioncode") as [[]|e];
      [|eexists; reflexivity].
    cbn [mbind result_bind check_all].
    change (_checkInt (VInt 5) (Some 1) (Some 127) "functioncode inside listOfAllowedValues")
      with (Ok tt).
    change (_checkInt (VInt 15) (Some 1) (Some 127) "functioncode inside listOfAllowedValues")
      with (Ok tt).
    cbn [mbind result_bind Z_in existsb].
    destruct (Z.eqb_spec functioncode 5); [contradiction|].
    destruct (Z.eqb_spec functioncode 15); [contradiction|].
    eexists. reflexivity.
Qed.

Lemma createBitpattern_is_str functioncode value b :
  _createBitpattern functioncode value = Ok b -> exists cs, b = Str cs.
Proof.
  unfold _createBitpattern.
  destruct (_checkFunctioncode functioncode (Some [5; 15])) as [[]|e]; [|discriminate].
  destruct (_checkInt value (Some 0) (Some 1) "inputvalue") as [[]|e]; [|discriminate].
  destruct (expect_int value) as [v|e]; [|discriminate].
  cbn [mbind result_bind].
  destruct (functioncode =? 5), (v =? 0); intros H; inversion H; eauto.
Qed.

(** [_checkString] wants a [bytearray]: a [str] as write data is a
    [TypeError], unless the payload is rejected first. *)
Lemma checkResponseWriteData_str payload cs :
  exists e, _checkResponseWriteData payload (Str cs) = Raise e.
Proof.
  unfold _checkResponseWriteData.
  destruct (_checkString payload "payload" 4 None) as [[]|e]; eexists; reflexivity.
Qed.

Lemma check_coil_response_raises rt registeraddress value numberOfDecimals
    numberOfRegisters signed payloadformat payloadFromSlave :
  exists e,
    check_payloadFromSlave rt 5 registeraddress value numberOfDecimals numberOfRegisters
      signed payloadformat payloadFromSlave = Raise e.
Proof.
  unfold check_payloadFromSlave.
  cbn [when Z_in existsb Z.eqb Pos.eqb orb mbind result_bind].
  destruct (_checkResponseRegisterAddress payloadFromSlave registeraddress) as [[]|e];
    [|eexists; reflexivity].
  cbn [mbind result_bind].
  destruct (_createBitpattern 5 value) as [b|e] eqn:Eb; [|eexists; reflexivity].
  destruct (createBitpattern_is_str _ _ _ Eb) as [cs ->].
  cbn [mbind result_bind].
  destruct (checkResponseWriteData_str payloadFromSlave cs) as [e ->].
  eexists. reflexivity.
Qed.

Lemma genericCommand_coil_raises rt self registeraddress value numberOfDecimals
    numberOfRegisters signed payloadformat w :
  exists e,
    fst (_genericCommand rt self 5 registeraddress value numberOfDecimals
           numberOfRegisters signed payloadformat w) = Raise e.
Proof.
  unfold _genericCommand. unfold mbind at 1, M_bind, lift. cbn [fst snd].
  destruct (build_payloadToSlave rt 5 registeraddress value numberOfDecimals
              numberOfRegisters signed payloadformat) as [[payloadToSlave fmt]|e];
    [|eexists; reflexivity].
  unfold mbind, M_bind.
  destruct (_performCommand self 5 payloadToSlave w) as [[pl|e] w'];
    [|eexists; reflexivity].
  cbn [fst lift].
  apply check_coil_response_raises.
Qed.

(** C8, where the code departs from it: a write of a single coil (function
    code 5) never succeeds.  [_createBitpattern] returns a [str], and the
    check of the echoed write data requires a [bytearray].  On a runtime
    where [bytearray + str] concatenates, the request 01 05 00 00 FF 00 8C 3A
    goes out, the slave echoes it, and the check of the echo raises
    [TypeError]; on a runtime where [bytearray + str] raises, the request is
    never built.  The sibling path for function code 6, whose write data is
    a [bytearray], accepts the echo of its request. *)
Theorem C8_coil_write_check_raises :
  (forall rt self registeraddress value numberOfDecimals numberOfRegisters signed
          payloadformat w,
     exists e,
       fst (_genericCommand rt self 5 registeraddress value numberOfDecimals
              numberOfRegisters signed payloadformat w) = Raise e)
  /\ fst (_genericCommand lenient_runtime (Instrument_init 1 1) 5 0 (VInt 1) 0 1 false None
            coil_echo_world)
     = Raise (TypeError "The writedata should be a string")
  /\ writes (trace (snd (_genericCommand lenient_runtime (Instrument_init 1 1) 5 0 (VInt 1)
                           0 1 false None coil_echo_world)))
     = [(1, [0x01; 0x05; 0x00; 0x00; 0xFF; 0x00; 0x8C; 0x3A])]
  /\ fst (_genericCommand strict_runtime (Instrument_init 1 1) 5 0 (VInt 1) 0 1 false None
            coil_echo_world)
     = Raise (TypeError "can't concat str to bytearray")
  /\ fst (_genericCommand lenient_runtime (Instrument_init 1 1) 6 0 (VInt 5) 0 1 false None
            register_echo_world)
     = Ok VNone.
Proof.
  split; [exact genericCommand_coil_raises|].
  vm_compute. repeat split; reflexivity.
Qed.

(** * Further properties of the module *)

(** ** The CRC16 detects every corruption of a single byte *)

Lemma unstep_undoes_step_all :
  forall_upto unstep_undoes_step 0 (Z.to_nat 65536) = true.
Proof. vm_compute. reflexivity. Qed.

Lemma span_65536 : Z.of_nat (Z.to_nat 65536) = 65536.
Proof. apply Z2Nat.id. lia. Qed.

Lemma unstep_step x : 0 <= x < 65536 -> crc16_unstep (crc16_table_step x 0) = x.
Proof.
  intros Hx.
  assert (Hx' : 0 <= x < 0 + Z.of_nat (Z.to_nat 65536)) by (rewrite span_65536; lia).
  pose proof (forall_upto_sound unstep_undoes_step (Z.to_nat 65536) 0
                unstep_undoes_step_all x Hx') as H.
  unfold unstep_undoes_step in H. apply Z.eqb_eq in H. exact H.
Qed.

(** A byte enters a step only through its XOR with the register. *)
Lemma table_step_xor register byte :
  is_byte byte ->
  crc16_table_step register byte = crc16_table_step (Z.lxor register byte) 0.
Proof.
  intros Hb. unfold is_byte in Hb. unfold crc16_table_step.
  rewrite Z.lxor_0_r, Z.shiftr_lxor.
  rewrite (Z.shiftr_div_pow2 byte 8) by lia. change (2 ^ 8) with 256.
  rewrite (Z.div_small byte 256) by lia. rewrite Z.lxor_0_r. reflexivity.
Qed.

Lemma lxor_cancel_l a b c : Z.lxor a b = Z.lxor a c -> b = c.
Proof.
  intros H.
  assert (E : Z.lxor a (Z.lxor a b) = Z.lxor a (Z.lxor a c)) by (rewrite H; reflexivity).
  rewrite <- !Z.lxor_assoc, Z.lxor_nilpotent, !Z.lxor_0_l in E. exact E.
Qed.

Lemma lxor_cancel_r a b c : Z.lxor b a = Z.lxor c a -> b = c.
Proof. rewrite !(Z.lxor_comm _ a). apply lxor_cancel_l. Qed.

Lemma table_step_injective r1 b1 r2 b2 :
  0 <= r1 < 65536 -> 0 <= r2 < 65536 -> is_byte b1 -> is_byte b2 ->
  crc16_table_step r1 b1 = crc16_table_step r2 b2 ->
  Z.lxor r1 b1 = Z.lxor r2 b2.
Proof.
  intros H1 H2 Hb1 Hb2 E.
  rewrite (table_step_xor r1 b1 Hb1), (table_step_xor r2 b2 Hb2) in E.
  assert (Hx1 : 0 <= Z.lxor r1 b1 < 65536) by (apply lxor_word16; unfold is_byte in *; lia).
  assert (Hx2 : 0 <= Z.lxor r2 b2 < 65536) by (apply lxor_word16; unfold is_byte in *; lia).
  rewrite <- (unstep_step _ Hx1), <- (unstep_step _ Hx2), E. reflexivity.
Qed.

(** Two different registers stay different over a common run of bytes. *)
Lemma fold_table_step_injective suffix : forall r1 r2,
  0 <= r1 < 65536 -> 0 <= r2 < 65536 -> Forall is_byte suffix ->
  fold_left crc16_table_step suffix r1 = fold_left crc16_table_step suffix r2 ->
  r1 = r2.
Proof.
  induction suffix as [|b suffix IH]; intros r1 r2 H1 H2 Hall E; [exact E|].
  inversion Hall as [|? ? Hb Hrest]; subst. cbn [fold_left] in E.
  apply IH in E; try (apply crc16_table_step_range; assumption); [|exact Hrest].
  apply table_step_injective in E; try assumption.
  apply (lxor_cancel_r b). exact E.
Qed.

Lemma crc16_register_of_crc16 a b :
  0 <= a < 65536 -> 0 <= b < 65536 ->
  [a mod 256; a / 256] = [b mod 256; b / 256] -> a = b.
Proof.
  intros Ha Hb E. injection E as Em Ed.
  rewrite (Z.div_mod a 256), (Z.div_mod b 256) by lia. rewrite Em, Ed. reflexivity.
Qed.

Lemma crc16_one_byte_differs before b1 b2 suffix :
  is_byte b1 -> is_byte b2 -> Forall is_byte suffix -> b1 <> b2 ->
  crc16 (before ++ b1 :: suffix) <> crc16 (before ++ b2 :: suffix).
Proof.
  intros Hb1 Hb2 Hsuf Hne E. unfold crc16 in E.
  apply crc16_register_of_crc16 in E; try apply crc16_register_range.
  unfold crc16_register in E. rewrite !fold_left_app in E. cbn [fold_left] in E.
  set (r := fold_left crc16_table_step before 65535) in E.
  assert (Hr : 0 <= r < 65536) by (apply fold_table_step_range; lia).
  apply fold_table_step_injective in E;
    try (apply crc16_table_step_range; exact Hr); [|exact Hsuf].
  apply table_step_injective in E; try assumption.
  apply Hne. apply (lxor_cancel_l r). exact E.
Qed.

(** X1: two byte strings of the same length that differ in exactly one
    byte never have the same CRC16: the checksum detects every corruption
    of a single byte (and so every single flipped bit). *)
Theorem X1_crc_detects_single_byte_error before b1 b2 suffix :
  is_byte b1 -> is_byte b2 -> Forall is_byte suffix -> b1 <> b2 ->
  _calculateCrcString (ByteArray (before ++ b1 :: suffix))
  <> _calculateCrcString (ByteArray (before ++ b2 :: suffix)).
Proof.
  intros Hb1 Hb2 Hsuf Hne. rewrite !calculateCrcString_bytearray. intros E.
  assert (E' : crc16 (before ++ b1 :: suffix) = crc16 (before ++ b2 :: suffix))
    by congruence.
  exact (crc16_one_byte_differs before b1 b2 suffix Hb1 Hb2 Hsuf Hne E').
Qed.

(** X1 on the request 01 03 00 00 00 01 with its fourth byte turned into
    08. *)
Lemma X1_witness :
  is_byte 0x00 /\ is_byte 0x08 /\ Forall is_byte [0x00; 0x01] /\ 0x00 <> 0x08
  /\ _calculateCrcString (ByteArray ([0x01; 0x03; 0x00] ++ 0x00 :: [0x00; 0x01]))
     <> _calculateCrcString (ByteArray ([0x01; 0x03; 0x00] ++ 0x08 :: [0x00; 0x01])).
Proof.
  assert (H0 : is_byte 0x00) by (unfold is_byte; lia).
  assert (H8 : is_byte 0x08) by (unfold is_byte; lia).
  assert (Hs : Forall is_byte [0x00; 0x01]) by (repeat constructor; unfold is_byte; lia).
  assert (Hne : 0x00 <> 0x08) by lia.
  split; [exact H0|]. split; [exact H8|]. split; [exact Hs|]. split; [exact Hne|].
  exact (X1_crc_detects_single_byte_error [0x01; 0x03; 0x00] 0x00 0x08 [0x00; 0x01]
           H0 H8 Hs Hne).
Defined.

(** ** A frame with one corrupted byte never passes the checksum *)

Lemma list_Z_eqb_false a b : a <> b -> list_Z_eqb a b = false.
Proof. intros H. unfold list_Z_eqb. apply bool_decide_eq_false_2. exact H. Qed.

Lemma validate_checksum body trailer slaveaddress functioncode :
  (2 <= length body)%nat -> length trailer = 2%nat -> trailer <> crc16 body ->
  validate (body ++ trailer) slaveaddress functioncode = ChecksumError.
Proof.
  intros Hbody Htrailer Hne. unfold validate. cbv zeta.
  rewrite length_app, Htrailer.
  replace (length body + 2 - 2)%nat with (length body) by lia.
  rewrite take_app_length, drop_app_length.
  destruct (Nat.ltb_spec (length body + 2) 4) as [Hlt|_]; [lia|].
  rewrite (list_Z_eqb_false _ _ Hne). reflexivity.
Qed.

Lemma corrupted_frame_checksum slaveaddress functioncode payload i byte :
  is_byte slaveaddress -> is_byte functioncode -> Forall is_byte payload ->
  is_byte byte ->
  (i < length (frame slaveaddress functioncode payload))%nat ->
  frame slaveaddress functioncode payload !! i <> Some byte ->
  forall expected_address expected_functioncode,
  validate (<[i := byte]> (frame slaveaddress functioncode payload))
    expected_address expected_functioncode = ChecksumError.
Proof.
  intros Ha Hf Hp Hb Hi Hne ea ef. unfold frame in *. cbv zeta in *.
  set (body := slaveaddress :: functioncode :: payload) in *.
  assert (Hbytes : Forall is_byte body)
    by (apply Forall_cons; split; [exact Ha|]; apply Forall_cons; split; assumption).
  assert (Hlen : (2 <= length body)%nat) by (cbn; lia).
  assert (Hcrc : length (crc16 body) = 2%nat) by reflexivity.
  destruct (decide (i < length body)%nat) as [Hin|Hout].
  - rewrite insert_app_l by exact Hin.
    destruct (lookup_lt_is_Some_2 body i Hin) as [x Hx].
    assert (Hxb : x <> byte).
    { intros ->. apply Hne. rewrite lookup_app_l by exact Hin. exact Hx. }
    apply validate_checksum; [rewrite length_insert; exact Hlen|exact Hcrc|].
    rewrite (insert_take_drop body i byte Hin).
    rewrite <- (take_drop_middle body i x Hx) at 1.
    apply crc16_one_byte_differs; try assumption.
    + exact (Forall_lookup_1 _ _ _ _ Hbytes Hx).
    + apply Forall_drop, Hbytes.
  - rewrite insert_app_r_alt by lia.
    rewrite length_app, Hcrc in Hi.
    assert (Hj : (i - length body < length (crc16 body))%nat) by (rewrite Hcrc; lia).
    apply validate_checksum; [exact Hlen|rewrite length_insert; exact Hcrc|].
    intros E. apply Hne. rewrite lookup_app_r by lia.
    rewrite <- E at 1. apply list_lookup_insert_eq. exact Hj.
Qed.

(** X2: in a frame built over bytes, replacing the byte at any one
    position (header, payload or checksum) by a different byte makes
    [_extractPayload] raise the checksum error, whatever address and function
    code the receiver expects. *)
Theorem X2_corrupted_frame_fails_checksum slaveaddress functioncode payload i byte
    expected_address expected_functioncode :
  0 <= slaveaddress <= 247 -> 1 <= functioncode <= 127 -> Forall is_byte payload ->
  is_byte byte ->
  (i < length (frame slaveaddress functioncode payload))%nat ->
  frame slaveaddress functioncode payload !! i <> Some byte ->
  0 <= expected_address <= 247 -> 1 <= expected_functioncode <= 127 ->
  (_embedPayload slaveaddress "rtu" functioncode (ByteArray payload) ≫= fun request =>
     _extractPayload (Bytes (<[i := byte]> (buf_data request)))
       expected_address "rtu" expected_functioncode)
  = Raise (ValueError "Checksum error in rtu mode").
Proof.
  intros Ha Hf Hp Hb Hi Hne Hea Hef.
  rewrite (embedPayload_frame _ _ _ Ha Hf). cbn [mbind result_bind buf_data].
  rewrite (extractPayload_validate (Bytes _)) by (exact I || assumption).
  cbn [buf_data]. rewrite corrupted_frame_checksum; try assumption;
    try reflexivity; unfold is_byte; lia.
Qed.

(** X2 on the request 01 03 00 00 00 01 84 0A with its checksum byte 84
    turned into 85. *)
Lemma X2_witness :
  (_embedPayload 1 "rtu" 3 (ByteArray [0; 0; 0; 1]) ≫= fun request =>
     _extractPayload (Bytes (<[6%nat := 0x85]> (buf_data request))) 1 "rtu" 3)
  = Raise (ValueError "Checksum error in rtu mode").
Proof.
  apply (X2_corrupted_frame_fails_checksum 1 3 [0; 0; 0; 1] 6 0x85 1 3).
  - lia.
  - lia.
  - repeat constructor; unfold is_byte; lia.
  - unfold is_byte; lia.
  - vm_compute. lia.
  - vm_compute. discriminate.
  - lia.
  - lia.
Defined.

(** ** The checksum of a whole frame *)

Lemma land_low_byte_cancel register :
  0 <= register -> Z.land (Z.lxor register (register mod 256)) 255 = 0.
Proof.
  intros Hr. change (register mod 256) with (register mod 2 ^ 8).
  rewrite <- Z.land_ones by lia. change (Z.ones 8) with 255.
  apply Z.bits_inj'. intros n Hn.
  rewrite Z.land_spec, Z.lxor_spec, Z.land_spec, Z.bits_0.
  destruct (Z.testbit register n), (Z.testbit 255 n); reflexivity.
Qed.

Lemma table_step_low_byte register :
  0 <= register < 65536 ->
  crc16_table_step register (register mod 256) = register / 256.
Proof.
  intros Hr. unfold crc16_table_step.
  change 0xFF with 255. rewrite land_low_byte_cancel by lia.
  change (nth (Z.to_nat 0) _CRC16TABLE 0) with 0.
  rewrite Z.lxor_0_r, Z.shiftr_div_pow2 by lia. reflexivity.
Qed.

Lemma table_step_high_byte register :
  0 <= register < 65536 ->
  crc16_table_step (register / 256) (register / 256) = 0.
Proof.
  intros Hr. unfold crc16_table_step.
  rewrite Z.lxor_nilpotent.
  change (nth (Z.to_nat (Z.land 0 0xFF)) _CRC16TABLE 0) with 0.
  rewrite Z.lxor_0_r, Z.shiftr_div_pow2 by lia. change (2 ^ 8) with 256.
  apply Z.div_small. split; [apply Z.div_pos; lia|].
  apply Z.div_lt_upper_bound; lia.
Qed.

Lemma crc16_register_residue bs : crc16_register (bs ++ crc16 bs) = 0.
Proof.
  unfold crc16. cbv zeta. unfold crc16_register at 1.
  rewrite fold_left_app. fold (crc16_register bs).
  pose proof (crc16_register_range bs) as Hr.
  cbn [fold_left]. rewrite (table_step_low_byte _ Hr). apply table_step_high_byte, Hr.
Qed.

(** X3: the checksum computed over a whole frame, checksum bytes included,
    is 00 00 for every frame that [_embedPayload] builds. *)
Theorem X3_crc_of_frame_is_zero slaveaddress functioncode payload :
  0 <= slaveaddress <= 247 -> 1 <= functioncode <= 127 ->
  (_embedPayload slaveaddress "rtu" functioncode (ByteArray payload)
     ≫= _calculateCrcString)
  = Ok (ByteArray [0; 0]).
Proof.
  intros Ha Hf. rewrite (embedPayload_frame _ _ _ Ha Hf). cbn [mbind result_bind].
  rewrite calculateCrcString_bytearray. unfold frame. cbv zeta.
  unfold crc16 at 1. cbv zeta. rewrite crc16_register_residue. reflexivity.
Qed.

Lemma X3_witness :
  (_embedPayload 17 "rtu" 6 (ByteArray [0; 1; 0; 3]) ≫= _calculateCrcString)
  = Ok (ByteArray [0; 0]).
Proof. apply (X3_crc_of_frame_is_zero 17 6 [0; 1; 0; 3]); lia. Defined.

(** ** The checksum on other kinds of input *)

(** X4: on a [bytes] object the type check of [_calculateCrcString] fails
    and the handler computes the same checksum as for the [bytearray] of
    the same content: two bytes, each in [0, 255], whatever integers the
    input holds.  An empty [str] gives FF FF; a [str] with a character
    raises [TypeError]. *)
Theorem X4_crc_input_kinds :
  (forall bs, _calculateCrcString (Bytes bs) = _calculateCrcString (ByteArray bs))
  /\ (forall bs, exists lo hi,
        _calculateCrcString (ByteArray bs) = Ok (ByteArray [lo; hi])
        /\ is_byte lo /\ is_byte hi)
  /\ _calculateCrcString (Str []) = Ok (ByteArray [0xFF; 0xFF])
  /\ (forall c cs, exists msg, _calculateCrcString (Str (c :: cs)) = Raise (TypeError msg)).
Proof.
  split; [intros bs; rewrite calculateCrcString_bytes, calculateCrcString_bytearray;
          reflexivity|].
  split.
  { intros bs. rewrite calculateCrcString_bytearray. unfold crc16. cbv zeta.
    pose proof (crc16_register_range bs) as Hr.
    eexists _, _. split; [reflexivity|]. unfold is_byte. split.
    - apply Z.mod_pos_bound. lia.
    - split; [apply Z.div_pos; lia|apply Z.div_lt_upper_bound; lia]. }
  split; [vm_compute; reflexivity|].
  intros c cs. eexists. reflexivity.
Qed.

(** ** The register codec, from the bytes *)

Lemma twoByteStringToNum_two hi lo signed :
  _twoByteStringToNum (ByteArray [hi; lo]) 0 signed = Ok (VInt (word_value signed hi lo)).
Proof.
  unfold word_value. cbv zeta. destruct signed.
  - cbn [andb]. unfold _twoByteStringToNum, _unpack.
    change (_checkString (ByteArray [hi; lo]) "bytearray" 2 (Some 2)) with (Ok tt).
    change (_checkInt (VInt 0) (Some 0) None "number of decimals") with (Ok tt).
    change (_checkString (ByteArray [hi; lo]) "packed string" 1 None) with (Ok tt).
    cbn [mbind result_bind buf_data]. cbv [String.append].
    change (struct_unpack ">h" [hi; lo])
      with (Some (if hi * 256 + lo <? 32768 then hi * 256 + lo else hi * 256 + lo - 65536)).
    cbv iota. change (0 =? 0) with true. cbv iota.
    destruct (Z.ltb_spec (hi * 256 + lo) 32768), (Z.leb_spec 32768 (hi * 256 + lo));
      try lia; reflexivity.
  - reflexivity.
Qed.

Lemma word_value_fits signed hi lo :
  is_byte hi -> is_byte lo ->
  fits16 signed (word_value signed hi lo) = true
  /\ word_value signed hi lo mod 65536 = hi * 256 + lo.
Proof.
  unfold is_byte, word_value, fits16. intros Hh Hl. cbv zeta.
  destruct signed; cbn [andb].
  - destruct (Z.leb_spec 32768 (hi * 256 + lo)) as [Hbig|Hsmall].
    + split; [apply andb_true_intro; split; apply Z.leb_le; lia|].
      rewrite <- (Z.mod_add _ 1 65536) by lia.
      replace (hi * 256 + lo - 65536 + 1 * 65536) with (hi * 256 + lo) by lia.
      apply Z.mod_small. lia.
    + split; [apply andb_true_intro; split; apply Z.leb_le; lia|].
      apply Z.mod_small. lia.
  - split; [apply andb_true_intro; split; apply Z.leb_le; lia|].
    apply Z.mod_small. lia.
Qed.

Lemma word16_be_bytes n hi lo :
  is_byte hi -> is_byte lo -> n mod 65536 = hi * 256 + lo -> word16_be n = [hi; lo].
Proof.
  unfold is_byte, word16_be. intros Hh Hl ->. cbv zeta. f_equal; [|f_equal].
  - symmetry. apply (Z.div_unique _ 256 hi lo); lia.
  - symmetry. apply (Z.mod_unique _ 256 hi lo); lia.
Qed.

(** X5: two bytes always decode, without decimals, to an integer: the
    big-endian word [hi * 256 + lo], read in two's complement when [signed].
    The integer lies in the range of the format, and encoding it again
    gives the two bytes back. *)
Theorem X5_decode_encode_roundtrip hi lo signed :
  is_byte hi -> is_byte lo ->
  _twoByteStringToNum (ByteArray [hi; lo]) 0 signed = Ok (VInt (word_value signed hi lo))
  /\ fits16 signed (word_value signed hi lo) = true
  /\ (_twoByteStringToNum (ByteArray [hi; lo]) 0 signed ≫= fun v =>
        _numToTwoByteArray v 0 false signed)
     = Ok (ByteArray [hi; lo]).
Proof.
  intros Hh Hl. destruct (word_value_fits signed hi lo Hh Hl) as [Hfit Hmod].
  split; [apply twoByteStringToNum_two|]. split; [exact Hfit|].
  rewrite twoByteStringToNum_two. cbn [mbind result_bind].
  rewrite numToTwoByteArray_int by (apply (fits16_range signed); exact Hfit).
  rewrite (pack_fits false signed _ Hfit). cbn [mbind result_bind].
  rewrite (word16_be_bytes _ hi lo Hh Hl Hmod). reflexivity.
Qed.

(** X5 on the bytes FB 2E, the signed word -1234. *)
Lemma X5_witness :
  _twoByteStringToNum (ByteArray [0xFB; 0x2E]) 0 true = Ok (VInt (-1234))
  /\ fits16 true (-1234) = true
  /\ (_twoByteStringToNum (ByteArray [0xFB; 0x2E]) 0 true ≫= fun v =>
        _numToTwoByteArray v 0 false true)
     = Ok (ByteArray [0xFB; 0x2E]).
Proof.
  apply (X5_decode_encode_roundtrip 0xFB 0x2E true); unfold is_byte; lia.
Defined.

(** X6: the little-endian encoding is the big-endian one with its two
    bytes swapped, for every value, number of decimals and signedness; both
    raise the same exception when one does. *)
Theorem X6_lsbfirst_swaps_bytes value numberOfDecimals signed :
  _numToTwoByteArray value numberOfDecimals true signed
  = (_numToTwoByteArray value numberOfDecimals false signed ≫= fun outstring =>
       Ok (ByteArray (rev (buf_data outstring)))).
Proof.
  unfold _numToTwoByteArray.
  destruct (_checkNumerical value None None "inputvalue") as [[]|e];
    cbn [mbind result_bind]; [|reflexivity].
  destruct (_checkInt (VInt numberOfDecimals) (Some 0) None "number of decimals") as [[]|e];
    cbn [mbind result_bind]; [|reflexivity].
  destruct (float_of_value value) as [x|e]; cbn [mbind result_bind]; [|reflexivity].
  destruct (py_float _) as [m|e]; cbn [mbind result_bind]; [|reflexivity].
  destruct (float_to_int _) as [integer|e]; cbn [mbind result_bind]; [|reflexivity].
  destruct (fits16 signed integer) eqn:Hfit.
  - rewrite (pack_fits true signed integer Hfit), (pack_fits false signed integer Hfit).
    reflexivity.
  - rewrite (pack_overflow true signed integer Hfit), (pack_overflow false signed integer Hfit).
    reflexivity.
Qed.

Lemma word16_be_is_bytes n : Forall is_byte (word16_be n).
Proof.
  unfold word16_be, is_byte. cbv zeta.
  pose proof (Z.mod_pos_bound n 65536 ltac:(lia)) as Hw.
  apply Forall_cons; split.
  - split; [apply Z.div_pos; lia|apply Z.div_lt_upper_bound; lia].
  - apply Forall_cons; split; [apply Z.mod_pos_bound; lia|apply Forall_nil; exact I].
Qed.

Lemma numToTwoByteArray_two_bytes value numberOfDecimals LsbFirst signed outstring :
  _numToTwoByteArray value numberOfDecimals LsbFirst signed = Ok outstring ->
  exists b0 b1, outstring = ByteArray [b0; b1] /\ is_byte b0 /\ is_byte b1.
Proof.
  unfold _numToTwoByteArray.
  destruct (_checkNumerical value None None "inputvalue") as [[]|e];
    cbn [mbind result_bind]; [|discriminate].
  destruct (_checkInt (VInt numberOfDecimals) (Some 0) None "number of decimals") as [[]|e];
    cbn [mbind result_bind]; [|discriminate].
  destruct (float_of_value value) as [x|e]; cbn [mbind result_bind]; [|discriminate].
  destruct (py_float _) as [m|e]; cbn [mbind result_bind]; [|discriminate].
  destruct (float_to_int _) as [integer|e]; cbn [mbind result_bind]; [|discriminate].
  pose proof (word16_be_is_bytes integer) as Hbytes.
  destruct (fits16 signed integer) eqn:Hfit.
  - rewrite (pack_fits LsbFirst signed integer Hfit). cbn [mbind result_bind].
    unfold word16_be in *. cbv zeta in *.
    inversion Hbytes as [|? ? H0 Hrest]; subst. inversion Hrest as [|? ? H1 _]; subst.
    destruct LsbFirst; cbn; intros [= <-]; eexists _, _; (split; [reflexivity|]);
      split; assumption.
  - rewrite (pack_overflow LsbFirst signed integer Hfit). discriminate.
Qed.

(** X7: whatever its arguments, what [_numToTwoByteArray] returns is a
    [bytearray] of exactly two bytes, each in [0, 255]. *)
Theorem X7_encoding_is_two_bytes value numberOfDecimals LsbFirst signed outstring :
  _numToTwoByteArray value numberOfDecimals LsbFirst signed = Ok outstring ->
  exists b0 b1, outstring = ByteArray [b0; b1] /\ is_byte b0 /\ is_byte b1.
Proof. apply numToTwoByteArray_two_bytes. Qed.

Lemma X7_witness :
  exists b0 b1,
    ByteArray [0x01; 0x2C] = ByteArray [b0; b1] /\ is_byte b0 /\ is_byte b1.
Proof.
  apply (X7_encoding_is_two_bytes (VInt 30) 1 false false (ByteArray [0x01; 0x2C])).
  vm_compute. reflexivity.
Defined.

(** ** Lists of registers *)

Lemma valuelist_decode_registers bs : forall count i,
  0 <= i -> Z.of_nat (length bs) = 2 * (i + Z.of_nat count) ->
  valuelist_decode (ByteArray bs) i count
  = Ok (map VInt (registers_of_bytes (skipn (Z.to_nat (2 * i)) bs))).
Proof.
  induction count as [|count IH]; intros i Hi Hlen.
  - cbn [valuelist_decode]. rewrite skipn_all2 by lia. reflexivity.
  - cbn [valuelist_decode]. unfold _NUMBER_OF_BYTES_PER_REGISTER. cbn [buf_slice].
    rewrite py_slice_nonneg by lia.
    replace (2 * i + 2 - 2 * i) with 2 by lia. change (Z.to_nat 2) with 2%nat.
    rewrite (IH (i + 1)) by lia.
    replace (Z.to_nat (2 * (i + 1))) with (Z.to_nat (2 * i) + 2)%nat by lia.
    rewrite <- drop_drop.
    assert (Hrest : length (skipn (Z.to_nat (2 * i)) bs) = (2 + 2 * count)%nat)
      by (rewrite length_skipn; lia).
    destruct (skipn (Z.to_nat (2 * i)) bs) as [|hi [|lo rest]]; try discriminate.
    cbn [firstn skipn drop registers_of_bytes map].
    rewrite twoByteStringToNum_unsigned. reflexivity.
Qed.

Lemma registers_of_bytes_length bs : forall n,
  length bs = (2 * n)%nat -> length (registers_of_bytes bs) = n.
Proof.
  induction bs as [bs IH] using (well_founded_induction
    (well_founded_ltof _ (@length Z))). intros n Hn.
  destruct bs as [|hi [|lo rest]]; cbn [length] in Hn.
  - cbn. lia.
  - lia.
  - cbn [registers_of_bytes length]. destruct n as [|n]; [lia|].
    f_equal. apply IH; [unfold ltof; cbn; lia|lia].
Qed.

Lemma bytearrayToValuelist_registers bs numberOfRegisters :
  1 <= numberOfRegisters -> Z.of_nat (length bs) = 2 * numberOfRegisters ->
  _bytearrayToValuelist (ByteArray bs) numberOfRegisters
    = Ok (VList (map VInt (registers_of_bytes bs)))
  /\ length (registers_of_bytes bs) = Z.to_nat numberOfRegisters.
Proof.
  intros Hn Hlen. split; [|apply registers_of_bytes_length; lia].
  unfold _bytearrayToValuelist, _checkString, _checkInt, _checkNumerical, buf_len,
    _NUMBER_OF_BYTES_PER_REGISTER.
  cbn [num_lt_Z num_gt_Z mbind result_bind buf_data]. rewrite Hlen.
  case_ltb. cbn [mbind result_bind].
  rewrite (valuelist_decode_registers bs (Z.to_nat numberOfRegisters) 0) by lia.
  reflexivity.
Qed.

(** X8: [_bytearrayToValuelist] returns a list exactly when the count is at
    least 1 and the [bytearray] holds twice that many bytes, and raises
    [ValueError] otherwise; the list then has one integer per register,
    [hi * 256 + lo] of the register's two bytes, in the order of the
    bytes. *)
Theorem X8_bytearrayToValuelist bs numberOfRegisters :
  (1 <= numberOfRegisters -> Z.of_nat (length bs) = 2 * numberOfRegisters ->
     _bytearrayToValuelist (ByteArray bs) numberOfRegisters
       = Ok (VList (map VInt (registers_of_bytes bs)))
     /\ length (registers_of_bytes bs) = Z.to_nat numberOfRegisters)
  /\ (~ (1 <= numberOfRegisters /\ Z.of_nat (length bs) = 2 * numberOfRegisters) ->
      exists msg,
        _bytearrayToValuelist (ByteArray bs) numberOfRegisters = Raise (ValueError msg)).
Proof.
  split.
  - apply bytearrayToValuelist_registers.
  - intros Hno.
    unfold _bytearrayToValuelist, _checkString, _checkInt, _checkNumerical, buf_len,
      _NUMBER_OF_BYTES_PER_REGISTER.
    cbn [num_lt_Z num_gt_Z mbind result_bind buf_data].
    destruct (Z.ltb_spec numberOfRegisters 1); cbn [mbind result_bind];
      [eexists; reflexivity|].
    destruct (Z.ltb_spec (2 * numberOfRegisters) 0); [lia|]. cbn [mbind result_bind].
    destruct (Z.ltb_spec (Z.of_nat (length bs)) (2 * numberOfRegisters));
      cbn [mbind result_bind]; [eexists; reflexivity|].
    destruct (Z.ltb_spec (2 * numberOfRegisters) (2 * numberOfRegisters)); [lia|].
    destruct (Z.ltb_spec (2 * numberOfRegisters) (Z.of_nat (length bs)));
      [eexists; reflexivity|lia].
Qed.

(** X8 on the four bytes 00 2A 01 00: the registers 42 and 256; and on
    three bytes, which are no two registers. *)
Lemma X8_witness :
  (_bytearrayToValuelist (ByteArray [0x00; 0x2A; 0x01; 0x00]) 2
     = Ok (VList [VInt 42; VInt 256])
   /\ length (registers_of_bytes [0x00; 0x2A; 0x01; 0x00]) = 2%nat)
  /\ exists msg, _bytearrayToValuelist (ByteArray [0x00; 0x2A; 0x01]) 2
                 = Raise (ValueError msg).
Proof.
  split.
  - apply (proj1 (X8_bytearrayToValuelist [0x00; 0x2A; 0x01; 0x00] 2)).
    + lia.
    + cbn. lia.
  - apply (proj2 (X8_bytearrayToValuelist [0x00; 0x2A; 0x01] 2)).
    cbn. lia.
Defined.

Lemma bytes_of_registers_length values :
  length (bytes_of_registers values) = (2 * length values)%nat.
Proof.
  unfold bytes_of_registers.
  induction values as [|v values IH]; [reflexivity|]. cbn [flat_map length app]. lia.
Qed.

Lemma registers_of_bytes_of_registers values :
  registers_of_bytes (bytes_of_registers values) = values.
Proof.
  unfold bytes_of_registers.
  induction values as [|v values IH]; [reflexivity|].
  cbn [flat_map app registers_of_bytes]. rewrite IH. f_equal.
  pose proof (Z.div_mod v 256 ltac:(lia)). lia.
Qed.

Lemma check_all_values_registers values :
  Forall (fun v => 0 <= v <= 65535) values ->
  check_all_values (map VInt values) (fun value =>
    _checkInt value (Some 0) (Some 65535) "elements in the input value list") = Ok tt.
Proof.
  induction 1 as [|v values Hv _ IH]; [reflexivity|].
  cbn [map check_all_values]. rewrite IH.
  unfold _checkInt, _checkNumerical. cbn [num_lt_Z num_gt_Z mbind result_bind].
  case_ltb. reflexivity.
Qed.

Lemma valuelist_concat_bytearray rt values :
  Forall (fun v => 0 <= v <= 65535) values -> forall acc,
  valuelist_concat rt (ByteArray acc) (map VInt values)
  = Ok (ByteArray (acc ++ bytes_of_registers values)).
Proof.
  induction 1 as [|v values Hv _ IH]; intros acc.
  - cbn. rewrite app_nil_r. reflexivity.
  - cbn [map valuelist_concat]. rewrite numToTwoByteArray_msb by lia.
    cbn [mbind result_bind py_add]. rewrite IH.
    unfold bytes_of_registers. cbn [flat_map]. rewrite <- app_assoc. reflexivity.
Qed.

Lemma valuelistToBytestring_registers rt values :
  (forall b, mixed_add rt (Str []) (ByteArray b) = Ok (ByteArray b)) ->
  values <> [] -> Forall (fun v => 0 <= v <= 65535) values ->
  _valuelistToBytestring rt (VList (map VInt values)) (Z.of_nat (length values))
  = Ok (ByteArray (bytes_of_registers values)).
Proof.
  intros Hrt Hne Hall.
  assert (Hn : 1 <= Z.of_nat (length values)) by (destruct values; [contradiction|cbn; lia]).
  unfold _valuelistToBytestring. rewrite (check_all_values_registers values Hall).
  rewrite length_map.
  unfold _checkInt, _checkNumerical. cbn [num_lt_Z num_gt_Z mbind result_bind].
  case_ltb. cbn [mbind result_bind].
  destruct values as [|v values]; [contradiction|].
  inversion Hall as [|? ? Hv Hrest]; subst.
  cbn [map valuelist_concat]. rewrite numToTwoByteArray_msb by lia.
  cbn [mbind result_bind py_add]. rewrite Hrt. cbn [mbind result_bind].
  rewrite (valuelist_concat_bytearray rt values Hrest). cbn [mbind result_bind].
  change ([v / 256; v mod 256] ++ bytes_of_registers values)
    with (bytes_of_registers (v :: values)).
  unfold buf_len. cbn [buf_data]. rewrite bytes_of_registers_length.
  unfold _NUMBER_OF_BYTES_PER_REGISTER.
  destruct (Z.eqb_spec (Z.of_nat (2 * length (v :: values)))
              (2 * Z.of_nat (length (v :: values)))); [reflexivity|lia].
Qed.

(** X9: on a runtime where adding a [bytearray] to the empty [str] gives the
    [bytearray], a non-empty list of integers in [0, 65535] is encoded as
    its registers' bytes, high byte first, and decoding these bytes gives
    the list back. *)
Theorem X9_valuelist_roundtrip rt values :
  (forall b, mixed_add rt (Str []) (ByteArray b) = Ok (ByteArray b)) ->
  values <> [] -> Forall (fun v => 0 <= v <= 65535) values ->
  _valuelistToBytestring rt (VList (map VInt values)) (Z.of_nat (length values))
    = Ok (ByteArray (bytes_of_registers values))
  /\ (_valuelistToBytestring rt (VList (map VInt values)) (Z.of_nat (length values))
        ≫= fun bytearray => _bytearrayToValuelist bytearray (Z.of_nat (length values)))
     = Ok (VList (map VInt values)).
Proof.
  intros Hrt Hne Hall.
  assert (Hn : 1 <= Z.of_nat (length values)) by (destruct values; [contradiction|cbn; lia]).
  pose proof (valuelistToBytestring_registers rt values Hrt Hne Hall) as Henc.
  split; [exact Henc|]. rewrite Henc. cbn [mbind result_bind].
  destruct (bytearrayToValuelist_registers (bytes_of_registers values)
              (Z.of_nat (length values)) Hn) as [Hdec _].
  { rewrite bytes_of_registers_length. lia. }
  rewrite Hdec, registers_of_bytes_of_registers. reflexivity.
Qed.

Lemma X9_witness :
  _valuelistToBytestring lenient_runtime (VList (map VInt [42; 256])) 2
    = Ok (ByteArray [0x00; 0x2A; 0x01; 0x00])
  /\ (_valuelistToBytestring lenient_runtime (VList (map VInt [42; 256])) 2
        ≫= fun bytearray => _bytearrayToValuelist bytearray 2)
     = Ok (VList (map VInt [42; 256])).
Proof.
  apply (X9_valuelist_roundtrip lenient_runtime [42; 256]).
  - intros b. reflexivity.
  - discriminate.
  - apply Forall_cons; split; [lia|]. apply Forall_cons; split; [lia|]. apply Forall_nil. exact I.
Defined.

(** ** Bit responses *)

(** X30: decoding the data byte of a bit response compares a
    [bytearray] with the [str] literals of the module, so it depends on the
    runtime.  Where such a comparison goes by content, the byte 01 gives 1,
    the byte 00 gives 0 and any other byte raises [ValueError]; where a
    [bytearray] never equals a [str], every byte raises [ValueError].
    Anything but one byte raises [ValueError] on every runtime. *)
Theorem X30_bitResponseToValue rt :
  (forall bs, length bs <> 1%nat ->
     exists msg, _bitResponseToValue rt (ByteArray bs) = Raise (ValueError msg))
  /\ ((forall x y, mixed_eqb rt x y = list_Z_eqb (buf_data x) (buf_data y)) ->
      forall b,
        _bitResponseToValue rt (ByteArray [b])
        = if b =? 1 then Ok 1
          else if b =? 0 then Ok 0
          else Raise (ValueError "Could not convert bit response to a value"))
  /\ ((forall x y, mixed_eqb rt x y = false) ->
      forall b,
        _bitResponseToValue rt (ByteArray [b])
        = Raise (ValueError "Could not convert bit response to a value")).
Proof.
  split; [|split].
  - intros bs Hlen. unfold _bitResponseToValue.
    destruct bs as [|b [|b' bs]]; [eexists; reflexivity|contradiction|].
    unfold _checkString, _checkInt, _checkNumerical, buf_len.
    cbn [num_lt_Z num_gt_Z mbind result_bind buf_data length].
    case_ltb; cbn [mbind result_bind]; case_ltb; eexists; reflexivity.
  - intros Heq b. unfold _bitResponseToValue.
    change (_checkString (ByteArray [b]) "bytearray" 1 (Some 1)) with (Ok tt).
    cbn [mbind result_bind py_eqb]. rewrite !Heq. cbn [buf_data]. unfold list_Z_eqb.
    destruct (Z.eqb_spec b 1) as [->|H1]; [reflexivity|].
    rewrite bool_decide_eq_false_2 by (intros [= E]; contradiction).
    destruct (Z.eqb_spec b 0) as [->|H0]; [reflexivity|].
    rewrite bool_decide_eq_false_2 by (intros [= E]; contradiction).
    reflexivity.
  - intros Hne b. unfold _bitResponseToValue.
    change (_checkString (ByteArray [b]) "bytearray" 1 (Some 1)) with (Ok tt).
    cbn [mbind result_bind py_eqb]. rewrite !Hne. reflexivity.
Qed.

(** X30 on the two runtimes of the scenarios. *)
Lemma X30_witness :
  _bitResponseToValue lenient_runtime (ByteArray [1]) = Ok 1
  /\ _bitResponseToValue strict_runtime (ByteArray [1])
     = Raise (ValueError "Could not convert bit response to a value").
Proof.
  split.
  - exact (proj1 (proj2 (X30_bitResponseToValue lenient_runtime))
             (fun x y => eq_refl) 1).
  - exact (proj2 (proj2 (X30_bitResponseToValue strict_runtime))
             (fun x y => eq_refl) 1).
Defined.

(** ** The argument checks *)

Lemma checkInt_iff z minvalue maxvalue description :
  _checkInt (VInt z) minvalue maxvalue description = Ok tt
  <-> (forall lo, minvalue = Some lo -> lo <= z)
      /\ (forall hi, maxvalue = Some hi -> z <= hi).
Proof.
  unfold _checkInt, _checkNumerical. cbn [num_lt_Z num_gt_Z].
  destruct minvalue as [lo|], maxvalue as [hi|]; cbn [mbind result_bind].
  - destruct (Z.ltb_spec hi lo); cbn [mbind result_bind].
    + split; [discriminate|]. intros [Klo Khi].
      specialize (Klo lo eq_refl). specialize (Khi hi eq_refl). lia.
    + destruct (Z.ltb_spec z lo); cbn [mbind result_bind].
      { split; [discriminate|]. intros [Klo _]. specialize (Klo lo eq_refl). lia. }
      destruct (Z.ltb_spec hi z).
      { split; [discriminate|]. intros [_ Khi]. specialize (Khi hi eq_refl). lia. }
      split; [|reflexivity]. intros _. split; intros ? [= <-]; lia.
  - destruct (Z.ltb_spec z lo); cbn [mbind result_bind].
    + split; [discriminate|]. intros [Klo _]. specialize (Klo lo eq_refl). lia.
    + split; [|reflexivity]. intros _. split; [intros ? [= <-]; lia|discriminate].
  - destruct (Z.ltb_spec hi z).
    + split; [discriminate|]. intros [_ Khi]. specialize (Khi hi eq_refl). lia.
    + split; [|reflexivity]. intros _. split; [discriminate|intros ? [= <-]; lia].
  - split; [|reflexivity]. intros _. split; discriminate.
Qed.

(** X10: on an integer, [_checkInt] passes exactly when the integer lies
    within the bounds that are given, and raises [ValueError] otherwise
    (also when the bounds are given in the wrong order).  A float that is
    not a number passes [_checkNumerical] whatever the bounds, since every
    comparison with it is false. *)
Theorem X10_checkInt_bounds :
  (forall z minvalue maxvalue description,
     _checkInt (VInt z) minvalue maxvalue description = Ok tt
     <-> (forall lo, minvalue = Some lo -> lo <= z)
         /\ (forall hi, maxvalue = Some hi -> z <= hi))
  /\ (forall z minvalue maxvalue description e,
        _checkInt (VInt z) minvalue maxvalue description = Raise e ->
        exists msg, e = ValueError msg)
  /\ (forall minvalue maxvalue description,
        (forall lo hi, minvalue = Some lo -> maxvalue = Some hi -> lo <= hi) ->
        _checkNumerical (VFloat S754_nan) minvalue maxvalue description = Ok tt).
Proof.
  split; [|split].
  - exact checkInt_iff.
  - intros z minvalue maxvalue description e.
    unfold _checkInt, _checkNumerical. cbn [num_lt_Z num_gt_Z].
    destruct minvalue as [lo|], maxvalue as [hi|]; cbn [mbind result_bind];
      repeat match goal with
             | |- context [?x <? ?y] => destruct (x <? y); cbn [mbind result_bind]
             end;
      intros [= <-] || discriminate; eexists; reflexivity.
  - intros minvalue maxvalue description Hord.
    unfold _checkNumerical. cbn [num_lt_Z num_gt_Z float_lt_Z Z_lt_float].
    destruct minvalue as [lo|], maxvalue as [hi|]; cbn [mbind result_bind];
      try reflexivity.
    specialize (Hord lo hi eq_refl eq_refl).
    destruct (Z.ltb_spec hi lo); [lia|reflexivity].
Qed.

(** X10 on the function code 5 within [1, 127]. *)
Lemma X10_witness : _checkInt (VInt 5) (Some 1) (Some 127) "functioncode" = Ok tt.
Proof.
  apply (proj1 X10_checkInt_bounds 5 (Some 1) (Some 127) "functioncode").
  split; intros ? [= <-]; lia.
Defined.

(** X11: [_checkString] passes exactly on a [bytearray] whose length is at
    least [minlength] (itself not negative) and at most [maxlength] when one
    is given.  Any other kind of object, a [bytes] object included, raises
    [TypeError]; a [bytearray] of the wrong length raises [ValueError]. *)
Theorem X11_checkString inputstring description minlength maxlength :
  (_checkString inputstring description minlength maxlength = Ok tt
   <-> (exists bs, inputstring = ByteArray bs)
       /\ 0 <= minlength <= buf_len inputstring
       /\ (forall mx, maxlength = Some mx -> buf_len inputstring <= mx))
  /\ (forall e, _checkString inputstring description minlength maxlength = Raise e ->
        match inputstring with
        | ByteArray _ => exists msg, e = ValueError msg
        | _ => exists msg, e = TypeError msg
        end).
Proof.
  split.
  - destruct inputstring as [bs|bs|cs]; cbn [_checkString];
      try (split; [discriminate|intros [[? [=]] _]]).
    unfold _checkInt, _checkNumerical. cbn [num_lt_Z num_gt_Z mbind result_bind].
    destruct (Z.ltb_spec minlength 0); cbn [mbind result_bind].
    { split; [discriminate|]. intros (_ & Klo & _). lia. }
    destruct (Z.ltb_spec (buf_len (ByteArray bs)) minlength); cbn [mbind result_bind].
    { split; [discriminate|]. intros (_ & Klo & _). lia. }
    destruct maxlength as [mx|].
    + destruct (Z.ltb_spec mx 0).
      { split; [discriminate|]. intros (_ & _ & Khi). specialize (Khi mx eq_refl). lia. }
      destruct (Z.ltb_spec mx minlength).
      { split; [discriminate|]. intros (_ & _ & Khi). specialize (Khi mx eq_refl). lia. }
      destruct (Z.ltb_spec mx (buf_len (ByteArray bs))).
      { split; [discriminate|]. intros (_ & _ & Khi). specialize (Khi mx eq_refl). lia. }
      split; [|reflexivity]. intros _.
      split; [eexists; reflexivity|]. split; [lia|]. intros ? [= <-]. lia.
    + split; [|reflexivity]. intros _.
      split; [eexists; reflexivity|]. split; [lia|discriminate].
  - intros e. destruct inputstring as [bs|bs|cs]; cbn [_checkString];
      try (intros [= <-]; eexists; reflexivity).
    unfold _checkInt, _checkNumerical. cbn [num_lt_Z num_gt_Z mbind result_bind].
    destruct (minlength <? 0); cbn [mbind result_bind];
      [intros [= <-]; eexists; reflexivity|].
    destruct (buf_len (ByteArray bs) <? minlength); cbn [mbind result_bind];
      [intros [= <-]; eexists; reflexivity|].
    destruct maxlength as [mx|]; [|discriminate].
    destruct (mx <? 0); [intros [= <-]; eexists; reflexivity|].
    destruct (mx <? minlength); [intros [= <-]; eexists; reflexivity|].
    destruct (mx <? buf_len (ByteArray bs)); [intros [= <-]; eexists; reflexivity|].
    discriminate.
Qed.

(** X11 on a [bytearray] of two bytes, checked for one to four bytes. *)
Lemma X11_witness : _checkString (ByteArray [1; 2]) "payload" 1 (Some 4) = Ok tt.
Proof.
  apply (proj1 (X11_checkString (ByteArray [1; 2]) "payload" 1 (Some 4))).
  change (buf_len (ByteArray [1; 2])) with 2.
  split; [eexists; reflexivity|]. split; [lia|]. intros ? [= <-]. lia.
Defined.

Lemma checkInt_functioncode_range v description :
  _checkInt (VInt v) (Some 1) (Some 127) description = Ok tt <-> 1 <= v <= 127.
Proof.
  unfold _checkInt, _checkNumerical. cbn [num_lt_Z num_gt_Z mbind result_bind].
  destruct (Z.ltb_spec v 1); cbn [mbind result_bind]; [split; [discriminate|lia]|].
  destruct (Z.ltb_spec 127 v); [split; [discriminate|lia]|].
  split; [lia|reflexivity].
Qed.

Lemma check_all_functioncodes allowed description :
  check_all allowed (fun value => _checkInt (VInt value) (Some 1) (Some 127) description)
    = Ok tt
  <-> Forall (fun v => 1 <= v <= 127) allowed.
Proof.
  induction allowed as [|v allowed IH]; cbn [check_all].
  - split; [intros _; apply Forall_nil; exact I|reflexivity].
  - rewrite Forall_cons. rewrite <- IH, <- (checkInt_functioncode_range v description).
    destruct (_checkInt (VInt v) (Some 1) (Some 127) description) as [[]|e];
      cbn [mbind result_bind].
    + split; [intros H; split; [reflexivity|exact H]|intros [_ H]; exact H].
    + split; [discriminate|intros [[=] _]].
Qed.

Lemma Z_in_In x l : Z_in x l = true <-> In x l.
Proof.
  unfold Z_in. rewrite existsb_exists. split.
  - intros (y & Hy & E). apply Z.eqb_eq in E. subst. exact Hy.
  - intros H. exists x. split; [exact H|apply Z.eqb_refl].
Qed.

(** X12: [_checkFunctioncode] passes exactly when the function code lies
    in [1, 127] and, when a list of allowed values is given, every entry of
    the list lies in [1, 127] and the function code is one of them: a list
    with an entry out of range rejects every function code. *)
Theorem X12_checkFunctioncode functioncode listOfAllowedValues :
  _checkFunctioncode functioncode listOfAllowedValues = Ok tt
  <-> 1 <= functioncode <= 127
      /\ (forall allowed, listOfAllowedValues = Some allowed ->
            Forall (fun v => 1 <= v <= 127) allowed /\ In functioncode allowed).
Proof.
  unfold _checkFunctioncode. cbv zeta.
  pose proof (checkInt_functioncode_range functioncode "functioncode") as Hfc.
  destruct (_checkInt (VInt functioncode) (Some 1) (Some 127) "functioncode") as [[]|e];
    cbn [mbind result_bind].
  - assert (Hr : 1 <= functioncode <= 127) by (apply Hfc; reflexivity).
    destruct listOfAllowedValues as [allowed|].
    + pose proof (check_all_functioncodes allowed
                    "functioncode inside listOfAllowedValues") as Hall.
      destruct (check_all allowed _) as [[]|e]; cbn [mbind result_bind].
      * destruct (Z_in functioncode allowed) eqn:Hin.
        { split; [|reflexivity]. intros _. split; [exact Hr|]. intros ? [= <-].
          split; [apply Hall; reflexivity|apply Z_in_In; exact Hin]. }
        { split; [discriminate|]. intros [_ H].
          destruct (H allowed eq_refl) as [_ Hmem].
          apply Z_in_In in Hmem. congruence. }
      * split; [discriminate|]. intros [_ H].
        destruct (H allowed eq_refl) as [Hforall _].
        apply Hall in Hforall. discriminate.
    + split; [|reflexivity]. intros _. split; [exact Hr|discriminate].
  - split; [discriminate|]. intros [Hr _]. apply Hfc in Hr. discriminate.
Qed.

(** X12 on the function code 3 among the codes 3 and 4. *)
Lemma X12_witness : _checkFunctioncode 3 (Some [3; 4]) = Ok tt.
Proof.
  apply (X12_checkFunctioncode 3 (Some [3; 4])).
  split; [lia|]. intros ? [= <-]. split.
  - apply Forall_cons; split; [lia|]. apply Forall_cons; split; [lia|].
    apply Forall_nil. exact I.
  - left. reflexivity.
Defined.

(** X13: for a non-negative integer and a non-negative bit number,
    [_setBitOn] returns the integer with that bit set and every other bit
    unchanged, so setting a bit twice changes nothing more; a negative
    argument raises [ValueError]. *)
Theorem X13_setBitOn x bitNum :
  (0 <= x -> 0 <= bitNum ->
     exists y, _setBitOn x bitNum = Ok y
       /\ (forall m, 0 <= m ->
             Z.testbit y m = if m =? bitNum then true else Z.testbit x m)
       /\ _setBitOn y bitNum = Ok y)
  /\ (x < 0 \/ bitNum < 0 -> exists msg, _setBitOn x bitNum = Raise (ValueError msg)).
Proof.
  split.
  - intros Hx Hn. exists (Z.lor x (Z.shiftl 1 bitNum)).
    assert (Hset : forall v, 0 <= v -> _setBitOn v bitNum = Ok (Z.lor v (Z.shiftl 1 bitNum))).
    { intros v Hv. unfold _setBitOn, _checkInt, _checkNumerical.
      cbn [num_lt_Z num_gt_Z mbind result_bind]. case_ltb. reflexivity. }
    assert (Hbits : forall m, 0 <= m ->
              Z.testbit (Z.lor x (Z.shiftl 1 bitNum)) m
              = if m =? bitNum then true else Z.testbit x m).
    { intros m Hm. rewrite Z.lor_spec, Z.shiftl_spec by lia.
      destruct (Z.eqb_spec m bitNum) as [->|Hne].
      - rewrite Z.sub_diag. apply orb_true_r.
      - destruct (Z_lt_le_dec m bitNum).
        + rewrite (Z.testbit_neg_r 1 (m - bitNum)) by lia. apply orb_false_r.
        + rewrite (Z.bits_above_log2 1 (m - bitNum)); [apply orb_false_r|lia|cbn; lia]. }
    split; [apply Hset, Hx|]. split; [exact Hbits|].
    rewrite Hset.
    + f_equal. rewrite <- Z.lor_assoc, Z.lor_diag. reflexivity.
    + apply Z.lor_nonneg. split; [exact Hx|apply Z.shiftl_nonneg; lia].
  - intros Hneg. unfold _setBitOn, _checkInt, _checkNumerical.
    cbn [num_lt_Z num_gt_Z mbind result_bind].
    destruct (Z.ltb_spec x 0); cbn [mbind result_bind]; [eexists; reflexivity|].
    destruct (Z.ltb_spec bitNum 0); cbn [mbind result_bind]; [eexists; reflexivity|lia].
Qed.

(** X13 on bit 7 of the function code 3. *)
Lemma X13_witness :
  exists y, _setBitOn 3 7 = Ok y
    /\ (forall m, 0 <= m -> Z.testbit y m = if m =? 7 then true else Z.testbit 3 m)
    /\ _setBitOn y 7 = Ok y.
Proof. apply (proj1 (X13_setBitOn 3 7)); lia. Defined.

(** ** Building a frame *)

Lemma frame_length slaveaddress functioncode payload :
  length (frame slaveaddress functioncode payload) = (length payload + 4)%nat.
Proof. unfold frame. cbv zeta. rewrite length_app. cbn [length crc16]. lia. Qed.

Lemma checkInt_cases v lo hi description :
  lo <= hi ->
  (lo <= v <= hi /\ _checkInt (VInt v) (Some lo) (Some hi) description = Ok tt)
  \/ (~ lo <= v <= hi
      /\ exists msg, _checkInt (VInt v) (Some lo) (Some hi) description
                     = Raise (ValueError msg)).
Proof.
  intros Hord. unfold _checkInt, _checkNumerical.
  cbn [num_lt_Z num_gt_Z mbind result_bind].
  destruct (Z.ltb_spec hi lo); [lia|]. cbn [mbind result_bind].
  destruct (Z.ltb_spec v lo); cbn [mbind result_bind];
    [right; split; [lia|eexists; reflexivity]|].
  destruct (Z.ltb_spec hi v); [right; split; [lia|eexists; reflexivity]|].
  left. split; [lia|reflexivity].
Qed.

(** X14: [_embedPayload] returns a frame exactly when the slave address
    lies in [0, 247], the mode is ['rtu'], the function code lies in
    [1, 127] and the payload is a [bytearray]; the frame is then four bytes
    longer than the payload: address, function code, payload, two checksum
    bytes.  An argument out of range raises [ValueError]; with the
    arguments in range, a payload of another kind raises [TypeError]. *)
Theorem X14_embedPayload slaveaddress mode functioncode payloaddata :
  (forall request,
     _embedPayload slaveaddress mode functioncode payloaddata = Ok request
     <-> 0 <= slaveaddress <= 247 /\ mode = "rtu" /\ 1 <= functioncode <= 127
         /\ exists payload,
              payloaddata = ByteArray payload
              /\ request = ByteArray (slaveaddress :: functioncode :: payload
                                        ++ crc16 (slaveaddress :: functioncode :: payload))
              /\ buf_len request = buf_len payloaddata + 4)
  /\ (forall e, _embedPayload slaveaddress mode functioncode payloaddata = Raise e ->
        (~ (0 <= slaveaddress <= 247 /\ mode = "rtu" /\ 1 <= functioncode <= 127)
         /\ exists msg, e = ValueError msg)
        \/ ((forall payload, payloaddata <> ByteArray payload)
            /\ exists msg, e = TypeError msg)).
Proof.
  unfold _embedPayload, _checkSlaveaddress, _checkMode, _checkFunctioncode, MODE_RTU.
  cbv zeta.
  destruct (checkInt_cases slaveaddress 0 247 "slaveaddress" ltac:(lia))
    as [[Ha Ea]|[Ha [msg Ea]]]; rewrite Ea; cbn [mbind result_bind];
    [|split; [intros request; split; [discriminate|intros (? & _); contradiction]
             |intros e [= <-]; left; split; [intros (? & _); contradiction
                                            |eexists; reflexivity]]].
  destruct (String.eqb_spec mode "rtu") as [->|Hmode]; cbn [mbind result_bind];
    [|split; [intros request; split; [discriminate|intros (_ & ? & _); contradiction]
             |intros e [= <-]; left; split; [intros (_ & ? & _); contradiction
                                            |eexists; reflexivity]]].
  destruct (checkInt_cases functioncode 1 127 "functioncode" ltac:(lia))
    as [[Hf Ef]|[Hf [msg Ef]]]; rewrite Ef; cbn [mbind result_bind];
    [|split; [intros request; split; [discriminate|intros (_ & _ & ? & _); contradiction]
             |intros e [= <-]; left; split; [intros (_ & _ & ?); contradiction
                                            |eexists; reflexivity]]].
  destruct payloaddata as [payload|bs|cs];
    [|cbn [_checkString mbind result_bind];
      (split; [intros request; split; [discriminate|intros (_ & _ & _ & ? & [=] & _)]
              |intros e [= <-]; right; split; [discriminate|eexists; reflexivity]])..].
  rewrite checkString_bytearray, !numToOneByteArray_ok by lia.
  cbn [mbind result_bind]. unfold bytearray_add. cbn [buf_data app].
  rewrite calculateCrcString_bytearray. cbn [mbind result_bind buf_data].
  split; [|discriminate].
  intros request. split.
  - intros [= <-]. repeat (split; [lia || reflexivity|]).
    exists payload. repeat (split; [reflexivity|]).
    unfold buf_len. cbn [buf_data length]. rewrite length_app. cbn [length crc16]. lia.
  - intros (_ & _ & _ & payload' & [= <-] & -> & _). reflexivity.
Qed.

(** X14 on the request to read one register at address 0 from slave 1. *)
Lemma X14_witness :
  _embedPayload 1 "rtu" 3 (ByteArray [0; 0; 0; 1])
  = Ok (ByteArray [0x01; 0x03; 0x00; 0x00; 0x00; 0x01; 0x84; 0x0A]).
Proof.
  apply (proj1 (X14_embedPayload 1 "rtu" 3 (ByteArray [0; 0; 0; 1]))).
  split; [lia|]. split; [reflexivity|]. split; [lia|].
  exists [0; 0; 0; 1]. split; [reflexivity|]. split; reflexivity.
Defined.

(** ** The checks of the response payload *)

Lemma checkString_min_ok bs description minlength :
  0 <= minlength <= Z.of_nat (length bs) ->
  _checkString (ByteArray bs) description minlength None = Ok tt.
Proof.
  intros H. unfold _checkString, _checkInt, _checkNumerical, buf_len.
  cbn [num_lt_Z num_gt_Z mbind result_bind buf_data]. case_ltb. reflexivity.
Qed.

Lemma checkString_min_short bs description minlength :
  0 <= minlength -> Z.of_nat (length bs) < minlength ->
  _checkString (ByteArray bs) description minlength None
  = Raise (ValueError ("The " ++ description ++ " is too short")).
Proof.
  intros H0 H. unfold _checkString, _checkInt, _checkNumerical, buf_len.
  cbn [num_lt_Z num_gt_Z mbind result_bind buf_data]. case_ltb. reflexivity.
Qed.

Lemma slice_0_2 hi lo rest :
  buf_slice (ByteArray (hi :: lo :: rest)) 0 2 = ByteArray [hi; lo].
Proof.
  cbn [buf_slice]. rewrite py_slice_nonneg by (cbn [length]; lia). reflexivity.
Qed.

Lemma checkResponseByteCount_iff payload :
  _checkResponseByteCount (ByteArray payload) = Ok tt
  <-> exists rest, payload = Z.of_nat (length rest) :: rest.
Proof.
  unfold _checkResponseByteCount. cbv zeta. destruct payload as [|count rest].
  - rewrite checkString_min_short by (cbn [length]; lia).
    split; [discriminate|intros [? [=]]].
  - rewrite checkString_min_ok by (cbn [length]; lia). cbn [mbind result_bind].
    unfold buf_index. cbn [buf_data]. rewrite py_index_nth by (cbn [length]; lia).
    change (Z.to_nat 0) with 0%nat.
    cbn [mbind result_bind nth py_ne_int]. unfold buf_len. cbn [buf_data length].
    destruct (Z.eqb_spec count (Z.of_nat (S (length rest)) - 1)) as [E|E]; cbn [negb].
    + split; [|reflexivity]. intros _. exists rest. f_equal. lia.
    + split; [discriminate|]. intros [rest' [= -> ->]]. lia.
Qed.

Lemma checkResponseRegisterAddress_iff payload registeraddress :
  _checkResponseRegisterAddress (ByteArray payload) registeraddress = Ok tt
  <-> 0 <= registeraddress <= 65535
      /\ exists hi lo rest, payload = hi :: lo :: rest /\ hi * 256 + lo = registeraddress.
Proof.
  unfold _checkResponseRegisterAddress, _checkRegisteraddress. cbv zeta.
  destruct payload as [|hi [|lo rest]];
    [rewrite checkString_min_short by (cbn [length]; lia);
     split; [discriminate|intros (_ & ? & ? & ? & [=] & _)]..|].
  rewrite checkString_min_ok by (cbn [length]; lia). cbn [mbind result_bind].
  destruct (checkInt_cases registeraddress 0 65535 "registeraddress" ltac:(lia))
    as [[Ha Ea]|[Ha [msg Ea]]]; rewrite Ea; cbn [mbind result_bind];
    [|split; [discriminate|intros (? & _); contradiction]].
  rewrite slice_0_2, twoByteStringToNum_unsigned. cbn [mbind result_bind py_ne_int].
  destruct (Z.eqb_spec (hi * 256 + lo) registeraddress) as [E|E]; cbn [negb].
  - split; [|reflexivity]. intros _. split; [exact Ha|]. exists hi, lo, rest. auto.
  - split; [discriminate|]. intros (_ & ? & ? & ? & [= <- <- <-] & ?). contradiction.
Qed.

Lemma checkResponseNumberOfRegisters_iff payload numberOfRegisters :
  _checkResponseNumberOfRegisters (ByteArray payload) numberOfRegisters = Ok tt
  <-> 1 <= numberOfRegisters <= 65535
      /\ exists a0 a1 hi lo rest,
           payload = a0 :: a1 :: hi :: lo :: rest /\ hi * 256 + lo = numberOfRegisters.
Proof.
  unfold _checkResponseNumberOfRegisters. cbv zeta.
  destruct payload as [|a0 [|a1 [|hi [|lo rest]]]];
    [rewrite checkString_min_short by (cbn [length]; lia);
     split; [discriminate|intros (_ & ? & ? & ? & ? & ? & [=] & _)]..|].
  rewrite checkString_min4. cbn [mbind result_bind].
  destruct (checkInt_cases numberOfRegisters 1 65535 "numberOfRegisters" ltac:(lia))
    as [[Hn En]|[Hn [msg En]]]; rewrite En; cbn [mbind result_bind];
    [|split; [discriminate|intros (? & _); contradiction]].
  rewrite quantity_field, twoByteStringToNum_unsigned. cbn [mbind result_bind py_ne_int].
  destruct (Z.eqb_spec (hi * 256 + lo) numberOfRegisters) as [E|E]; cbn [negb].
  - split; [|reflexivity]. intros _. split; [exact Hn|]. exists a0, a1, hi, lo, rest. auto.
  - split; [discriminate|].
    intros (_ & ? & ? & ? & ? & ? & [= <- <- <- <- <-] & ?). contradiction.
Qed.

Lemma checkResponseWriteData_iff payload writedata :
  _checkResponseWriteData (ByteArray payload) writedata = Ok tt
  <-> exists a0 a1 hi lo rest,
        payload = a0 :: a1 :: hi :: lo :: rest /\ writedata = ByteArray [hi; lo].
Proof.
  unfold _checkResponseWriteData. cbv zeta.
  destruct payload as [|a0 [|a1 [|hi [|lo rest]]]];
    [rewrite checkString_min_short by (cbn [length]; lia);
     split; [discriminate|intros (? & ? & ? & ? & ? & [=] & _)]..|].
  rewrite checkString_min4, quantity_field. cbn [mbind result_bind].
  destruct writedata as [wd|wd|wd];
    [|cbn [_checkString mbind result_bind];
      split; [discriminate|intros (? & ? & ? & ? & ? & _ & [=])]..].
  destruct wd as [|w0 [|w1 [|w2 wd]]].
  - split; [intros H; vm_compute in H; discriminate
           |intros (? & ? & ? & ? & ? & _ & [=])].
  - split; [intros H; vm_compute in H; discriminate
           |intros (? & ? & ? & ? & ? & _ & [=])].
  - change (_checkString (ByteArray [w0; w1]) "writedata" 2 (Some 2)) with (Ok tt).
    cbn [mbind result_bind buf_eqb buf_data]. unfold list_Z_eqb.
    destruct (decide ([hi; lo] = [w0; w1])) as [E|E].
    + rewrite bool_decide_eq_true_2 by exact E. cbn [negb].
      split; [|reflexivity]. intros _. exists a0, a1, hi, lo, rest.
      split; [reflexivity|]. rewrite E. reflexivity.
    + rewrite bool_decide_eq_false_2 by exact E. cbn [negb].
      split; [discriminate|].
      intros (? & ? & ? & ? & ? & [= <- <- <- <- <-] & [= <- <-]). contradiction.
  - split; [|intros (? & ? & ? & ? & ? & _ & [=])].
    unfold _checkString, _checkInt, _checkNumerical, buf_len.
    cbn [num_lt_Z num_gt_Z mbind result_bind buf_data length].
    case_ltb; cbn [mbind result_bind]; case_ltb; discriminate.
Qed.

(** X15: the checks that [_genericCommand] applies to the payload of a
    response.  The byte count passes exactly when the first byte equals the
    number of bytes after it; the register address (number of registers)
    passes exactly when the big-endian word in bytes 0-1 (bytes 2-3) equals
    the value asked for, itself within range; the write data passes exactly
    when the expected data is the [bytearray] of bytes 2-3. *)
Theorem X15_response_checks payload :
  (_checkResponseByteCount (ByteArray payload) = Ok tt
   <-> exists rest, payload = Z.of_nat (length rest) :: rest)
  /\ (forall registeraddress,
        _checkResponseRegisterAddress (ByteArray payload) registeraddress = Ok tt
        <-> 0 <= registeraddress <= 65535
            /\ exists hi lo rest,
                 payload = hi :: lo :: rest /\ hi * 256 + lo = registeraddress)
  /\ (forall numberOfRegisters,
        _checkResponseNumberOfRegisters (ByteArray payload) numberOfRegisters = Ok tt
        <-> 1 <= numberOfRegisters <= 65535
            /\ exists a0 a1 hi lo rest,
                 payload = a0 :: a1 :: hi :: lo :: rest
                 /\ hi * 256 + lo = numberOfRegisters)
  /\ (forall writedata,
        _checkResponseWriteData (ByteArray payload) writedata = Ok tt
        <-> exists a0 a1 hi lo rest,
              payload = a0 :: a1 :: hi :: lo :: rest /\ writedata = ByteArray [hi; lo]).
Proof.
  split; [apply checkResponseByteCount_iff|].
  split; [apply checkResponseRegisterAddress_iff|].
  split; [apply checkResponseNumberOfRegisters_iff|apply checkResponseWriteData_iff].
Qed.

(** X15 on the payload 02 00 2A of a response to a read of one register. *)
Lemma X15_witness : _checkResponseByteCount (ByteArray [0x02; 0x00; 0x2A]) = Ok tt.
Proof.
  apply (proj1 (X15_response_checks [0x02; 0x00; 0x2A])).
  exists [0x00; 0x2A]. reflexivity.
Defined.

(** ** Extraction accepts the frames of [_embedPayload] and no others *)

Lemma validate_payload_frame response slaveaddress functioncode payload :
  validate response slaveaddress functioncode = Payload payload ->
  response = frame slaveaddress functioncode payload.
Proof.
  unfold validate. cbv zeta.
  destruct (Nat.ltb_spec (length response) 4) as [|Hlen]; [discriminate|].
  destruct (list_Z_eqb _ _) eqn:Hcrc; cbn [negb]; [|discriminate].
  destruct (Z.eqb_spec (nth 0 response 0) slaveaddress) as [Ha|]; cbn [negb]; [|discriminate].
  destruct (nth 1 response 0 =? Z.setbit functioncode 7); [discriminate|].
  destruct (Z.eqb_spec (nth 1 response 0) functioncode) as [Hf|]; cbn [negb]; [|discriminate].
  intros [= <-]. unfold list_Z_eqb in Hcrc. apply bool_decide_eq_true in Hcrc.
  destruct response as [|r0 [|r1 rest]]; cbn [length] in Hlen; try lia.
  cbn [nth] in Ha, Hf. subst r0 r1.
  change (length (slaveaddress :: functioncode :: rest)) with (S (S (length rest))) in *.
  set (k := (length rest - 2)%nat).
  replace (S (S (length rest)) - 4)%nat with k by lia.
  replace (S (S (length rest)) - 2)%nat with (S (S k)) in Hcrc by lia.
  cbn [skipn firstn] in *. change (drop 0 rest) with rest. unfold frame. cbv zeta.
  rewrite <- Hcrc. cbn [app]. rewrite take_drop. reflexivity.
Qed.

(** The outcome of the validation of a well-formed frame depends on its
    header only. *)
Lemma validate_frame_header slaveaddress functioncode payload expected_address
    expected_functioncode :
  validate (frame slaveaddress functioncode payload) expected_address expected_functioncode
  = if negb (slaveaddress =? expected_address) then AddressMismatchError
    else if functioncode =? Z.setbit expected_functioncode 7 then SlaveExceptionError
    else if negb (functioncode =? expected_functioncode) then FunctionCodeMismatchError
    else Payload payload.
Proof.
  unfold validate, frame. cbv zeta.
  set (firstPart := slaveaddress :: functioncode :: payload).
  assert (Hcrc : length (crc16 firstPart) = 2%nat) by reflexivity.
  assert (Hlen : length (firstPart ++ crc16 firstPart) = (length firstPart + 2)%nat)
    by (rewrite length_app, Hcrc; reflexivity).
  rewrite Hlen. replace (length firstPart + 2 - 2)%nat with (length firstPart) by lia.
  rewrite take_app_length, drop_app_length.
  rewrite list_Z_eqb_refl. cbn [negb].
  destruct (Nat.ltb_spec (length firstPart + 2) 4) as [Hlt|_].
  { subst firstPart. cbn [length] in Hlt. lia. }
  subst firstPart. cbn [app nth skipn length].
  replace (S (S (length payload)) + 2 - 4)%nat with (length payload) by lia.
  change (drop 0 (payload ++ crc16 (slaveaddress :: functioncode :: payload)))
    with (payload ++ crc16 (slaveaddress :: functioncode :: payload)).
  rewrite take_app_length. reflexivity.
Qed.

(** X16: for a valid expected address and function code,
    [_extractPayload] returns a payload from a response exactly when the
    response is the frame that [_embedPayload] builds for this address,
    function code and payload. *)
Theorem X16_extract_accepts_only_frames response slaveaddress functioncode payload :
  0 <= slaveaddress <= 247 -> 1 <= functioncode <= 127 ->
  (_extractPayload (Bytes response) slaveaddress "rtu" functioncode = Ok (ByteArray payload)
   <-> _embedPayload slaveaddress "rtu" functioncode (ByteArray payload)
       = Ok (ByteArray response)).
Proof.
  intros Ha Hf. rewrite (embedPayload_frame _ _ _ Ha Hf).
  rewrite (extractPayload_validate (Bytes response)) by (exact I || assumption).
  cbn [buf_data]. split.
  - destruct (validate response slaveaddress functioncode) as [| | | | |p] eqn:Hv;
      try discriminate.
    intros [= ->]. apply validate_payload_frame in Hv. rewrite Hv. reflexivity.
  - intros [= <-]. rewrite (validate_frame _ _ _ Hf). reflexivity.
Qed.

(** X16 on the response 01 03 02 00 2A 39 9B of slave 1 to a read of one
    register. *)
Lemma X16_witness :
  _extractPayload (Bytes [0x01; 0x03; 0x02; 0x00; 0x2A; 0x39; 0x9B]) 1 "rtu" 3
    = Ok (ByteArray [0x02; 0x00; 0x2A])
  <-> _embedPayload 1 "rtu" 3 (ByteArray [0x02; 0x00; 0x2A])
      = Ok (ByteArray [0x01; 0x03; 0x02; 0x00; 0x2A; 0x39; 0x9B]).
Proof.
  apply (X16_extract_accepts_only_frames [0x01; 0x03; 0x02; 0x00; 0x2A; 0x39; 0x9B] 1 3
           [0x02; 0x00; 0x2A]); lia.
Defined.

(** ** Reading registers, end to end *)

Lemma genericCommand_run rt self functioncode registeraddress value numberOfDecimals
    numberOfRegisters signed payloadformat payloadToSlave payloadformat' w :
  build_payloadToSlave rt functioncode registeraddress value numberOfDecimals
    numberOfRegisters signed payloadformat = Ok (payloadToSlave, payloadformat') ->
  _genericCommand rt self functioncode registeraddress value numberOfDecimals
    numberOfRegisters signed payloadformat w
  = (fst (_performCommand self functioncode payloadToSlave w) ≫=
       check_payloadFromSlave rt functioncode registeraddress value numberOfDecimals
         numberOfRegisters signed payloadformat',
     snd (_performCommand self functioncode payloadToSlave w)).
Proof.
  intros Hb. unfold _genericCommand. rewrite Hb.
  unfold mbind at 1 2, M_bind, lift.
  destruct (_performCommand self functioncode payloadToSlave w) as [[pl|e] w'];
    reflexivity.
Qed.

Lemma read_registers_run rt self registeraddress numberOfRegisters functioncode w :
  functioncode = 3 \/ functioncode = 4 ->
  0 <= registeraddress <= 65535 -> 1 <= numberOfRegisters <= 255 ->
  let payloadToSlave :=
    ByteArray [registeraddress / 256; registeraddress mod 256;
               numberOfRegisters / 256; numberOfRegisters mod 256] in
  read_registers rt self registeraddress numberOfRegisters functioncode w
  = (fst (_performCommand self functioncode payloadToSlave w) ≫=
       check_payloadFromSlave rt functioncode registeraddress VNone 0 numberOfRegisters
         false (Some "registers"),
     snd (_performCommand self functioncode payloadToSlave w)).
Proof.
  intros Hf Ha Hn payloadToSlave. unfold read_registers.
  assert (H1 : _checkFunctioncode functioncode (Some [3; 4]) = Ok tt)
    by (destruct Hf as [-> | ->]; reflexivity).
  assert (H2 : _checkInt (VInt numberOfRegisters) (Some 1) None "number of registers" = Ok tt).
  { unfold _checkInt, _checkNumerical. cbn [num_lt_Z num_gt_Z mbind result_bind].
    case_ltb. reflexivity. }
  rewrite H1, H2. unfold mbind at 1 2, M_bind, lift.
  apply genericCommand_run, build_read_registers; assumption.
Qed.

Lemma check_read_registers rt functioncode registeraddress numberOfRegisters payload :
  functioncode = 3 \/ functioncode = 4 ->
  check_payloadFromSlave rt functioncode registeraddress VNone 0 numberOfRegisters false
    (Some "registers") (ByteArray payload)
  = (_checkResponseByteCount (ByteArray payload) ;;
     let registerdata := buf_slice_from (ByteArray payload) 1 in
     if negb (buf_len registerdata =? numberOfRegisters * 2)
     then Raise (ValueError "The registerdata length does not match number of register bytes")
     else _bytearrayToValuelist registerdata numberOfRegisters).
Proof. intros [-> | ->]; reflexivity. Qed.

Lemma slice_from_1 count rest :
  buf_slice_from (ByteArray (count :: rest)) 1 = ByteArray rest.
Proof.
  unfold buf_slice_from, buf_len. cbn [buf_slice buf_data].
  rewrite py_slice_nonneg by (cbn [length]; lia).
  change (Z.to_nat 1) with 1%nat. cbn [skipn]. f_equal.
  apply firstn_all2. cbn [length]. lia.
Qed.

Lemma read_size self functioncode registeraddress numberOfRegisters :
  mode self = "rtu" -> functioncode = 3 \/ functioncode = 4 ->
  0 <= numberOfRegisters ->
  number_of_bytes_to_read_for self functioncode
    (ByteArray [registeraddress / 256; registeraddress mod 256;
                numberOfRegisters / 256; numberOfRegisters mod 256])
  = if precalculate_read_size self then 5 + 2 * numberOfRegisters else 1000.
Proof.
  intros Hm Hf Hn. unfold number_of_bytes_to_read_for. rewrite Hm.
  destruct (precalculate_read_size self); [|reflexivity].
  rewrite predictResponseSize_cases by (destruct Hf as [-> | ->]; lia).
  pose proof (Z.div_mod numberOfRegisters 256 ltac:(lia)) as Hdm.
  destruct Hf as [-> | ->]; cbn [Z_in existsb Z.eqb Pos.eqb orb]; lia.
Qed.

Lemma communicate_outcome_answer self request size minimum_silent_period w answer :
  echo_ok self request w = true ->
  answer_read self size w = answer -> answer <> [] ->
  fst (communicate_outcome self request size minimum_silent_period w) = Ok (Bytes answer).
Proof.
  intros Hecho Hans Hne. rewrite (communicate_outcome_fst _ _ _ _ _ Hecho), Hans.
  destruct answer; [contradiction|reflexivity].
Qed.

Lemma answer_read_whole self size w :
  Z.of_nat (length (response_on_line self w)) <= size ->
  answer_read self size w = response_on_line self w.
Proof. intros H. unfold answer_read. apply firstn_all2. lia. Qed.

(** X17: a valid instrument reads [numberOfRegisters] registers (function
    code 3 or 4) from a line that holds the conforming response: the frame of
    the byte count [2 * numberOfRegisters] followed by that many data bytes.
    The request is written once, and the method returns the list of the
    registers, one integer [hi * 256 + lo] per pair of data bytes, whether
    the read size is precalculated or not. *)
Theorem X17_read_registers_returns rt self registeraddress numberOfRegisters functioncode
    minimum_silent_period data w :
  valid_instrument self ->
  _calculate_minimum_silent_period (baudrate self) = Ok minimum_silent_period ->
  functioncode = 3 \/ functioncode = 4 ->
  0 <= registeraddress <= 65535 -> 1 <= numberOfRegisters <= 255 ->
  Z.of_nat (length data) = 2 * numberOfRegisters ->
  let request :=
    frame (address self) functioncode
      [registeraddress / 256; registeraddress mod 256;
       numberOfRegisters / 256; numberOfRegisters mod 256] in
  echo_ok self request w = true ->
  response_on_line self w
    = frame (address self) functioncode (2 * numberOfRegisters :: data) ->
  let run := read_registers rt self registeraddress numberOfRegisters functioncode w in
  fst run = Ok (VList (map VInt (registers_of_bytes data)))
  /\ length (registers_of_bytes data) = Z.to_nat numberOfRegisters
  /\ writes (trace (snd run)) = writes (trace w) ++ [(port self, request)].
Proof.
  intros Hv Hmsp Hf Ha Hn Hlen request Hecho Hline run.
  assert (Hfc : 1 <= functioncode <= 127) by (destruct Hf as [-> | ->]; lia).
  destruct (bytearrayToValuelist_registers data numberOfRegisters ltac:(lia) Hlen)
    as [Hdec Hcount].
  subst run. rewrite (read_registers_run rt self _ _ _ w Hf Ha Hn). cbv zeta. cbn [fst snd].
  rewrite (performCommand_fst _ _ _ _ w Hv Hfc Hmsp).
  rewrite (performCommand_snd _ _ _ _ w Hv Hfc Hmsp).
  split; [|split; [exact Hcount|]].
  - rewrite (communicate_outcome_answer _ _ _ _ _
               (frame (address self) functioncode (2 * numberOfRegisters :: data)) Hecho);
      [| |discriminate].
    + cbn [mbind result_bind].
      rewrite (extractPayload_validate (Bytes _)) by (exact I || apply Hv || exact Hfc).
      cbn [buf_data]. rewrite (validate_frame _ _ _ Hfc). cbn [reported mbind result_bind].
      rewrite (check_read_registers rt _ _ _ _ Hf).
      assert (Hcount_ok : _checkResponseByteCount (ByteArray (2 * numberOfRegisters :: data))
                          = Ok tt).
      { apply checkResponseByteCount_iff. exists data. rewrite Hlen. reflexivity. }
      rewrite Hcount_ok. cbn [mbind result_bind]. rewrite slice_from_1.
      unfold buf_len. cbn [buf_data]. rewrite Hlen.
      replace (2 * numberOfRegisters =? numberOfRegisters * 2) with true
        by (symmetry; apply Z.eqb_eq; lia).
      cbn [negb]. exact Hdec.
    + rewrite <- Hline. apply answer_read_whole. rewrite Hline, frame_length.
      rewrite (read_size self _ _ _ (proj2 Hv) Hf) by lia. cbn [length].
      destruct (precalculate_read_size self); lia.
  - rewrite communicate_outcome_trace, writes_app, writes_exchange. reflexivity.
Qed.

(** X17 on the default instrument at address 1 reading one register at
    address 0, the slave answering 01 03 02 00 2A 39 9B. *)
Lemma X17_witness :
  fst (read_registers strict_runtime (Instrument_init 1 1) 0 1 3
         (mkWorld [100; 101; 105] [[0x01; 0x03; 0x02; 0x00; 0x2A; 0x39; 0x9B]] ∅ []))
    = Ok (VList (map VInt (registers_of_bytes [0x00; 0x2A])))
  /\ length (registers_of_bytes [0x00; 0x2A]) = Z.to_nat 1
  /\ writes (trace (snd (read_registers strict_runtime (Instrument_init 1 1) 0 1 3
         (mkWorld [100; 101; 105] [[0x01; 0x03; 0x02; 0x00; 0x2A; 0x39; 0x9B]] ∅ []))))
     = writes [] ++ [(1, frame 1 3 [0 / 256; 0 mod 256; 1 / 256; 1 mod 256])].
Proof.
  apply (X17_read_registers_returns strict_runtime (Instrument_init 1 1) 0 1 3
           (S754_finite false 4515327751400107 (-50)) [0x00; 0x2A]
           (mkWorld [100; 101; 105] [[0x01; 0x03; 0x02; 0x00; 0x2A; 0x39; 0x9B]] ∅ [])).
  - split; [cbn; lia|reflexivity].
  - exact default_silent_period.
  - left. reflexivity.
  - lia.
  - lia.
  - reflexivity.
  - reflexivity.
  - vm_compute. reflexivity.
Defined.

(** X18: when the slave answers a read of registers with an exception
    response (its address, the function code with bit 7 set, one exception
    code and the checksum), [read_registers] raises the [ValueError] of a
    slave-reported error, whatever the exception code. *)
Theorem X18_read_registers_slave_exception rt self registeraddress numberOfRegisters
    functioncode minimum_silent_period exceptioncode w :
  valid_instrument self ->
  _calculate_minimum_silent_period (baudrate self) = Ok minimum_silent_period ->
  functioncode = 3 \/ functioncode = 4 ->
  0 <= registeraddress <= 65535 -> 1 <= numberOfRegisters <= 255 ->
  let request :=
    frame (address self) functioncode
      [registeraddress / 256; registeraddress mod 256;
       numberOfRegisters / 256; numberOfRegisters mod 256] in
  echo_ok self request w = true ->
  response_on_line self w = frame (address self) (functioncode + 128) [exceptioncode] ->
  fst (read_registers rt self registeraddress numberOfRegisters functioncode w)
  = Raise (ValueError "The slave is indicating an error").
Proof.
  intros Hv Hmsp Hf Ha Hn request Hecho Hline.
  assert (Hfc : 1 <= functioncode <= 127) by (destruct Hf as [-> | ->]; lia).
  rewrite (read_registers_run rt self _ _ _ w Hf Ha Hn). cbv zeta. cbn [fst snd].
  rewrite (performCommand_fst _ _ _ _ w Hv Hfc Hmsp).
  rewrite (communicate_outcome_answer _ _ _ _ _
             (frame (address self) (functioncode + 128) [exceptioncode]) Hecho);
    [| |discriminate].
  - cbn [mbind result_bind].
    rewrite (extractPayload_validate (Bytes _)) by (exact I || apply Hv || exact Hfc).
    cbn [buf_data]. rewrite validate_frame_header, Z.eqb_refl. cbn [negb].
    replace (functioncode + 128 =? Z.setbit functioncode 7) with true
      by (destruct Hf as [-> | ->]; reflexivity).
    reflexivity.
  - rewrite <- Hline. apply answer_read_whole. rewrite Hline, frame_length.
    rewrite (read_size self _ _ _ (proj2 Hv) Hf) by lia. cbn [length].
    destruct (precalculate_read_size self); lia.
Qed.

(** X18 on the default instrument at address 1: the slave answers
    01 83 02 C0 F1, the exception 2 to function code 3. *)
Lemma X18_witness :
  fst (read_registers strict_runtime (Instrument_init 1 1) 0 1 3
         (mkWorld [100; 101; 105] [[0x01; 0x83; 0x02; 0xC0; 0xF1]] ∅ []))
  = Raise (ValueError "The slave is indicating an error").
Proof.
  apply (X18_read_registers_slave_exception strict_runtime (Instrument_init 1 1) 0 1 3
           (S754_finite false 4515327751400107 (-50)) 0x02
           (mkWorld [100; 101; 105] [[0x01; 0x83; 0x02; 0xC0; 0xF1]] ∅ [])).
  - split; [cbn; lia|reflexivity].
  - exact default_silent_period.
  - left. reflexivity.
  - lia.
  - lia.
  - reflexivity.
  - vm_compute. reflexivity.
Defined.

Lemma communicate_outcome_ok self request size minimum_silent_period w response :
  fst (communicate_outcome self request size minimum_silent_period w) = Ok response ->
  response = Bytes (answer_read self size w).
Proof.
  unfold communicate_outcome.
  destruct (echo_ok self request w); cbn [fst]; [|discriminate].
  destruct (length (answer_read self size w) =? 0)%nat; [discriminate|].
  intros [= <-]. reflexivity.
Qed.

Lemma frame_payload_bytes slaveaddress functioncode payload :
  Forall is_byte (frame slaveaddress functioncode payload) -> Forall is_byte payload.
Proof.
  unfold frame. cbv zeta. intros H. apply Forall_app in H as [H _].
  inversion H as [|? ? _ H1]; subst. inversion H1 as [|? ? _ H2]; subst. exact H2.
Qed.

(** What [_performCommand] returns from a line of bytes is a [bytearray]
    of bytes; the answer read was its frame. *)
Lemma performCommand_payload self functioncode payload minimum_silent_period w payloadFromSlave :
  valid_instrument self -> 1 <= functioncode <= 127 ->
  _calculate_minimum_silent_period (baudrate self) = Ok minimum_silent_period ->
  fst (_performCommand self functioncode (ByteArray payload) w) = Ok payloadFromSlave ->
  exists received,
    payloadFromSlave = ByteArray received
    /\ answer_read self (number_of_bytes_to_read_for self functioncode (ByteArray payload)) w
       = frame (address self) functioncode received.
Proof.
  intros Hv Hf Hmsp. rewrite (performCommand_fst _ _ _ _ w Hv Hf Hmsp).
  destruct (fst (communicate_outcome _ _ _ _ _)) as [response|e] eqn:Hco;
    cbn [mbind result_bind]; [|discriminate].
  apply communicate_outcome_ok in Hco. subst response.
  rewrite (extractPayload_validate (Bytes _)) by (exact I || apply Hv || exact Hf).
  cbn [buf_data].
  destruct (validate _ _ _) as [| | | | |received] eqn:Hval; try discriminate.
  intros [= <-]. exists received. split; [reflexivity|].
  apply validate_payload_frame, Hval.
Qed.

Lemma answer_read_bytes self size w :
  Forall is_byte (response_on_line self w) -> Forall is_byte (answer_read self size w).
Proof. intros H. unfold answer_read. apply Forall_take, H. Qed.

(** X19: [read_registers] accepts a count of up to 255 registers, but for
    a count above 127 no response made of bytes passes its checks: the byte
    count of the response, a single byte, would have to be twice the count.
    Whatever bytes the line delivers, the call raises. *)
Theorem X19_read_above_127_registers_raises rt self registeraddress numberOfRegisters
    functioncode minimum_silent_period w :
  valid_instrument self ->
  _calculate_minimum_silent_period (baudrate self) = Ok minimum_silent_period ->
  functioncode = 3 \/ functioncode = 4 ->
  0 <= registeraddress <= 65535 -> 128 <= numberOfRegisters <= 255 ->
  Forall is_byte (response_on_line self w) ->
  exists e,
    fst (read_registers rt self registeraddress numberOfRegisters functioncode w) = Raise e.
Proof.
  intros Hv Hmsp Hf Ha Hn Hbytes.
  assert (Hfc : 1 <= functioncode <= 127) by (destruct Hf as [-> | ->]; lia).
  assert (Hn1 : 1 <= numberOfRegisters <= 255) by lia.
  rewrite (read_registers_run rt self _ _ _ w Hf Ha Hn1). cbv zeta. cbn [fst snd].
  destruct (fst (_performCommand self functioncode _ w)) as [payloadFromSlave|e] eqn:Hrun;
    cbn [mbind result_bind]; [|eexists; reflexivity].
  destruct (performCommand_payload _ _ _ _ _ _ Hv Hfc Hmsp Hrun) as (received & -> & Hans).
  assert (Hrec : Forall is_byte received).
  { apply (frame_payload_bytes (address self) functioncode). rewrite <- Hans.
    apply answer_read_bytes, Hbytes. }
  rewrite (check_read_registers rt _ _ _ _ Hf).
  destruct (_checkResponseByteCount (ByteArray received)) as [[]|e] eqn:Hcount;
    cbn [mbind result_bind]; [|eexists; reflexivity].
  apply checkResponseByteCount_iff in Hcount as [rest ->].
  rewrite slice_from_1. unfold buf_len. cbn [buf_data].
  destruct (Z.eqb_spec (Z.of_nat (length rest)) (numberOfRegisters * 2)) as [E|E];
    cbn [negb]; [|eexists; reflexivity].
  exfalso. inversion Hrec as [|? ? Hb _]; subst. unfold is_byte in Hb. lia.
Qed.

(** X19 on a read of 128 registers by the default instrument at address 1,
    the line holding 01 03 FF 00 00. *)
Lemma X19_witness :
  exists e,
    fst (read_registers strict_runtime (Instrument_init 1 1) 0 128 3
           (mkWorld [100; 101; 105] [[0x01; 0x03; 0xFF; 0x00; 0x00]] ∅ [])) = Raise e.
Proof.
  apply (X19_read_above_127_registers_raises strict_runtime (Instrument_init 1 1) 0 128 3
           (S754_finite false 4515327751400107 (-50))
           (mkWorld [100; 101; 105] [[0x01; 0x03; 0xFF; 0x00; 0x00]] ∅ [])).
  - split; [cbn; lia|reflexivity].
  - exact default_silent_period.
  - left. reflexivity.
  - lia.
  - lia.
  - repeat (apply Forall_cons; split; [unfold is_byte; lia|]). apply Forall_nil. exact I.
Defined.

(** ** Writing registers, end to end *)

Lemma word_bytes_unique hi lo v :
  is_byte hi -> is_byte lo -> hi * 256 + lo = v -> hi = v / 256 /\ lo = v mod 256.
Proof.
  unfold is_byte. intros Hh Hl <-. split.
  - apply (Z.div_unique _ 256 hi lo); lia.
  - apply (Z.mod_unique _ 256 hi lo); lia.
Qed.

Lemma word_of_bytes v : v / 256 * 256 + v mod 256 = v.
Proof. pose proof (Z.div_mod v 256 ltac:(lia)). lia. Qed.

Lemma write_size self functioncode a0 a1 a2 a3 rest :
  mode self = "rtu" -> precalculate_read_size self = true ->
  functioncode = 6 \/ functioncode = 16 ->
  number_of_bytes_to_read_for self functioncode (ByteArray (a0 :: a1 :: a2 :: a3 :: rest)) = 8.
Proof.
  intros Hm Hp Hf. unfold number_of_bytes_to_read_for. rewrite Hm, Hp.
  rewrite predictResponseSize_cases by (destruct Hf as [-> | ->]; lia).
  destruct Hf as [-> | ->]; reflexivity.
Qed.

(** A transaction whose response is read with the size 8 and checked by
    [check], itself satisfied by one payload of four bytes only. *)
Lemma write_transaction self functioncode a0 a1 a2 a3 rest minimum_silent_period w
    (check : pybuf -> result pyvalue) confirmation :
  valid_instrument self -> precalculate_read_size self = true ->
  _calculate_minimum_silent_period (baudrate self) = Ok minimum_silent_period ->
  functioncode = 6 \/ functioncode = 16 ->
  echo_ok self (frame (address self) functioncode (a0 :: a1 :: a2 :: a3 :: rest)) w = true ->
  Forall is_byte (response_on_line self w) ->
  length confirmation = 4%nat ->
  (forall received,
     Forall is_byte received -> (length received <= 4)%nat ->
     (check (ByteArray received) = Ok VNone <-> received = confirmation)) ->
  (fst (_performCommand self functioncode (ByteArray (a0 :: a1 :: a2 :: a3 :: rest)) w)
     ≫= check) = Ok VNone
  <-> firstn 8 (response_on_line self w) = frame (address self) functioncode confirmation.
Proof.
  intros Hv Hpre Hmsp Hf Hecho Hbytes Hconf Hcheck.
  assert (Hfc : 1 <= functioncode <= 127) by (destruct Hf as [-> | ->]; lia).
  pose proof (write_size self functioncode a0 a1 a2 a3 rest (proj2 Hv) Hpre Hf) as Hsize.
  assert (Hans : answer_read self 8 w = firstn 8 (response_on_line self w)) by reflexivity.
  split.
  - destruct (fst (_performCommand self functioncode _ w)) as [pl|e] eqn:Hrun;
      cbn [mbind result_bind]; [|discriminate].
    destruct (performCommand_payload _ _ _ _ _ _ Hv Hfc Hmsp Hrun) as (received & -> & Hframe).
    rewrite Hsize, Hans in Hframe. intros Hok. rewrite Hframe.
    assert (Hrec : Forall is_byte received).
    { apply (frame_payload_bytes (address self) functioncode). rewrite <- Hframe.
      apply Forall_take, Hbytes. }
    assert (Hshort : (length received <= 4)%nat).
    { pose proof (frame_length (address self) functioncode received) as Hl.
      rewrite <- Hframe, length_take in Hl. lia. }
    apply (Hcheck received Hrec Hshort) in Hok. rewrite Hok. reflexivity.
  - intros Hline.
    rewrite (performCommand_fst _ _ _ _ w Hv Hfc Hmsp), Hsize.
    rewrite (communicate_outcome_answer _ _ _ _ _
               (frame (address self) functioncode confirmation) Hecho);
      [|rewrite Hans; exact Hline|discriminate].
    cbn [mbind result_bind].
    rewrite (extractPayload_validate (Bytes _)) by (exact I || apply Hv || exact Hfc).
    cbn [buf_data]. rewrite (validate_frame _ _ _ Hfc). cbn [reported mbind result_bind].
    apply Hcheck; [|lia|reflexivity].
    apply (frame_payload_bytes (address self) functioncode). rewrite <- Hline.
    apply Forall_take, Hbytes.
Qed.

(** The one request of a transaction with a valid instrument. *)
Lemma performCommand_writes self functioncode payload minimum_silent_period w :
  valid_instrument self -> 1 <= functioncode <= 127 ->
  _calculate_minimum_silent_period (baudrate self) = Ok minimum_silent_period ->
  writes (trace (snd (_performCommand self functioncode (ByteArray payload) w)))
  = writes (trace w) ++ [(port self, frame (address self) functioncode payload)].
Proof.
  intros Hv Hf Hmsp. rewrite (performCommand_snd _ _ _ _ w Hv Hf Hmsp).
  rewrite communicate_outcome_trace, writes_app, writes_exchange. reflexivity.
Qed.

Lemma checkInt_decimals_ok numberOfDecimals :
  0 <= numberOfDecimals ->
  _checkInt (VInt numberOfDecimals) (Some 0) None "number of decimals" = Ok tt.
Proof.
  intros H. unfold _checkInt, _checkNumerical. cbn [num_lt_Z num_gt_Z mbind result_bind].
  case_ltb. reflexivity.
Qed.

Lemma encoded_is_numerical value numberOfDecimals LsbFirst signed outstring :
  _numToTwoByteArray value numberOfDecimals LsbFirst signed = Ok outstring ->
  is_numerical value.
Proof. destruct value; try discriminate; intros _; exact I. Qed.

Lemma checkNumerical_unbounded value description :
  is_numerical value -> _checkNumerical value None None description = Ok tt.
Proof. destruct value; try contradiction; reflexivity. Qed.

(** What [_genericCommand] builds for [write_register]. *)
Lemma build_write_register rt functioncode registeraddress value numberOfDecimals b0 b1 :
  functioncode = 6 \/ functioncode = 16 ->
  0 <= registeraddress <= 65535 -> 0 <= numberOfDecimals ->
  _numToTwoByteArray value numberOfDecimals false false = Ok (ByteArray [b0; b1]) ->
  build_payloadToSlave rt functioncode registeraddress value numberOfDecimals 1 false None
  = Ok (ByteArray (write_register_payload functioncode registeraddress b0 b1),
        Some "register").
Proof.
  intros Hf Ha Hd Henc. pose proof (encoded_is_numerical _ _ _ _ _ Henc) as Hnum.
  unfold build_payloadToSlave.
  rewrite (checkRegisteraddress_ok _ Ha), (checkInt_decimals_ok _ Hd).
  rewrite (checkNumerical_unbounded value "input value" Hnum).
  rewrite Henc, !numToTwoByteArray_msb by lia.
  destruct value; try contradiction;
    destruct Hf as [-> | ->]; destruct (0 <? numberOfDecimals); reflexivity.
Qed.

Lemma check_write_register rt functioncode registeraddress value numberOfDecimals
    payloadFromSlave :
  functioncode = 6 \/ functioncode = 16 ->
  check_payloadFromSlave rt functioncode registeraddress value numberOfDecimals 1 false
    (Some "register") payloadFromSlave
  = (_checkResponseRegisterAddress payloadFromSlave registeraddress ;;
     (if functioncode =? 6
      then writedata ← _numToTwoByteArray value numberOfDecimals false false ;
           _checkResponseWriteData payloadFromSlave writedata
      else _checkResponseNumberOfRegisters payloadFromSlave 1) ;;
     Ok VNone).
Proof.
  intros [-> | ->]; unfold check_payloadFromSlave;
    cbn [when Z_in existsb Z.eqb Pos.eqb orb mbind result_bind].
  - destruct (_checkResponseRegisterAddress _ _) as [[]|e]; cbn [mbind result_bind];
      [|reflexivity].
    destruct (_ ≫= _) as [[]|e]; reflexivity.
  - destruct (_checkResponseRegisterAddress _ _) as [[]|e]; cbn [mbind result_bind];
      [|reflexivity].
    destruct (_checkResponseNumberOfRegisters _ _) as [[]|e]; reflexivity.
Qed.

Lemma write_register_confirmed rt functioncode registeraddress value numberOfDecimals b0 b1
    received :
  functioncode = 6 \/ functioncode = 16 ->
  0 <= registeraddress <= 65535 ->
  _numToTwoByteArray value numberOfDecimals false false = Ok (ByteArray [b0; b1]) ->
  Forall is_byte received -> (length received <= 4)%nat ->
  check_payloadFromSlave rt functioncode registeraddress value numberOfDecimals 1 false
    (Some "register") (ByteArray received) = Ok VNone
  <-> received = write_register_confirmation functioncode registeraddress b0 b1.
Proof.
  intros Hf Ha Henc Hbytes Hshort. rewrite (check_write_register rt _ _ _ _ _ Hf).
  unfold write_register_confirmation, address_and_word. split.
  - destruct (_checkResponseRegisterAddress _ _) as [[]|e] eqn:Haddr;
      cbn [mbind result_bind]; [|discriminate].
    apply checkResponseRegisterAddress_iff in Haddr as (_ & hi & lo & rest & -> & Hword).
    inversion Hbytes as [|? ? Hhi Hb1]; subst. inversion Hb1 as [|? ? Hlo Hb2]; subst.
    destruct (word_bytes_unique hi lo _ Hhi Hlo eq_refl) as [Eh El].
    destruct Hf as [-> | ->]; cbn [Z.eqb Pos.eqb].
    + rewrite Henc. cbn [mbind result_bind].
      destruct (_checkResponseWriteData _ _) as [[]|e] eqn:Hdata; [|discriminate].
      apply checkResponseWriteData_iff in Hdata
        as (a0 & a1 & h & l & rest' & [= <- <- ->] & [= -> ->]).
      intros _. destruct rest'; [|cbn [length] in Hshort; lia].
      rewrite <- Eh, <- El. reflexivity.
    + destruct (_checkResponseNumberOfRegisters _ _) as [[]|e] eqn:Hnum; [|discriminate].
      apply checkResponseNumberOfRegisters_iff in Hnum
        as (_ & a0 & a1 & h & l & rest' & [= <- <- ->] & Hone).
      intros _. destruct rest'; [|cbn [length] in Hshort; lia].
      inversion Hb2 as [|? ? Hh Hb3]; subst. inversion Hb3 as [|? ? Hl _]; subst.
      destruct (word_bytes_unique h l 1 Hh Hl Hone) as [-> ->].
      rewrite <- Eh, <- El. reflexivity.
  - intros ->.
    assert (Haddr : forall rest,
              _checkResponseRegisterAddress
                (ByteArray (registeraddress / 256 :: registeraddress mod 256 :: rest))
                registeraddress = Ok tt).
    { intros rest. apply checkResponseRegisterAddress_iff. split; [exact Ha|].
      eexists _, _, _. split; [reflexivity|apply word_of_bytes]. }
    destruct Hf as [-> | ->]; cbn [Z.eqb Pos.eqb]; rewrite Haddr; cbn [mbind result_bind].
    + rewrite Henc. cbn [mbind result_bind].
      assert (Hdata : _checkResponseWriteData
                        (ByteArray [registeraddress / 256; registeraddress mod 256; b0; b1])
                        (ByteArray [b0; b1]) = Ok tt).
      { apply checkResponseWriteData_iff. eexists _, _, _, _, _. split; reflexivity. }
      rewrite Hdata. reflexivity.
    + assert (Hnum : _checkResponseNumberOfRegisters
                       (ByteArray [registeraddress / 256; registeraddress mod 256;
                                   1 / 256; 1 mod 256]) 1 = Ok tt).
      { apply checkResponseNumberOfRegisters_iff. split; [lia|].
        eexists _, _, _, _, _. split; reflexivity. }
      rewrite Hnum. reflexivity.
Qed.

Lemma write_register_run rt self functioncode registeraddress value numberOfDecimals b0 b1 w :
  functioncode = 6 \/ functioncode = 16 ->
  0 <= registeraddress <= 65535 -> 0 <= numberOfDecimals <= 10 ->
  _numToTwoByteArray value numberOfDecimals false false = Ok (ByteArray [b0; b1]) ->
  let payloadToSlave :=
    ByteArray (write_register_payload functioncode registeraddress b0 b1) in
  write_register rt self registeraddress value numberOfDecimals functioncode false w
  = ((fst (_performCommand self functioncode payloadToSlave w) ≫=
        check_payloadFromSlave rt functioncode registeraddress value numberOfDecimals 1
          false (Some "register")) ≫= (fun _ => Ok VNone),
     snd (_performCommand self functioncode payloadToSlave w)).
Proof.
  intros Hf Ha Hd Henc payloadToSlave. unfold write_register.
  assert (H1 : _checkFunctioncode functioncode (Some [6; 16]) = Ok tt)
    by (destruct Hf as [-> | ->]; reflexivity).
  assert (H2 : _checkInt (VInt numberOfDecimals) (Some 0) (Some 10) "number of decimals"
               = Ok tt).
  { unfold _checkInt, _checkNumerical. cbn [num_lt_Z num_gt_Z mbind result_bind].
    case_ltb. reflexivity. }
  rewrite H1, H2, (checkNumerical_unbounded value "input value"
                     (encoded_is_numerical _ _ _ _ _ Henc)).
  unfold mbind at 1 2 3 4, M_bind, lift.
  assert (Hd0 : 0 <= numberOfDecimals) by lia.
  rewrite (genericCommand_run rt self _ _ _ _ _ _ _ _ _ w
             (build_write_register rt _ _ _ _ _ _ Hf Ha Hd0 Henc)).
  fold payloadToSlave.
  destruct (fst (_performCommand self functioncode payloadToSlave w)) as [pl|e];
    cbn [mbind result_bind]; [|reflexivity].
  destruct (check_payloadFromSlave _ _ _ _ _ _ _ _ _) as [v|e]; reflexivity.
Qed.

(** X20: [write_register] with a valid instrument that precalculates the
    read size, for function code 6 or 16 and a value that encodes to the
    bytes [b0 b1].  It writes one request: for function code 6 the frame of
    address and value, for function code 16 the frame of address, quantity
    1, byte count 2 and value.  On a line of bytes it returns normally
    exactly when the first eight bytes read are the confirmation: the echo
    of the request for function code 6, the frame of address and quantity 1
    for function code 16. *)
Theorem X20_write_register_confirmed rt self functioncode registeraddress value
    numberOfDecimals b0 b1 minimum_silent_period w :
  valid_instrument self -> precalculate_read_size self = true ->
  _calculate_minimum_silent_period (baudrate self) = Ok minimum_silent_period ->
  functioncode = 6 \/ functioncode = 16 ->
  0 <= registeraddress <= 65535 -> 0 <= numberOfDecimals <= 10 ->
  _numToTwoByteArray value numberOfDecimals false false = Ok (ByteArray [b0; b1]) ->
  let request :=
    frame (address self) functioncode
      (write_register_payload functioncode registeraddress b0 b1) in
  let confirmation :=
    frame (address self) functioncode
      (write_register_confirmation functioncode registeraddress b0 b1) in
  echo_ok self request w = true ->
  Forall is_byte (response_on_line self w) ->
  let run := write_register rt self registeraddress value numberOfDecimals functioncode
               false w in
  writes (trace (snd run)) = writes (trace w) ++ [(port self, request)]
  /\ (fst run = Ok VNone <-> firstn 8 (response_on_line self w) = confirmation).
Proof.
  intros Hv Hpre Hmsp Hf Ha Hd Henc request confirmation Hecho Hbytes run.
  assert (Hfc : 1 <= functioncode <= 127) by (destruct Hf as [-> | ->]; lia).
  subst run. rewrite (write_register_run rt self _ _ _ _ _ _ w Hf Ha Hd Henc).
  cbv zeta. cbn [fst snd]. split; [apply (performCommand_writes _ _ _ _ _ Hv Hfc Hmsp)|].
  subst request confirmation.
  assert (Hshape : exists a0 a1 a2 a3 rest,
            write_register_payload functioncode registeraddress b0 b1
            = a0 :: a1 :: a2 :: a3 :: rest).
  { unfold write_register_payload, address_and_word.
    destruct Hf as [-> | ->]; cbn [Z.eqb Pos.eqb app]; eexists _, _, _, _, _; reflexivity. }
  destruct Hshape as (a0 & a1 & a2 & a3 & rest & Hshape). rewrite Hshape in *.
  rewrite <- (write_transaction self functioncode a0 a1 a2 a3 rest minimum_silent_period w
                (check_payloadFromSlave rt functioncode registeraddress value
                   numberOfDecimals 1 false (Some "register"))
                (write_register_confirmation functioncode registeraddress b0 b1)
                Hv Hpre Hmsp Hf Hecho Hbytes).
  - destruct (fst (_performCommand self functioncode _ w)) as [pl|e];
      cbn [mbind result_bind]; [|split; discriminate].
    rewrite (check_write_register rt _ _ _ _ _ Hf).
    destruct (_checkResponseRegisterAddress pl registeraddress) as [[]|e];
      cbn [mbind result_bind]; [|split; discriminate].
    destruct (if functioncode =? 6 then _ else _) as [[]|e];
      cbn [mbind result_bind]; split; (reflexivity || discriminate).
  - unfold write_register_confirmation, address_and_word.
    destruct (functioncode =? 6); reflexivity.
  - intros received Hrec Hshort.
    apply (write_register_confirmed rt _ _ _ _ _ _ _ Hf Ha Henc Hrec Hshort).
Qed.

(** X20 on the default instrument at address 1 writing 5 to register 0
    with function code 6, the slave echoing 01 06 00 00 00 05 49 C9. *)
Lemma X20_witness :
  writes (trace (snd (write_register lenient_runtime (Instrument_init 1 1) 0 (VInt 5) 0 6
                        false register_echo_world)))
    = writes (trace register_echo_world)
      ++ [(port (Instrument_init 1 1),
           frame (address (Instrument_init 1 1)) 6 (write_register_payload 6 0 0 5))]
  /\ (fst (write_register lenient_runtime (Instrument_init 1 1) 0 (VInt 5) 0 6 false
             register_echo_world) = Ok VNone
      <-> firstn 8 (response_on_line (Instrument_init 1 1) register_echo_world)
          = frame (address (Instrument_init 1 1)) 6 (write_register_confirmation 6 0 0 5)).
Proof.
  apply (X20_write_register_confirmed lenient_runtime (Instrument_init 1 1) 6 0 (VInt 5) 0
           0 5 (S754_finite false 4515327751400107 (-50)) register_echo_world).
  - split; [cbn; lia|reflexivity].
  - reflexivity.
  - exact default_silent_period.
  - left. reflexivity.
  - lia.
  - lia.
  - vm_compute. reflexivity.
  - reflexivity.
  - repeat (apply Forall_cons; split; [unfold is_byte; lia|]). apply Forall_nil. exact I.
Defined.

(** *** Lists of registers *)

Lemma build_write_registers_eq rt registeraddress l numberOfRegisters :
  build_payloadToSlave rt 16 registeraddress (VList l) 0 numberOfRegisters false
    (Some "registers")
  = (_checkRegisteraddress registeraddress ;;
     _checkInt (VInt numberOfRegisters) (Some 1) (Some 255) "number of registers" ;;
     when (negb (Z.of_nat (length l) =? numberOfRegisters))
       (Raise (ValueError "The list length does not match number of registers")) ;;
     payloadToSlave ←
       (registerdata ← _valuelistToBytestring rt (VList l) numberOfRegisters ;
        (if buf_len registerdata =? numberOfRegisters * 2
         then Ok tt else Raise AssertionError) ;;
        a ← _numToTwoByteArray (VInt registeraddress) 0 false false ;
        b ← _numToTwoByteArray (VInt numberOfRegisters) 0 false false ;
        ab ← py_add rt a b ;
        c ← _numToOneByteArray (numberOfRegisters * 2) ;
        abc ← py_add rt ab c ;
        py_add rt abc registerdata) ;
     Ok (payloadToSlave, Some "registers")).
Proof. reflexivity. Qed.

Lemma build_write_registers rt registeraddress values :
  (forall b, mixed_add rt (Str []) (ByteArray b) = Ok (ByteArray b)) ->
  0 <= registeraddress <= 65535 ->
  values <> [] -> (length values <= 127)%nat ->
  Forall (fun v => 0 <= v <= 65535) values ->
  build_payloadToSlave rt 16 registeraddress (VList (map VInt values)) 0
    (Z.of_nat (length values)) false (Some "registers")
  = Ok (ByteArray (write_registers_payload registeraddress values), Some "registers").
Proof.
  intros Hrt Ha Hne Hlen Hall.
  assert (Hn : 1 <= Z.of_nat (length values)) by (destruct values; [contradiction|cbn; lia]).
  rewrite build_write_registers_eq.
  rewrite (checkRegisteraddress_ok _ Ha), checkInt_registers_ok by lia.
  rewrite length_map, Z.eqb_refl. cbn [negb when mbind result_bind].
  rewrite (valuelistToBytestring_registers rt values Hrt Hne Hall). cbn [mbind result_bind].
  unfold buf_len. cbn [buf_data]. rewrite bytes_of_registers_length.
  replace (Z.of_nat (2 * length values) =? Z.of_nat (length values) * 2) with true
    by (symmetry; apply Z.eqb_eq; lia).
  cbn [mbind result_bind].
  rewrite !numToTwoByteArray_msb, numToOneByteArray_ok by lia.
  cbn [mbind result_bind py_add]. unfold write_registers_payload, address_and_word.
  rewrite <- !app_assoc. reflexivity.
Qed.

Lemma check_write_registers rt registeraddress value numberOfDecimals numberOfRegisters
    payloadformat payloadFromSlave :
  check_payloadFromSlave rt 16 registeraddress value numberOfDecimals numberOfRegisters
    false payloadformat payloadFromSlave
  = (_checkResponseRegisterAddress payloadFromSlave registeraddress ;;
     _checkResponseNumberOfRegisters payloadFromSlave numberOfRegisters ;;
     Ok VNone).
Proof.
  unfold check_payloadFromSlave.
  cbn [when Z_in existsb Z.eqb Pos.eqb orb mbind result_bind].
  destruct (_checkResponseRegisterAddress _ _) as [[]|e]; cbn [mbind result_bind];
    [|reflexivity].
  destruct (_checkResponseNumberOfRegisters _ _) as [[]|e]; reflexivity.
Qed.

Lemma address_and_word_confirmed registeraddress numberOfRegisters received :
  0 <= registeraddress <= 65535 -> 1 <= numberOfRegisters <= 65535 ->
  Forall is_byte received -> (length received <= 4)%nat ->
  (_checkResponseRegisterAddress (ByteArray received) registeraddress ;;
   _checkResponseNumberOfRegisters (ByteArray received) numberOfRegisters ;;
   Ok VNone) = Ok VNone
  <-> received = address_and_word registeraddress numberOfRegisters.
Proof.
  intros Ha Hn Hbytes Hshort. unfold address_and_word. split.
  - destruct (_checkResponseRegisterAddress _ _) as [[]|e] eqn:Haddr;
      cbn [mbind result_bind]; [|discriminate].
    apply checkResponseRegisterAddress_iff in Haddr as (_ & hi & lo & rest & -> & Hword).
    inversion Hbytes as [|? ? Hhi Hb1]; subst. inversion Hb1 as [|? ? Hlo Hb2]; subst.
    destruct (word_bytes_unique hi lo _ Hhi Hlo eq_refl) as [Eh El].
    destruct (_checkResponseNumberOfRegisters _ _) as [[]|e] eqn:Hnum; [|discriminate].
    apply checkResponseNumberOfRegisters_iff in Hnum
      as (_ & a0 & a1 & h & l & rest' & [= <- <- ->] & Hq).
    intros _. destruct rest'; [|cbn [length] in Hshort; lia].
    inversion Hb2 as [|? ? Hh Hb3]; subst. inversion Hb3 as [|? ? Hl _]; subst.
    destruct (word_bytes_unique h l _ Hh Hl eq_refl) as [Eh' El'].
    rewrite <- Eh, <- El, <- Eh', <- El'. reflexivity.
  - intros ->.
    assert (Haddr : _checkResponseRegisterAddress
              (ByteArray [registeraddress / 256; registeraddress mod 256;
                          numberOfRegisters / 256; numberOfRegisters mod 256])
              registeraddress = Ok tt).
    { apply checkResponseRegisterAddress_iff. split; [exact Ha|].
      eexists _, _, _. split; [reflexivity|apply word_of_bytes]. }
    assert (Hnum : _checkResponseNumberOfRegisters
              (ByteArray [registeraddress / 256; registeraddress mod 256;
                          numberOfRegisters / 256; numberOfRegisters mod 256])
              numberOfRegisters = Ok tt).
    { apply checkResponseNumberOfRegisters_iff. split; [exact Hn|].
      eexists _, _, _, _, _. split; [reflexivity|apply word_of_bytes]. }
    rewrite Haddr, Hnum. reflexivity.
Qed.

(** X21: [write_registers] on a runtime where adding a [bytearray] to the
    empty [str] gives the [bytearray], with a valid instrument that
    precalculates the read size, for a list of 1 to 127 integers in
    [0, 65535].  It writes one request with function code 16: the address,
    the number of values, the byte count and the values' bytes.  On a line
    of bytes it returns normally exactly when the first eight bytes read
    are the frame of the address and the number of values. *)
Theorem X21_write_registers_confirmed rt self registeraddress values
    minimum_silent_period w :
  (forall b, mixed_add rt (Str []) (ByteArray b) = Ok (ByteArray b)) ->
  valid_instrument self -> precalculate_read_size self = true ->
  _calculate_minimum_silent_period (baudrate self) = Ok minimum_silent_period ->
  0 <= registeraddress <= 65535 ->
  values <> [] -> (length values <= 127)%nat ->
  Forall (fun v => 0 <= v <= 65535) values ->
  let request :=
    frame (address self) 16 (write_registers_payload registeraddress values) in
  let confirmation :=
    frame (address self) 16
      (address_and_word registeraddress (Z.of_nat (length values))) in
  echo_ok self request w = true ->
  Forall is_byte (response_on_line self w) ->
  let run := write_registers rt self registeraddress (VList (map VInt values)) w in
  writes (trace (snd run)) = writes (trace w) ++ [(port self, request)]
  /\ (fst run = Ok VNone <-> firstn 8 (response_on_line self w) = confirmation).
Proof.
  intros Hrt Hv Hpre Hmsp Ha Hne Hlen Hall request confirmation Hecho Hbytes run.
  assert (Hn : 1 <= Z.of_nat (length values)) by (destruct values; [contradiction|cbn; lia]).
  assert (Hrun : run
    = ((fst (_performCommand self 16
               (ByteArray (write_registers_payload registeraddress values)) w) ≫=
          check_payloadFromSlave rt 16 registeraddress (VList (map VInt values)) 0
            (Z.of_nat (length values)) false (Some "registers")) ≫= (fun _ => Ok VNone),
       snd (_performCommand self 16
              (ByteArray (write_registers_payload registeraddress values)) w))).
  { subst run. unfold write_registers. rewrite length_map.
    assert (H1 : _checkInt (VInt (Z.of_nat (length values))) (Some 1) None
                   "length of input list" = Ok tt).
    { unfold _checkInt, _checkNumerical. cbn [num_lt_Z num_gt_Z mbind result_bind].
      case_ltb. reflexivity. }
    rewrite H1. unfold mbind at 1 2, M_bind, lift.
    rewrite (genericCommand_run rt self _ _ _ _ _ _ _ _ _ w
               (build_write_registers rt _ _ Hrt Ha Hne Hlen Hall)).
    destruct (fst (_performCommand self 16 _ w)) as [pl|e];
      cbn [mbind result_bind]; [|reflexivity].
    destruct (check_payloadFromSlave _ _ _ _ _ _ _ _ _) as [v|e]; reflexivity. }
  rewrite Hrun. cbn [fst snd].
  assert (Hfc : 1 <= 16 <= 127) by lia.
  split; [apply (performCommand_writes _ _ _ _ _ Hv Hfc Hmsp)|].
  subst request confirmation. unfold write_registers_payload, address_and_word in *.
  cbn [app] in *.
  rewrite <- (write_transaction self 16 _ _ _ _ _ minimum_silent_period w
                (check_payloadFromSlave rt 16 registeraddress (VList (map VInt values)) 0
                   (Z.of_nat (length values)) false (Some "registers"))
                [registeraddress / 256; registeraddress mod 256;
                 Z.of_nat (length values) / 256; Z.of_nat (length values) mod 256]
                Hv Hpre Hmsp (or_intror eq_refl) Hecho Hbytes eq_refl).
  - destruct (fst (_performCommand self 16 _ w)) as [pl|e];
      cbn [mbind result_bind]; [|split; discriminate].
    rewrite check_write_registers.
    destruct (_checkResponseRegisterAddress pl registeraddress) as [[]|e];
      cbn [mbind result_bind]; [|split; discriminate].
    destruct (_checkResponseNumberOfRegisters pl _) as [[]|e];
      cbn [mbind result_bind]; split; (reflexivity || discriminate).
  - intros received Hrec Hshort. rewrite check_write_registers.
    apply (address_and_word_confirmed registeraddress (Z.of_nat (length values)) received);
      try assumption; lia.
Qed.

(** X21 on the default instrument at address 1 writing the values 42 and
    256 from register 0, the slave answering 01 10 00 00 00 02 41 C8. *)
Lemma X21_witness :
  let self := Instrument_init 1 1 in
  let w := mkWorld [100; 101; 105] [[0x01; 0x10; 0x00; 0x00; 0x00; 0x02; 0x41; 0xC8]] ∅ [] in
  writes (trace (snd (write_registers lenient_runtime self 0 (VList (map VInt [42; 256])) w)))
    = writes (trace w) ++ [(port self, frame (address self) 16 (write_registers_payload 0 [42; 256]))]
  /\ (fst (write_registers lenient_runtime self 0 (VList (map VInt [42; 256])) w) = Ok VNone
      <-> firstn 8 (response_on_line self w)
          = frame (address self) 16 (address_and_word 0 (Z.of_nat (length [42; 256])))).
Proof.
  apply (X21_write_registers_confirmed lenient_runtime (Instrument_init 1 1) 0 [42; 256]
           (S754_finite false 4515327751400107 (-50))
           (mkWorld [100; 101; 105] [[0x01; 0x10; 0x00; 0x00; 0x00; 0x02; 0x41; 0xC8]] ∅ [])).
  - intros b. reflexivity.
  - split; [cbn; lia|reflexivity].
  - reflexivity.
  - exact default_silent_period.
  - lia.
  - discriminate.
  - cbn. lia.
  - repeat (apply Forall_cons; split; [lia|]). apply Forall_nil. exact I.
  - reflexivity.
  - repeat (apply Forall_cons; split; [unfold is_byte; lia|]). apply Forall_nil. exact I.
Defined.

(** ** Calls that fail before anything is written *)

Ltac bind_raises :=
  lazymatch goal with
  | |- exists e, @mbind result _ _ _ _ ?r = Raise e =>
      destruct r as [?|?]; cbn [mbind result_bind]; [|eexists; reflexivity]
  end.

Ltac inner_raises :=
  lazymatch goal with
  | |- exists e, @mbind result _ _ _ _ ?r = Raise e =>
      let Hin := fresh "Hin" in
      assert (Hin : exists e, r = Raise e);
      [|let e0 := fresh "e" in destruct Hin as [e0 ->]; eexists; reflexivity]
  end.

Lemma genericCommand_build_raises rt self functioncode registeraddress value
    numberOfDecimals numberOfRegisters signed payloadformat e w :
  build_payloadToSlave rt functioncode registeraddress value numberOfDecimals
    numberOfRegisters signed payloadformat = Raise e ->
  _genericCommand rt self functioncode registeraddress value numberOfDecimals
    numberOfRegisters signed payloadformat w = (Raise e, w).
Proof. intros Hb. unfold _genericCommand. rewrite Hb. reflexivity. Qed.

Lemma write_registers_build_raises rt self registeraddress l w :
  (exists e, build_payloadToSlave rt 16 registeraddress (VList l) 0 (Z.of_nat (length l))
               false (Some "registers") = Raise e) ->
  exists e, write_registers rt self registeraddress (VList l) w = (Raise e, w).
Proof.
  intros [e Hb]. unfold write_registers.
  destruct (_checkInt (VInt (Z.of_nat (length l))) (Some 1) None "length of input list")
    as [[]|e1]; unfold mbind at 1 2, M_bind, lift; [|eexists; reflexivity].
  rewrite (genericCommand_build_raises _ _ _ _ _ _ _ _ _ _ w Hb). eexists. reflexivity.
Qed.

Lemma valuelistToBytestring_raises rt l numberOfRegisters :
  (forall b, exists e, mixed_add rt (Str []) b = Raise e) ->
  exists e, _valuelistToBytestring rt (VList l) numberOfRegisters = Raise e.
Proof.
  intros Hrt. unfold _valuelistToBytestring. cbv zeta.
  destruct (_checkInt (VInt numberOfRegisters) (Some 1) None "number of registers")
    as [[]|e1] eqn:H1; cbn [mbind result_bind]; [|eexists; reflexivity].
  bind_raises.
  destruct (_checkInt (VInt (Z.of_nat (length l))) (Some numberOfRegisters)
              (Some numberOfRegisters) "length of the list")
    as [[]|e3] eqn:H3; cbn [mbind result_bind]; [|eexists; reflexivity].
  apply checkInt_iff in H1 as [H1 _]. specialize (H1 1 eq_refl).
  apply checkInt_iff in H3 as [H3 _]. specialize (H3 _ eq_refl).
  destruct l as [|v rest]; [cbn [length] in H3; lia|].
  cbn [valuelist_concat].
  destruct (_numToTwoByteArray v 0 false false) as [two|e4] eqn:Htwo;
    cbn [mbind result_bind]; [|eexists; reflexivity].
  destruct (numToTwoByteArray_two_bytes _ _ _ _ _ Htwo) as (b0 & b1 & -> & _).
  cbn [py_add]. destruct (Hrt (ByteArray [b0; b1])) as [e5 ->]. eexists. reflexivity.
Qed.

(** X22: calls of [write_registers] that raise before anything is written
    or read, the world being left as it was: with a list of more than 127
    values, whatever the runtime (the byte count of the request, twice the
    number of values, must fit one byte); and with any list at all on a
    runtime where adding a [bytearray] to a [str] raises. *)
Theorem X22_write_registers_without_io :
  (forall rt self registeraddress l w,
     (127 < length l)%nat ->
     exists e, write_registers rt self registeraddress (VList l) w = (Raise e, w))
  /\ (forall rt self registeraddress values w,
        (forall b, exists e, mixed_add rt (Str []) b = Raise e) ->
        exists e, write_registers rt self registeraddress values w = (Raise e, w)).
Proof.
  split.
  - intros rt self registeraddress l w Hlong.
    apply write_registers_build_raises. rewrite build_write_registers_eq.
    bind_raises. bind_raises. bind_raises. inner_raises.
    bind_raises. bind_raises. bind_raises. bind_raises. bind_raises.
    unfold _numToOneByteArray.
    destruct (checkInt_cases (Z.of_nat (length l) * 2) 0 255 "inputvalue" ltac:(lia))
      as [[Hr _]|[_ [msg ->]]]; [lia|eexists; reflexivity].
  - intros rt self registeraddress values w Hrt.
    destruct values as [| | |l|]; try (eexists; reflexivity).
    apply write_registers_build_raises. rewrite build_write_registers_eq.
    bind_raises. bind_raises. bind_raises. inner_raises.
    destruct (valuelistToBytestring_raises rt l (Z.of_nat (length l)) Hrt) as [e ->].
    eexists. reflexivity.
Qed.

(** X22 on a list of 128 zeros, and on the runtime where a [str] does not
    mix with bytes. *)
Lemma X22_witness :
  (exists e, write_registers lenient_runtime (Instrument_init 1 1) 0
               (VList (repeat (VInt 0) 128)) silent_line_world
             = (Raise e, silent_line_world))
  /\ (exists e, write_registers strict_runtime (Instrument_init 1 1) 0
                  (VList [VInt 1]) silent_line_world
                = (Raise e, silent_line_world)).
Proof.
  split.
  - apply (proj1 X22_write_registers_without_io lenient_runtime (Instrument_init 1 1) 0
             (repeat (VInt 0) 128) silent_line_world).
    rewrite repeat_length. lia.
  - apply (proj2 X22_write_registers_without_io strict_runtime (Instrument_init 1 1) 0
             (VList [VInt 1]) silent_line_world).
    intros b. eexists. reflexivity.
Defined.

Lemma build_signed_raises rt functioncode registeraddress value numberOfDecimals
    numberOfRegisters payloadformat :
  exists e,
    build_payloadToSlave rt functioncode registeraddress value numberOfDecimals
      numberOfRegisters true payloadformat = Raise e.
Proof.
  unfold build_payloadToSlave. cbv zeta.
  bind_raises. bind_raises. bind_raises. bind_raises. bind_raises. bind_raises.
  eexists. reflexivity.
Qed.

(** X23: the [signed] flag cannot be used.  With [signed] set,
    [_genericCommand] always raises, and nothing is written or read; once
    the other arguments pass their checks the exception is the [NameError]
    of the undefined name [PAYLOADFORMAT_LONG], which is what
    [write_register] raises for every valid address, value and number of
    decimals. *)
Theorem X23_signed_raises_before_io :
  (forall rt self functioncode registeraddress value numberOfDecimals numberOfRegisters
          payloadformat w,
     exists e,
       _genericCommand rt self functioncode registeraddress value numberOfDecimals
         numberOfRegisters true payloadformat w = (Raise e, w))
  /\ (forall rt self registeraddress value numberOfDecimals functioncode w,
        functioncode = 6 \/ functioncode = 16 ->
        0 <= registeraddress <= 65535 -> 0 <= numberOfDecimals <= 10 ->
        is_numerical value ->
        write_register rt self registeraddress value numberOfDecimals functioncode true w
        = (Raise (NameError "PAYLOADFORMAT_LONG"), w)).
Proof.
  split.
  - intros rt self functioncode registeraddress value numberOfDecimals numberOfRegisters
      payloadformat w.
    destruct (build_signed_raises rt functioncode registeraddress value numberOfDecimals
                numberOfRegisters payloadformat) as [e Hb].
    exists e. apply genericCommand_build_raises, Hb.
  - intros rt self registeraddress value numberOfDecimals functioncode w Hf Ha Hd Hnum.
    unfold write_register.
    assert (H1 : _checkFunctioncode functioncode (Some [6; 16]) = Ok tt)
      by (destruct Hf as [-> | ->]; reflexivity).
    assert (H2 : _checkInt (VInt numberOfDecimals) (Some 0) (Some 10) "number of decimals"
                 = Ok tt).
    { unfold _checkInt, _checkNumerical. cbn [num_lt_Z num_gt_Z mbind result_bind].
      case_ltb. reflexivity. }
    rewrite H1, H2, (checkNumerical_unbounded value "input value" Hnum).
    unfold mbind at 1 2 3 4, M_bind, lift.
    assert (Hd0 : 0 <= numberOfDecimals) by lia.
    assert (Hb : build_payloadToSlave rt functioncode registeraddress value numberOfDecimals
                   1 true None = Raise (NameError "PAYLOADFORMAT_LONG")).
    { unfold build_payloadToSlave.
      rewrite (checkRegisteraddress_ok _ Ha), (checkInt_decimals_ok _ Hd0).
      destruct Hf as [-> | ->]; reflexivity. }
    rewrite (genericCommand_build_raises _ _ _ _ _ _ _ _ _ _ w Hb). reflexivity.
Qed.

(** X23 on a signed write of -5 to register 0. *)
Lemma X23_witness :
  write_register lenient_runtime (Instrument_init 1 1) 0 (VInt (-5)) 0 6 true
    register_echo_world
  = (Raise (NameError "PAYLOADFORMAT_LONG"), register_echo_world).
Proof.
  apply (proj2 X23_signed_raises_before_io lenient_runtime (Instrument_init 1 1) 0
           (VInt (-5)) 0 6 register_echo_world).
  - left. reflexivity.
  - lia.
  - lia.
  - exact I.
Defined.

(** ** No call retries *)

Lemma no_events_bounded {A} (m : M A) w :
  snd (m w) = w ->
  exists events, trace (snd (m w)) = trace w ++ events /\ one_exchange_at_most events.
Proof.
  intros ->. exists []. rewrite app_nil_r. split; [reflexivity|].
  repeat split; cbn; lia.
Qed.

Lemma lift_bind_bounded {A B} (r : result A) (k : A -> M B) :
  (forall a, at_most_one_exchange (k a)) -> at_most_one_exchange (lift r ≫= k).
Proof.
  intros Hk w. unfold mbind, M_bind, lift. destruct r as [a|e].
  - apply Hk.
  - apply (no_events_bounded (fun w => (Raise e, w))). reflexivity.
Qed.

Lemma bind_lift_bounded {A B} (m : M A) (f : A -> result B) :
  at_most_one_exchange m -> at_most_one_exchange (m ≫= fun a => lift (f a)).
Proof.
  intros Hm w. destruct (Hm w) as (events & Htrace & Hbound).
  exists events. split; [|exact Hbound].
  unfold mbind, M_bind, lift. destruct (m w) as [[a|e] w']; exact Htrace.
Qed.

Lemma bind_ret_bounded {A B} (m : M A) (b : B) :
  at_most_one_exchange m -> at_most_one_exchange (m ≫= fun _ => mret b).
Proof.
  intros Hm w. destruct (Hm w) as (events & Htrace & Hbound).
  exists events. split; [|exact Hbound].
  unfold mbind, M_bind, mret, M_ret. destruct (m w) as [[a|e] w']; exact Htrace.
Qed.

Lemma communicate_rejected self request size w :
  (forall bs, request = ByteArray bs -> bs = []
     \/ exists e, _calculate_minimum_silent_period (baudrate self) = Raise e) ->
  snd (_communicate self request size w) = w.
Proof.
  intros Hrej. unfold _communicate.
  destruct request as [bs|bs|cs]; try reflexivity.
  destruct (Hrej bs eq_refl) as [->|[e He]]; [reflexivity|].
  destruct (_checkString (ByteArray bs) "request" 1 None) as [[]|e1]; [|reflexivity].
  unfold mbind at 1, M_bind, lift.
  change (_checkInt (VInt size) None None "inputvalue") with (Ok tt).
  unfold mbind at 1, M_bind. rewrite He. reflexivity.
Qed.

Lemma exchange_events_bounded self request size minimum_silent_period w :
  one_exchange_at_most (exchange_events self request size minimum_silent_period w).
Proof.
  unfold one_exchange_at_most. rewrite writes_exchange.
  unfold exchange_events, sleep_events, echo_events.
  destruct (Z_lt_float _ _), (handle_local_echo self), (echo_ok self request w);
    cbn; lia.
Qed.

Lemma communicate_bounded self request size :
  at_most_one_exchange (_communicate self request size).
Proof.
  intros w.
  destruct request as [bs|bs|cs];
    try (apply no_events_bounded, communicate_rejected; intros ? H; discriminate H).
  destruct bs as [|b bs].
  { apply no_events_bounded, communicate_rejected. intros ? [= <-]. left. reflexivity. }
  destruct (_calculate_minimum_silent_period (baudrate self)) as [msp|e] eqn:Hmsp.
  - exists (exchange_events self (b :: bs) size msp w). split.
    + assert (Hne : b :: bs <> []) by discriminate.
      rewrite (communicate_closed_form _ _ _ _ _ Hne Hmsp).
      apply communicate_outcome_trace.
    + apply exchange_events_bounded.
  - apply no_events_bounded, communicate_rejected. intros ? _. right. exists e. exact Hmsp.
Qed.

Lemma performCommand_bounded self functioncode payloadToSlave :
  at_most_one_exchange (_performCommand self functioncode payloadToSlave).
Proof.
  unfold _performCommand.
  apply lift_bind_bounded. intros _. apply lift_bind_bounded. intros _.
  apply lift_bind_bounded. intros request.
  apply bind_lift_bounded, communicate_bounded.
Qed.

Lemma genericCommand_bounded rt self functioncode registeraddress value numberOfDecimals
    numberOfRegisters signed payloadformat :
  at_most_one_exchange
    (_genericCommand rt self functioncode registeraddress value numberOfDecimals
       numberOfRegisters signed payloadformat).
Proof.
  unfold _genericCommand. apply lift_bind_bounded. intros [payloadToSlave fmt].
  apply bind_lift_bounded, performCommand_bounded.
Qed.

(** X24: no call retries.  Whatever the arguments, the settings of the
    instrument, the runtime and the contents of the line, a call of
    [_performCommand], [read_registers], [write_register] or
    [write_registers] adds to the trace at most one write, at most two reads
    (the local echo and the response) and at most one sleep, also when it
    ends with an exception. *)
Theorem X24_at_most_one_exchange rt self :
  (forall functioncode payloadToSlave,
     at_most_one_exchange (_performCommand self functioncode payloadToSlave))
  /\ (forall registeraddress numberOfRegisters functioncode,
        at_most_one_exchange
          (read_registers rt self registeraddress numberOfRegisters functioncode))
  /\ (forall registeraddress value numberOfDecimals functioncode signed,
        at_most_one_exchange
          (write_register rt self registeraddress value numberOfDecimals functioncode signed))
  /\ (forall registeraddress values,
        at_most_one_exchange (write_registers rt self registeraddress values)).
Proof.
  split; [exact (performCommand_bounded self)|]. split; [|split].
  - intros registeraddress numberOfRegisters functioncode. unfold read_registers.
    apply lift_bind_bounded. intros _. apply lift_bind_bounded. intros _.
    apply genericCommand_bounded.
  - intros registeraddress value numberOfDecimals functioncode signed.
    unfold write_register.
    apply lift_bind_bounded. intros _. apply lift_bind_bounded. intros _.
    apply lift_bind_bounded. intros _.
    apply bind_ret_bounded, genericCommand_bounded.
  - intros registeraddress values. unfold write_registers.
    destruct values as [| | |l|];
      try (intros w; apply (no_events_bounded (raise _)); reflexivity).
    apply lift_bind_bounded. intros _.
    apply bind_ret_bounded, genericCommand_bounded.
Qed.

(** ** The local echo *)

Lemma without_local_echo_valid self :
  valid_instrument self -> valid_instrument (without_local_echo self).
Proof. intros H. exact H. Qed.

(** X25: with the handling of the local echo switched on, a valid
    instrument first reads as many bytes as the request has.  When these are
    the request, the transaction goes on as the one of the same instrument
    without echo handling on the line without the echo: same result, same
    recorded read time, and two reads in the trace.  When they are not, it
    raises [IOError]; the response is not read and no read time is
    recorded. *)
Theorem X25_local_echo self functioncode payload minimum_silent_period w :
  valid_instrument self -> handle_local_echo self = true ->
  1 <= functioncode <= 127 ->
  _calculate_minimum_silent_period (baudrate self) = Ok minimum_silent_period ->
  let request := frame (address self) functioncode payload in
  let size := number_of_bytes_to_read_for self functioncode (ByteArray payload) in
  let run := _performCommand self functioncode (ByteArray payload) w in
  let plain := _performCommand (without_local_echo self) functioncode (ByteArray payload)
                 (after_echo w) in
  (echo_read request w = request ->
     fst run = fst plain
     /\ _LATEST_READ_TIMES (snd run) = _LATEST_READ_TIMES (snd plain)
     /\ reads (trace (snd run))
        = reads (trace w) ++ [(port self, Z.of_nat (length request)); (port self, size)])
  /\ (echo_read request w <> request ->
      fst run = Raise (IOError "Local echo handling is enabled, but the local echo does not match the sent request")
      /\ _LATEST_READ_TIMES (snd run) = _LATEST_READ_TIMES w
      /\ reads (trace (snd run))
         = reads (trace w) ++ [(port self, Z.of_nat (length request))]).
Proof.
  intros Hv Hecho Hf Hmsp request size run plain.
  subst run plain.
  rewrite (performCommand_fst _ _ _ _ w Hv Hf Hmsp).
  rewrite (performCommand_snd _ _ _ _ w Hv Hf Hmsp).
  rewrite (performCommand_fst (without_local_echo self) _ _ minimum_silent_period
             (after_echo w) (without_local_echo_valid self Hv) Hf Hmsp).
  rewrite (performCommand_snd (without_local_echo self) _ _ minimum_silent_period
             (after_echo w) (without_local_echo_valid self Hv) Hf Hmsp).
  change (address (without_local_echo self)) with (address self).
  change (number_of_bytes_to_read_for (without_local_echo self) functioncode
            (ByteArray payload)) with size.
  fold request. fold size.
  unfold communicate_outcome, echo_ok, answer_read, response_on_line, echo_events.
  rewrite Hecho. cbn [handle_local_echo without_local_echo negb orb].
  split.
  - intros Hsame. rewrite Hsame, list_Z_eqb_refl.
    cbn [fst snd _LATEST_READ_TIMES trace after_echo incoming ticks port].
    split; [reflexivity|]. split; [reflexivity|].
    rewrite !reads_app. cbn. unfold sleep_events.
    destruct (Z_lt_float _ _); cbn; rewrite <- ?app_assoc; reflexivity.
  - intros Hdiff. rewrite (list_Z_eqb_false _ _ Hdiff).
    cbn [fst snd _LATEST_READ_TIMES trace].
    split; [reflexivity|]. split; [reflexivity|].
    rewrite !reads_app. cbn. unfold sleep_events.
    destruct (Z_lt_float _ _); cbn; rewrite ?app_nil_r, <- ?app_assoc; reflexivity.
Qed.

(** X25 on the echo of the request followed by the response of the
    slave: the result is the one of the plain transaction. *)
Lemma X25_witness :
  fst (_performCommand echoing_instrument 3 (ByteArray [0; 0; 0; 1]) echo_line_world)
  = fst (_performCommand (without_local_echo echoing_instrument) 3 (ByteArray [0; 0; 0; 1])
           (after_echo echo_line_world)).
Proof.
  assert (Hv : valid_instrument echoing_instrument) by (split; [cbn; lia|reflexivity]).
  assert (Hf : 1 <= 3 <= 127) by lia.
  assert (Hsame : echo_read (frame (address echoing_instrument) 3 [0; 0; 0; 1])
                    echo_line_world
                  = frame (address echoing_instrument) 3 [0; 0; 0; 1])
    by (vm_compute; reflexivity).
  exact (proj1 (proj1 (X25_local_echo echoing_instrument 3 [0; 0; 0; 1]
                         (S754_finite false 4515327751400107 (-50)) echo_line_world
                         Hv eq_refl Hf default_silent_period) Hsame)).
Defined.

(** ** Two calls in a row *)

Lemma communicate_sleeps self request size minimum_silent_period w :
  request <> [] ->
  _calculate_minimum_silent_period (baudrate self) = Ok minimum_silent_period ->
  sleeps (trace (snd (_communicate self (ByteArray request) size w)))
  = sleeps (trace w)
    ++ (if Z_lt_float (time_since_read self w) minimum_silent_period
        then [SF64sub minimum_silent_period (Z2SF (time_since_read self w))]
        else []).
Proof.
  intros Hne Hmsp. rewrite (communicate_closed_form _ _ _ _ _ Hne Hmsp).
  rewrite communicate_outcome_trace, sleeps_app, sleeps_exchange. reflexivity.
Qed.

(** X26: the silence before a request is measured from the read of the
    previous response on the same port, by whichever instrument.  After an
    exchange whose response read was followed by the clock value [t2], the
    next exchange on that port takes the clock value [t3] and sleeps exactly
    when [t3 - t2] is below its minimum silent period, for the difference. *)
Theorem X26_silence_since_previous_read self other request request' size size'
    minimum_silent_period minimum_silent_period' w :
  request <> [] -> request' <> [] ->
  _calculate_minimum_silent_period (baudrate self) = Ok minimum_silent_period ->
  _calculate_minimum_silent_period (baudrate other) = Ok minimum_silent_period' ->
  port other = port self ->
  echo_ok self request w = true ->
  let w1 := snd (_communicate self (ByteArray request) size w) in
  let t2 := hd 0 (tl (tl (ticks w))) in
  let t3 := hd 0 (tl (tl (tl (ticks w)))) in
  sleeps (trace (snd (_communicate other (ByteArray request') size' w1)))
  = sleeps (trace w1)
    ++ (if Z_lt_float (t3 - t2) minimum_silent_period'
        then [SF64sub minimum_silent_period' (Z2SF (t3 - t2))]
        else []).
Proof.
  intros Hne Hne' Hmsp Hmsp' Hport Hecho w1 t2 t3.
  rewrite (communicate_sleeps other request' size' _ w1 Hne' Hmsp').
  assert (Hgap : time_since_read other w1 = t3 - t2).
  { subst w1 t2 t3. rewrite (communicate_closed_form _ _ _ _ _ Hne Hmsp).
    unfold time_since_read, communicate_outcome. rewrite Hecho, Hport.
    cbn [snd ticks _LATEST_READ_TIMES]. rewrite lookup_insert_eq. reflexivity. }
  rewrite Hgap. reflexivity.
Qed.

(** X26 on two reads in a row: the response of the first was read at tick
    105, the second call starts at tick 107 and sleeps for the minimum
    (about 4.01) less 2. *)
Lemma X26_witness :
  let self := Instrument_init 1 1 in
  let request := frame 1 3 [0; 0; 0; 1] in
  let msp := S754_finite false 4515327751400107 (-50) in
  let w1 := snd (_communicate self (ByteArray request) 7 two_calls_world) in
  sleeps (trace (snd (_communicate self (ByteArray request) 7 w1)))
  = sleeps (trace w1)
    ++ (if Z_lt_float (107 - 105) msp then [SF64sub msp (Z2SF (107 - 105))] else []).
Proof.
  assert (Hne : frame 1 3 [0; 0; 0; 1] <> []) by discriminate.
  exact (X26_silence_since_previous_read (Instrument_init 1 1) (Instrument_init 1 1)
           (frame 1 3 [0; 0; 0; 1]) (frame 1 3 [0; 0; 0; 1]) 7 7
           (S754_finite false 4515327751400107 (-50))
           (S754_finite false 4515327751400107 (-50)) two_calls_world
           Hne Hne default_silent_period default_silent_period eq_refl eq_refl).
Defined.

(** ** Instruments that cannot communicate *)

Lemma performCommand_embed_raises self functioncode payloadToSlave e w :
  _embedPayload (address self) (mode self) functioncode payloadToSlave = Raise e ->
  exists e', _performCommand self functioncode payloadToSlave w = (Raise e', w).
Proof.
  intros He. unfold _performCommand.
  destruct (_checkFunctioncode functioncode None) as [[]|e1];
    unfold mbind at 1, M_bind, lift; [|eexists; reflexivity].
  destruct (_checkString payloadToSlave "payload" 0 None) as [[]|e2];
    unfold mbind at 1, M_bind; [|eexists; reflexivity].
  rewrite He. eexists. reflexivity.
Qed.

Lemma embedPayload_invalid slaveaddress mode functioncode payloaddata :
  ~ (0 <= slaveaddress <= 247 /\ mode = "rtu") ->
  exists e, _embedPayload slaveaddress mode functioncode payloaddata = Raise e.
Proof.
  intros Hbad. unfold _embedPayload, _checkSlaveaddress, _checkMode, MODE_RTU. cbv zeta.
  destruct (checkInt_cases slaveaddress 0 247 "slaveaddress" ltac:(lia))
    as [[Ha Ea]|[Ha [msg Ea]]]; rewrite Ea; cbn [mbind result_bind];
    [|eexists; reflexivity].
  destruct (String.eqb_spec mode "rtu") as [Hm|Hm]; cbn [mbind result_bind];
    [|eexists; reflexivity].
  exfalso. apply Hbad. split; assumption.
Qed.

Lemma communicate_period_raises self request size e w :
  _calculate_minimum_silent_period (baudrate self) = Raise e ->
  exists e', _communicate self request size w = (Raise e', w).
Proof.
  intros He. unfold _communicate.
  destruct (_checkString request "request" 1 None) as [[]|e1];
    unfold mbind at 1, M_bind, lift; [|eexists; reflexivity].
  change (_checkInt (VInt size) None None "inputvalue") with (Ok tt).
  unfold mbind at 1, M_bind. rewrite He. eexists. reflexivity.
Qed.

(** X27: the constructor checks nothing, and a badly configured
    instrument fails at its first transaction.  With a slave address
    outside [0, 247], a mode other than ['rtu'], or a baud rate that
    [_calculate_minimum_silent_period] rejects (every integer below 1 is
    rejected with [ValueError]: no division by zero can occur),
    [_performCommand] raises and nothing is written, read or recorded. *)
Theorem X27_unusable_instrument :
  (forall self functioncode payloadToSlave w,
     ~ valid_instrument self
     \/ (exists e, _calculate_minimum_silent_period (baudrate self) = Raise e) ->
     exists e, _performCommand self functioncode payloadToSlave w = (Raise e, w))
  /\ (forall b, b < 1 ->
        _calculate_minimum_silent_period (VInt b)
        = Raise (ValueError "The baudrate is too small")).
Proof.
  split.
  - intros self functioncode payloadToSlave w [Hbad|[e He]].
    + destruct (embedPayload_invalid (address self) (mode self) functioncode payloadToSlave
                  Hbad) as [e He].
      apply (performCommand_embed_raises _ _ _ _ w He).
    + destruct (_embedPayload (address self) (mode self) functioncode payloadToSlave)
        as [request|e1] eqn:Hemb;
        [|apply (performCommand_embed_raises _ _ _ _ w Hemb)].
      unfold _performCommand.
      destruct (_checkFunctioncode functioncode None) as [[]|e1];
        unfold mbind at 1, M_bind, lift; [|eexists; reflexivity].
      destruct (_checkString payloadToSlave "payload" 0 None) as [[]|e2];
        unfold mbind at 1, M_bind; [|eexists; reflexivity].
      rewrite Hemb. unfold mbind at 1, M_bind. unfold mbind at 1, M_bind.
      destruct (communicate_period_raises self request
                  (number_of_bytes_to_read_for self functioncode payloadToSlave) e w He)
        as [e' ->].
      eexists. reflexivity.
  - intros b Hb. unfold _calculate_minimum_silent_period, _checkNumerical.
    cbn [num_lt_Z num_gt_Z mbind result_bind].
    destruct (Z.ltb_spec b 1); [reflexivity|lia].
Qed.

(** X27 on an instrument constructed with the slave address 300. *)
Lemma X27_witness :
  exists e,
    _performCommand (Instrument_init 1 300) 3 (ByteArray [0; 0; 0; 1]) silent_line_world
    = (Raise e, silent_line_world).
Proof.
  apply (proj1 X27_unusable_instrument (Instrument_init 1 300) 3 (ByteArray [0; 0; 0; 1])
           silent_line_world).
  left. unfold valid_instrument. cbn. lia.
Defined.

(** ** Hexadecimal dumps *)

Lemma format_02X_bytes : forall_upto format_02X_is_two_digits 0 (Z.to_nat 256) = true.
Proof. vm_compute. reflexivity. Qed.

Lemma span_256 : Z.of_nat (Z.to_nat 256) = 256.
Proof. reflexivity. Qed.

Lemma format_02X_byte b :
  is_byte b -> format_02X b = string_of_list_ascii (two_digits b).
Proof.
  intros Hb. unfold is_byte in Hb.
  assert (Hb' : 0 <= b < 0 + Z.of_nat (Z.to_nat 256)) by (rewrite span_256; lia).
  pose proof (forall_upto_sound format_02X_is_two_digits (Z.to_nat 256) 0
                format_02X_bytes b Hb') as H.
  unfold format_02X_is_two_digits in H. apply String.eqb_eq in H. exact H.
Qed.

Lemma hex_digits_read_back : forall_upto hex_digit_reads_back 0 (Z.to_nat 16) = true.
Proof. vm_compute. reflexivity. Qed.

Lemma hex_digit_ok d :
  0 <= d < 16 ->
  hex_value (hex_digit d) = Some d
  /\ is_space (hex_digit d) = false /\ Ascii.eqb (hex_digit d) " " = false.
Proof.
  intros Hd.
  assert (Hd' : 0 <= d < 0 + Z.of_nat (Z.to_nat 16))
    by (change (Z.of_nat (Z.to_nat 16)) with 16; lia).
  pose proof (forall_upto_sound hex_digit_reads_back (Z.to_nat 16) 0
                hex_digits_read_back d Hd') as H.
  unfold hex_digit_reads_back in H.
  destruct (hex_value (hex_digit d)) as [v|]; [|discriminate].
  apply andb_prop in H as [H H3]. apply andb_prop in H as [H1 H2].
  apply Z.eqb_eq in H1. subst v.
  split; [reflexivity|]. split; apply negb_true_iff; assumption.
Qed.

Lemma byte_nibbles b : is_byte b -> 0 <= b / 16 < 16 /\ 0 <= b mod 16 < 16.
Proof.
  unfold is_byte. intros Hb. split.
  - split; [apply Z.div_pos; lia|apply Z.div_lt_upper_bound; lia].
  - apply Z.mod_pos_bound. lia.
Qed.

Lemma list_ascii_of_string_app s t :
  list_ascii_of_string (s ++ t) = list_ascii_of_string s ++ list_ascii_of_string t.
Proof.
  induction s as [|c s IH]; [reflexivity|].
  change (String c s ++ t)%string with (String c (s ++ t)).
  cbn [list_ascii_of_string app]. rewrite IH. reflexivity.
Qed.

Lemma string_length_list s : String.length s = length (list_ascii_of_string s).
Proof. induction s as [|c s IH]; [reflexivity|]. cbn. rewrite IH. reflexivity. Qed.

Lemma concat_cons separator x y ys :
  String.concat separator (x :: y :: ys)
  = (x ++ separator ++ String.concat separator (y :: ys))%string.
Proof. reflexivity. Qed.

Lemma dump_cons separator b b' rest :
  dump separator (b :: b' :: rest)
  = two_digits b ++ separator ++ dump separator (b' :: rest).
Proof. reflexivity. Qed.

(** The text joined by [_hexencode], before [strip]. *)
Lemma concat_dump separator bs :
  Forall is_byte bs ->
  list_ascii_of_string (String.concat separator (map format_02X bs))
  = dump (list_ascii_of_string separator) bs.
Proof.
  induction 1 as [|b rest Hb Hrest IH]; [reflexivity|].
  cbn [map]. destruct rest as [|b' rest].
  - cbn [map String.concat dump]. rewrite (format_02X_byte b Hb).
    apply list_ascii_of_string_of_list_ascii.
  - cbn [map] in *. rewrite concat_cons, dump_cons.
    rewrite !list_ascii_of_string_app, IH, (format_02X_byte b Hb).
    rewrite list_ascii_of_string_of_list_ascii. reflexivity.
Qed.

Lemma dump_ends separator bs :
  Forall is_byte bs -> bs <> [] ->
  exists first middle last,
    dump separator bs = first :: middle ++ [last]
    /\ is_space first = false /\ is_space last = false.
Proof.
  induction 1 as [|b rest Hb Hrest IH]; intros Hne; [contradiction|].
  destruct (byte_nibbles b Hb) as [Hhi Hlo].
  destruct (hex_digit_ok _ Hhi) as (_ & Hs1 & _).
  destruct (hex_digit_ok _ Hlo) as (_ & Hs0 & _).
  destruct rest as [|b' rest].
  - exists (hex_digit (b / 16)), [], (hex_digit (b mod 16)). auto.
  - destruct IH as (first & middle & last & E & _ & Hlast); [discriminate|].
    rewrite dump_cons, E.
    exists (hex_digit (b / 16)),
      (hex_digit (b mod 16) :: separator ++ first :: middle), last.
    split; [|auto]. unfold two_digits. cbn [app].
    rewrite <- !app_assoc. reflexivity.
Qed.

Lemma strip_dump separator bs :
  Forall is_byte bs ->
  py_strip (string_of_list_ascii (dump separator bs))
  = string_of_list_ascii (dump separator bs).
Proof.
  intros Hbytes. unfold py_strip. rewrite list_ascii_of_string_of_list_ascii.
  destruct bs as [|b rest]; [reflexivity|].
  assert (Hne : b :: rest <> []) by discriminate.
  destruct (dump_ends separator (b :: rest) Hbytes Hne)
    as (first & middle & last & -> & Hfirst & Hlast).
  cbn [lstrip]. rewrite Hfirst.
  change (first :: middle ++ [last]) with ((first :: middle) ++ [last]).
  rewrite rev_app_distr. cbn [rev app lstrip]. rewrite Hlast.
  change (last :: rev middle ++ [first]) with (rev [last] ++ rev (first :: middle)).
  rewrite <- rev_app_distr, rev_involutive. reflexivity.
Qed.

Lemma hexencode_dump bs insert_spaces :
  Forall is_byte bs ->
  _hexencode (ByteArray bs) insert_spaces
  = Ok (string_of_list_ascii (dump (if insert_spaces then [" "%char] else []) bs)).
Proof.
  intros Hbytes. unfold _hexencode. cbv zeta. cbn [mbind result_bind]. f_equal.
  rewrite <- (string_of_list_ascii_of_string (String.concat _ _)).
  rewrite (concat_dump _ _ Hbytes).
  destruct insert_spaces; cbn [negb]; apply strip_dump, Hbytes.
Qed.

Lemma unhex_dump (insert_spaces : bool) bs :
  Forall is_byte bs ->
  unhex (dump (if insert_spaces then [" "%char] else []) bs) = Some bs.
Proof.
  induction 1 as [|b rest Hb Hrest IH]; [reflexivity|].
  destruct (byte_nibbles b Hb) as [Hhi Hlo].
  destruct (hex_digit_ok _ Hhi) as (Hv1 & _ & Hn1).
  destruct (hex_digit_ok _ Hlo) as (Hv0 & _ & _).
  assert (Hb16 : b / 16 * 16 + b mod 16 = b)
    by (pose proof (Z.div_mod b 16 ltac:(lia)); lia).
  destruct rest as [|b' rest].
  - cbn [dump two_digits unhex]. rewrite Hn1, Hv1, Hv0, Hb16. reflexivity.
  - rewrite dump_cons. unfold two_digits at 1. cbn [app unhex].
    rewrite Hn1, Hv1, Hv0.
    destruct insert_spaces; cbn [app unhex Ascii.eqb Bool.eqb]; rewrite IH, Hb16;
      reflexivity.
Qed.

Lemma dump_length (insert_spaces : bool) bs :
  length (dump (if insert_spaces then [" "%char] else []) bs)
  = if insert_spaces then (3 * length bs - 1)%nat else (2 * length bs)%nat.
Proof.
  induction bs as [|b rest IH]; [destruct insert_spaces; reflexivity|].
  destruct rest as [|b' rest]; [destruct insert_spaces; reflexivity|].
  rewrite dump_cons. unfold two_digits at 1. cbn [app length] in *.
  rewrite length_app, IH. destruct insert_spaces; cbn [length]; lia.
Qed.

(** X28: the hexadecimal dump of a [bytearray] or of [bytes].
    [_hexencode] gives two upper-case digits per byte, and [_hexlify] puts
    one space between the bytes: the text has [2 * n] characters, or
    [3 * n - 1] with the spaces, [strip] removes nothing, and reading the
    digits back gives the bytes.  A [str] with a character raises
    [ValueError]. *)
Theorem X28_hexencode bs insert_spaces :
  Forall is_byte bs ->
  exists text,
    _hexencode (ByteArray bs) insert_spaces = Ok text
    /\ _hexencode (Bytes bs) insert_spaces = Ok text
    /\ (insert_spaces = true -> _hexlify (ByteArray bs) = Ok text)
    /\ String.length text
       = (if insert_spaces then (3 * length bs - 1)%nat else (2 * length bs)%nat)
    /\ unhex (list_ascii_of_string text) = Some bs
    /\ (forall c cs, exists msg,
          _hexencode (Str (c :: cs)) insert_spaces = Raise (ValueError msg)).
Proof.
  intros Hbytes. eexists. split; [apply (hexencode_dump bs insert_spaces Hbytes)|].
  split; [apply (hexencode_dump bs insert_spaces Hbytes)|].
  split; [intros ->; apply (hexencode_dump bs true Hbytes)|].
  rewrite string_length_list, list_ascii_of_string_of_list_ascii.
  split; [apply dump_length|]. split; [apply unhex_dump, Hbytes|].
  intros c cs. eexists. reflexivity.
Qed.

(** X28 on the request 01 03 00 00 00 01 84 0A. *)
Lemma X28_witness :
  exists text,
    _hexencode (ByteArray [0x01; 0x03; 0x00; 0x00; 0x00; 0x01; 0x84; 0x0A]) true = Ok text
    /\ _hexencode (Bytes [0x01; 0x03; 0x00; 0x00; 0x00; 0x01; 0x84; 0x0A]) true = Ok text
    /\ (true = true ->
        _hexlify (ByteArray [0x01; 0x03; 0x00; 0x00; 0x00; 0x01; 0x84; 0x0A]) = Ok text)
    /\ String.length text = (3 * 8 - 1)%nat
    /\ unhex (list_ascii_of_string text)
       = Some [0x01; 0x03; 0x00; 0x00; 0x00; 0x01; 0x84; 0x0A]
    /\ (forall c cs, exists msg, _hexencode (Str (c :: cs)) true = Raise (ValueError msg)).
Proof.
  apply (X28_hexencode [0x01; 0x03; 0x00; 0x00; 0x00; 0x01; 0x84; 0x0A] true).
  repeat (apply Forall_cons; split; [unfold is_byte; lia|]). apply Forall_nil. exact I.
Defined.

(** ** [__repr__] *)

(** X29: [repr] of an instrument always raises.  The template of
    [__repr__] has nine replacement fields and is given eight arguments,
    so the last field finds no argument and [str.format] raises
    [IndexError], whatever the instrument and however the arguments
    render; with one more argument the template would format. *)
Theorem X29_repr_raises render info self :
  __repr__ render info self = Raise (IndexError "Replacement index out of range")
  /\ (forall extra, exists text,
        str_format render
          (list_ascii_of_string
             "{}.{}<id=0x{:x}, address={}, mode={}, close_port_after_each_call={}, precalculate_read_size={}, debug={}, serial={}>")
          None
          [AStr (__module__ info); AStr (__name__ info); AInt (object_id info);
           AInt (address self); AStr (mode self); ABool (precalculate_read_size self);
           ABool (debug info); AObject (serial info); extra]
        = Ok text).
Proof.
  split; [reflexivity|]. intros extra. eexists. reflexivity.
Qed.
